(** * Evergy portal client (pyEvergy.py): a shallow embedding

    The development follows [custom_components/evergy/pyEvergy.py]: the
    date helpers, the widget parser, the login handshake of
    [EvergyLoginHandler], and the [Evergy] client with [login], [logout]
    and [get_usage_range].

    Python objects are mutable and survive an exception, so every method
    is a function from a state to an outcome paired with the state that
    is left behind, also when the outcome is an exception.  The network
    is a script of responses consumed one per request, next to the log of
    the requests that were issued.

    Conventions of the embedding:
    - JSON numbers are integers; floating-point values are left out.
    - [assert] statements are active (the interpreter runs without -O).
    - the module constant [_DEBUG] is [False], so [log_response] is never
      called.
    - a datetime is its wall-clock time in microseconds since
      0001-01-01T00:00:00, with an optional fixed UTC offset; the [fold]
      attribute is left out. *)

From Stdlib Require Import ZArith List String Ascii Bool Lia.
Import ListNotations.

Local Open Scope string_scope.
Local Open Scope Z_scope.

(** ** Exceptions and outcomes *)

Inductive exn : Type :=
| InvalidAuth (message : string)
| EvergyException (message : string)
| AssertionError (message : string)
| RuntimeError (message : string)
| StopIteration
| KeyError
| IndexError
| TypeError
| AttributeError (name : string)
| OverflowError
| ClientResponseError      (* raise_for_status=True on a status >= 400 *)
| ClientConnectionError    (* the request got no response *)
| ContentTypeError         (* resp.json() on a body that is not application/json *)
| JSONDecodeError.         (* json.loads failed on the body *)

Inductive res (A : Type) : Type :=
| Ok (a : A)
| Raise (e : exn).

Arguments Ok {A} a.
Arguments Raise {A} e.

Definition res_bind {A B : Type} (r : res A) (k : A -> res B) : res B :=
  match r with
  | Ok a => k a
  | Raise e => Raise e
  end.

(** ** datetime and timedelta *)

Module Datetime.

Definition US_PER_MINUTE : Z := 60 * 1000000.
Definition US_PER_HOUR : Z := 60 * US_PER_MINUTE.
Definition US_PER_DAY : Z := 24 * US_PER_HOUR.

(** [date.max.toordinal()]: the days from 0001-01-01 to 9999-12-31. *)
Definition MAX_ORDINAL : Z := 3652059.

(** [timedelta.max.days]. *)
Definition MAX_DELTA_DAYS : Z := 999999999.

Record datetime : Type := mkDatetime {
  wall : Z;                 (* microseconds since 0001-01-01T00:00:00 *)
  utcoffset : option Z      (* tzinfo: None for a naive datetime *)
}.

Definition MAX_WALL : Z := MAX_ORDINAL * US_PER_DAY - 1.

Definition datetime_min : datetime := mkDatetime 0 None.
Definition datetime_max : datetime := mkDatetime MAX_WALL None.

(** The values the type [datetime] of Python holds. *)
Definition in_range (w : Z) : bool := (0 <=? w) && (w <=? MAX_WALL).
Definition valid (d : datetime) : Prop := 0 <= wall d <= MAX_WALL.

(** A timedelta is its length in microseconds. *)
Definition timedelta_t : Type := Z.

(** [timedelta(days=..., hours=..., minutes=...)]: the constructor
    normalises to days, seconds and microseconds and raises
    OverflowError when the days exceed [MAX_DELTA_DAYS] in magnitude. *)
Definition timedelta (days hours minutes : Z) : res timedelta_t :=
  let us := days * US_PER_DAY + hours * US_PER_HOUR + minutes * US_PER_MINUTE in
  if Z.abs (us / US_PER_DAY) <=? MAX_DELTA_DAYS then Ok us else Raise OverflowError.

(** [d + td]: the tzinfo is kept, the wall clock moves, and a result
    outside of years 1..9999 raises OverflowError. *)
Definition add (d : datetime) (td : timedelta_t) : res datetime :=
  let w := wall d + td in
  if in_range w then Ok (mkDatetime w (utcoffset d)) else Raise OverflowError.

(** [d - td]. *)
Definition sub (d : datetime) (td : timedelta_t) : res datetime :=
  let w := wall d - td in
  if in_range w then Ok (mkDatetime w (utcoffset d)) else Raise OverflowError.

(** [a > b]: naive with naive by wall clock, aware with aware by UTC
    instant, and TypeError for a naive against an aware one. *)
Definition gt (a b : datetime) : res bool :=
  match utcoffset a, utcoffset b with
  | None, None => Ok (wall b <? wall a)
  | Some oa, Some ob => Ok (wall b - ob <? wall a - oa)
  | _, _ => Raise TypeError
  end.

(** The datetime [units] microseconds after [d], as a plain value. *)
Definition shift (d : datetime) (us : Z) : datetime :=
  mkDatetime (wall d + us) (utcoffset d).

End Datetime.

Import Datetime.

Definition DAY_INTERVAL : string := "d".
Definition HOUR_INTERVAL : string := "h".
Definition FIFTEEN_MINUTE_INTERVAL : string := "mi".

(** [get_past_date(days_back)]; [utc_today] is the ordinal (days since
    0001-01-01) of [datetime.now(timezone.utc).date()]. *)
Definition get_past_date (utc_today : Z) (days_back : Z) : res datetime :=
  let dt_today := mkDatetime (utc_today * US_PER_DAY) None in
  res_bind (timedelta days_back 0 0) (fun td => sub dt_today td).

(** [get_end_date_from_number_of_intervals(from_date, num_intervals, interval)]. *)
Definition get_end_date_from_number_of_intervals
    (from_date : datetime) (num_intervals : Z) (interval : string) : res datetime :=
  let num_intervals := num_intervals - 1 in
  if String.eqb interval "mi" then
    res_bind (timedelta 0 0 (15 * num_intervals)) (fun td => add from_date td)
  else if String.eqb interval "h" then
    res_bind (timedelta 0 num_intervals 0) (fun td => add from_date td)
  else
    res_bind (timedelta num_intervals 0 0) (fun td => add from_date td).

(** The length of one interval in microseconds, as the spec names it:
    fifteen minutes, one hour, one day. *)
Definition interval_unit (interval : string) : Z :=
  if String.eqb interval "mi" then 15 * US_PER_MINUTE
  else if String.eqb interval "h" then US_PER_HOUR
  else US_PER_DAY.

(** ** JSON values and the Python operations the code applies to them *)

#[warnings="-register-all"]
Inductive json : Type :=
| JNull                                     (* None *)
| JBool (b : bool)
| JInt (n : Z)
| JStr (s : string)
| JArr (items : list json)
| JObj (fields : list (string * json)).     (* a dict with str keys *)

(** A dict with str keys, in insertion order. *)
Definition dict (V : Type) : Type := list (string * V).

Fixpoint dict_get {V : Type} (d : dict V) (key : string) : option V :=
  match d with
  | [] => None
  | (k, v) :: d' => if String.eqb k key then Some v else dict_get d' key
  end.

(** [d[key] = v]. *)
Fixpoint dict_set {V : Type} (d : dict V) (key : string) (v : V) : dict V :=
  match d with
  | [] => [(key, v)]
  | (k, w) :: d' =>
      if String.eqb k key then (k, v) :: d' else (k, w) :: dict_set d' key v
  end.

(** [a == b] on JSON values: [True == 1], lists by position, dicts by key. *)
Fixpoint py_eq (a b : json) {struct a} : bool :=
  match a, b with
  | JNull, JNull => true
  | JBool x, JBool y => Bool.eqb x y
  | JBool x, JInt y => (if x then 1 else 0) =? y
  | JInt x, JBool y => x =? (if y then 1 else 0)
  | JInt x, JInt y => x =? y
  | JStr x, JStr y => String.eqb x y
  | JArr xs, JArr ys =>
      (fix items_eq (xs ys : list json) {struct xs} : bool :=
         match xs, ys with
         | [], [] => true
         | x :: xs', y :: ys' => py_eq x y && items_eq xs' ys'
         | _, _ => false
         end) xs ys
  | JObj xs, JObj ys =>
      Nat.eqb (List.length xs) (List.length ys) &&
      (fix fields_eq (xs : list (string * json)) {struct xs} : bool :=
         match xs with
         | [] => true
         | (k, v) :: xs' =>
             match dict_get ys k with
             | Some w => py_eq v w
             | None => false
             end && fields_eq xs'
         end) xs
  | _, _ => false
  end.

(** [a != b]. *)
Definition py_ne (a b : json) : bool := negb (py_eq a b).

(** [bool(v)]. *)
Definition truthy (v : json) : bool :=
  match v with
  | JNull => false
  | JBool b => b
  | JInt n => negb (n =? 0)
  | JStr s => negb (String.eqb s "")
  | JArr items => match items with [] => false | _ => true end
  | JObj fields => match fields with [] => false | _ => true end
  end.

(** [len(v)]. *)
Definition py_len (v : json) : res Z :=
  match v with
  | JStr s => Ok (Z.of_nat (String.length s))
  | JArr items => Ok (Z.of_nat (List.length items))
  | JObj fields => Ok (Z.of_nat (List.length fields))
  | _ => Raise TypeError
  end.

(** [v[key]] for a str key. *)
Definition getitem (v : json) (key : string) : res json :=
  match v with
  | JObj fields =>
      match dict_get fields key with
      | Some w => Ok w
      | None => Raise KeyError
      end
  | _ => Raise TypeError
  end.

(** [v[0]]. *)
Definition getitem0 (v : json) : res json :=
  match v with
  | JArr items =>
      match items with
      | x :: _ => Ok x
      | [] => Raise IndexError
      end
  | JStr s =>
      match s with
      | String c _ => Ok (JStr (String c EmptyString))
      | EmptyString => Raise IndexError
      end
  | JObj _ => Raise KeyError
  | _ => Raise TypeError
  end.

(** [v is None]. *)
Definition is_none (v : json) : bool :=
  match v with
  | JNull => true
  | _ => false
  end.

(** The right operand of [str + v]: only a str concatenates. *)
Definition as_str (v : json) : res string :=
  match v with
  | JStr s => Ok s
  | _ => Raise TypeError
  end.

(** An attribute that is annotated in [__init__] but not assigned yet. *)
Definition getattr {A : Type} (name : string) (field : option A) : res A :=
  match field with
  | Some a => Ok a
  | None => Raise (AttributeError name)
  end.

(** [d[key]] on a dict of strings. *)
Definition dict_item (d : dict string) (key : string) : res string :=
  match dict_get d key with
  | Some v => Ok v
  | None => Raise KeyError
  end.

(** ** Requests, responses and the world *)

Definition attrs_t : Type := list (string * option string).
Definition starttag : Type := (string * attrs_t)%type.

(** The URLs the client builds, by their template and its arguments:
    - [LoginPageUrl]: https://www.evergy.com/log-in
    - [SdkTokenUrl r c]: r.replace("auth", "orchestrate-api") + "/v1/company/" + c + "/sdktoken"
    - [FlowStartUrl r c p]: r + "/" + c + "/davinci/policy/" + p + "/start"
    - [CustomHTMLTemplateUrl r c k]: r + "/" + c + "/davinci/connections/" + k + "/capabilities/customHTMLTemplate"
    - [SetCookieWithoutUserUrl r c k]: the same with "/capabilities/setCookieWithoutUser"
    - [PostProcessingUrl p]: "https://www.evergy.com" + p
    - [LogoutPageUrl]: https://www.evergy.com/logout
    - [AccountSummaryUrl]: account_summary_url
    - [AccountDashboardUrl n]: account_dashboard_url.format(accountNum=n)
    - [UsageDataUrl p i s e]: usageDataUrl.format(premise_id=p, interval=i,
      start=s.isoformat(), end=e.isoformat()) *)
Inductive url : Type :=
| LoginPageUrl
| SdkTokenUrl (api_root company_id : string)
| FlowStartUrl (api_root company_id policy_id : string)
| CustomHTMLTemplateUrl (api_root company_id connectionId : string)
| SetCookieWithoutUserUrl (api_root company_id connectionId : string)
| PostProcessingUrl (post_processing_api : string)
| LogoutPageUrl
| AccountSummaryUrl
| AccountDashboardUrl (accountNum : json)
| UsageDataUrl (premise_id : json) (interval : string) (start_ end_ : datetime).

Inductive http_method : Type := GET | POST.

Record request : Type := mkRequest {
  req_method : http_method;
  req_url : url;
  req_headers : dict json;
  req_data : option json        (* the value handed to json.dumps *)
}.

(** A response, by what the client can observe of it: the status, the
    content type, the body as text, the start tags [HTMLParser.feed]
    reports for that text, and what [json.loads] makes of it ([None] when
    it raises). *)
Record response : Type := mkResponse {
  resp_ok : bool;                     (* status < 400 *)
  resp_is_json : bool;                (* Content-Type: application/json *)
  resp_text : string;
  resp_starttags : list starttag;
  resp_loads : option json
}.

Definition USER_AGENT : string :=
  "Mozilla/5.0 (Windows NT 10.0; Win64; x64) AppleWebKit/537.36 (KHTML, like Gecko) Chrome/136.0.0.0 Safari/537.36".

(** ASCII whitespace, as [bytes.strip()] removes it. *)
Definition is_space (c : ascii) : bool :=
  let n := nat_of_ascii c in
  (Nat.eqb n 32 || (Nat.leb 9 n && Nat.leb n 13))%bool.

Fixpoint blank (s : string) : bool :=
  match s with
  | EmptyString => true
  | String c s' => is_space c && blank s'
  end.

(** [await resp.json(content_type=...)] of aiohttp: the content type is
    checked unless [content_type=None]; a blank body gives [None]. *)
Definition resp_json (check_content_type : bool) (r : response) : res json :=
  if check_content_type && negb (resp_is_json r) then Raise ContentTypeError
  else if blank (resp_text r) then Ok JNull
  else match resp_loads r with
       | Some v => Ok v
       | None => Raise JSONDecodeError
       end.

(** The world outside of the objects: the responses still to come, the
    requests issued so far (oldest first), the [aiohttp.ClientSession]
    objects created so far with their closed flag, and the UTC date, which
    stays the same while one method runs. *)
Record world : Type := mkWorld {
  script : list response;
  trace : list request;
  sessions : list bool;
  utc_today : Z
}.

Definition session_ref : Type := nat.

(** ** The monad: state that survives exceptions *)

Definition M (S A : Type) : Type := S -> res A * S.

Definition ret {S A : Type} (a : A) : M S A := fun s => (Ok a, s).

Definition raise {S A : Type} (e : exn) : M S A := fun s => (Raise e, s).

Definition bind {S A B : Type} (m : M S A) (k : A -> M S B) : M S B :=
  fun s =>
    match m s with
    | (Ok a, s') => k a s'
    | (Raise e, s') => (Raise e, s')
    end.

Definition lift {S A : Type} (r : res A) : M S A := fun s => (r, s).

Definition gets {S A : Type} (f : S -> A) : M S A := fun s => (Ok (f s), s).

Definition modify {S : Type} (f : S -> S) : M S unit := fun s => (Ok tt, f s).

(** [assert cond, message]. *)
Definition assert {S : Type} (cond : bool) (message : string) : M S unit :=
  if cond then ret tt else raise (AssertionError message).

(** Runs a computation on the world inside a state that pairs an object
    with the world. *)
Definition in_world {O A : Type} (m : M world A) : M (O * world) A :=
  fun s =>
    match m (snd s) with
    | (r, w') => (r, (fst s, w'))
    end.

Declare Scope monad_scope.
Delimit Scope monad_scope with monad.
Notation "x <- m ;; k" := (bind m (fun x => k))
  (at level 61, m at next level, right associativity) : monad_scope.
Notation "m ;; k" := (bind m (fun _ => k))
  (at level 61, right associativity) : monad_scope.
Local Open Scope monad_scope.

(** [aiohttp.ClientSession()]. *)
Definition new_session : M world session_ref :=
  fun w =>
    (Ok (List.length (sessions w)),
     mkWorld (script w) (trace w) (sessions w ++ [false]) (utc_today w)).

Fixpoint set_nth {A : Type} (l : list A) (i : nat) (a : A) : list A :=
  match l, i with
  | [], _ => []
  | _ :: l', O => a :: l'
  | x :: l', S i' => x :: set_nth l' i' a
  end.

(** [await session.close()]. *)
Definition close_session (sid : session_ref) : M world unit :=
  modify (fun w => mkWorld (script w) (trace w) (set_nth (sessions w) sid true) (utc_today w)).

(** [async with session.get/post(url, ..., raise_for_status=True) as resp]:
    a closed session refuses the request; otherwise the request goes out
    and the next scripted response answers it. *)
Definition session_request (sid : session_ref) (rq : request) : M world response :=
  fun w =>
    if nth sid (sessions w) true then (Raise (RuntimeError "Session is closed"), w)
    else
      match script w with
      | [] =>
          (Raise ClientConnectionError,
           mkWorld [] (trace w ++ [rq]) (sessions w) (utc_today w))
      | r :: rest =>
          let w' := mkWorld rest (trace w ++ [rq]) (sessions w) (utc_today w) in
          if resp_ok r then (Ok r, w') else (Raise ClientResponseError, w')
      end.

(** ** EvergyDavinciWidgetParser *)

Module EvergyDavinciWidgetParser.

(** Equality of two attribute pairs, as tuples compare. *)
Definition attr_eqb (a b : string * option string) : bool :=
  String.eqb (fst a) (fst b) &&
  match snd a, snd b with
  | Some x, Some y => String.eqb x y
  | None, None => true
  | _, _ => false
  end.

(** [pair in attrs]. *)
Definition contains (attrs : attrs_t) (pair : string * option string) : bool :=
  existsb (attr_eqb pair) attrs.

(** [next(filter(lambda attr: attr[0] == name, attrs))]. *)
Fixpoint next_filter (name : string) (attrs : attrs_t) : res (string * option string) :=
  match attrs with
  | [] => Raise StopIteration
  | a :: attrs' => if String.eqb (fst a) name then Ok a else next_filter name attrs'
  end.

(** [str(token)] for a token that is a str or None. *)
Definition py_str (token : option string) : string :=
  match token with
  | Some s => s
  | None => "None"
  end.

(** [_, token = next(filter(...)); self.data[key] = str(token)]. *)
Definition store (key name : string) (attrs : attrs_t) : M (dict string) unit :=
  a <- lift (next_filter name attrs) ;;
  modify (fun data => dict_set data key (py_str (snd a))).

Definition is_marker (tag : string) (attrs : attrs_t) : bool :=
  String.eqb tag "div" && contains attrs ("class", Some "davinci-widget-wrapper").

(** The state is [self.data]. *)
Definition handle_starttag (tag : string) (attrs : attrs_t) : M (dict string) unit :=
  if is_marker tag attrs then
    store "company_id" "data-davinci-company-id" attrs ;;
    store "sk_api_key" "data-davinci-sk-api-key" attrs ;;
    store "api_root" "data-davinci-api-root" attrs ;;
    store "policy_id" "data-davinci-policy-id" attrs ;;
    store "post_processing_api" "data-davinci-post-processing-api" attrs ;;
    store "datasource_item_id" "data-davinci-datasource-item-id" attrs
  else ret tt.

(** [feed(text)]: one call of [handle_starttag] per start tag of the text. *)
Fixpoint feed (tags : list starttag) : M (dict string) unit :=
  match tags with
  | [] => ret tt
  | (tag, attrs) :: tags' => handle_starttag tag attrs ;; feed tags'
  end.

(** The six data attributes read off the marker element. *)
Definition required_attributes : list string :=
  [ "data-davinci-company-id"; "data-davinci-sk-api-key"; "data-davinci-api-root";
    "data-davinci-policy-id"; "data-davinci-post-processing-api";
    "data-davinci-datasource-item-id" ].

End EvergyDavinciWidgetParser.

(** A StopIteration that leaves the body of an [async def] becomes a
    RuntimeError (PEP 479).  [get_auth_data] is the one coroutine in which
    a StopIteration arises: the parser runs inside of it. *)
Definition coroutine {S A : Type} (body : M S A) : M S A :=
  fun s =>
    match body s with
    | (Raise StopIteration, s') => (Raise (RuntimeError "coroutine raised StopIteration"), s')
    | out => out
    end.

(** ** EvergyLoginHandler *)

Module EvergyLoginHandler.

Record t : Type := mk {
  session : session_ref;
  auth_data : option (dict string);
  access_token : option json;
  connectionId : option json;
  interactionId : option json;
  flowId : option json;
  id : option json
}.

(** [__init__(session)]: only the session is assigned. *)
Definition init (sid : session_ref) : t := mk sid None None None None None None.

Definition set_auth_data (v : dict string) (h : t) : t :=
  mk (session h) (Some v) (access_token h) (connectionId h) (interactionId h) (flowId h) (id h).
Definition set_access_token (v : json) (h : t) : t :=
  mk (session h) (auth_data h) (Some v) (connectionId h) (interactionId h) (flowId h) (id h).
Definition set_connectionId (v : json) (h : t) : t :=
  mk (session h) (auth_data h) (access_token h) (Some v) (interactionId h) (flowId h) (id h).
Definition set_interactionId (v : json) (h : t) : t :=
  mk (session h) (auth_data h) (access_token h) (connectionId h) (Some v) (flowId h) (id h).
Definition set_flowId (v : json) (h : t) : t :=
  mk (session h) (auth_data h) (access_token h) (connectionId h) (interactionId h) (Some v) (id h).
Definition set_id (v : json) (h : t) : t :=
  mk (session h) (auth_data h) (access_token h) (connectionId h) (interactionId h) (flowId h) (Some v).

Definition state : Type := (t * world)%type.

(** [self.name]. *)
Definition attr {A : Type} (name : string) (field : t -> option A) : M state A :=
  fun s => (getattr name (field (fst s)), s).

(** [self.name = v]. *)
Definition update (f : t -> t) : M state unit :=
  modify (fun s => (f (fst s), snd s)).

(** [self.auth_data[key]]. *)
Definition auth (key : string) : M state string :=
  d <- attr "auth_data" auth_data ;;
  lift (dict_item d key).

(** A request on [self.session]. *)
Definition send (rq : request) : M state response :=
  fun s => in_world (session_request (session (fst s)) rq) s.

Definition ua : string * json := ("User-Agent", JStr USER_AGENT).
Definition content_type_json : string * json := ("Content-Type", JStr "application/json").
Definition origin : string * json := ("Origin", JStr "https://www.evergy.com").

Definition get_auth_data : M state unit :=
  coroutine (
    resp <- send (mkRequest GET LoginPageUrl [ua] None) ;;
    let parsed := EvergyDavinciWidgetParser.feed (resp_starttags resp) [] in
    lift (fst parsed) ;;
    update (set_auth_data (snd parsed)) ;;
    assert (match snd parsed with [] => false | _ => true end)
           "Failed to get davinci widget data").

Definition get_sdktoken : M state unit :=
  api_root <- auth "api_root" ;;
  company_id <- auth "company_id" ;;
  sk_api_key <- auth "sk_api_key" ;;
  resp <- send (mkRequest GET (SdkTokenUrl api_root company_id)
                  [ua; ("x-sk-api-key", JStr sk_api_key)] None) ;;
  data <- lift (resp_json true resp) ;;
  v <- lift (getitem data "access_token") ;;
  update (set_access_token v).

Definition start_flow : M state unit :=
  api_root <- auth "api_root" ;;
  company_id <- auth "company_id" ;;
  policy_id <- auth "policy_id" ;;
  token <- attr "access_token" access_token ;;
  bearer <- lift (as_str token) ;;
  resp <- send (mkRequest GET (FlowStartUrl api_root company_id policy_id)
                  [ua; ("Authorization", JStr ("Bearer " ++ bearer))] None) ;;
  data <- lift (resp_json true resp) ;;
  v <- lift (getitem data "id") ;;
  update (set_id v) ;;
  v <- lift (getitem data "connectionId") ;;
  update (set_connectionId v) ;;
  v <- lift (getitem data "interactionId") ;;
  update (set_interactionId v) ;;
  v <- lift (getitem data "flowId") ;;
  update (set_flowId v).

(** The URL of a capability of the current connection. *)
Definition capability (mk_url : string -> string -> string -> url) : M state url :=
  api_root <- auth "api_root" ;;
  company_id <- auth "company_id" ;;
  c <- attr "connectionId" connectionId ;;
  c <- lift (as_str c) ;;
  ret (mk_url api_root company_id c).

Definition get_login_form : M state unit :=
  login_template_url <- capability CustomHTMLTemplateUrl ;;
  interaction <- attr "interactionId" interactionId ;;
  step <- attr "id" id ;;
  resp <- send (mkRequest POST login_template_url
                  [ua; content_type_json; ("interactionId", interaction); origin]
                  (Some (JObj [("id", step); ("eventName", JStr "continue")]))) ;;
  data <- lift (resp_json true resp) ;;
  v <- lift (getitem data "id") ;;
  update (set_id v).

(** The body of the credential submission. *)
Definition login_form (step : json) (username password : string) : json :=
  JObj [ ("id", step);
         ("nextEvent", JObj [ ("constructType", JStr "skEvent");
                              ("eventName", JStr "continue");
                              ("params", JArr []);
                              ("eventType", JStr "post");
                              ("postProcess", JObj []) ]);
         ("parameters", JObj [ ("buttonType", JStr "form-submit");
                               ("buttonValue", JStr "submit");
                               ("username", JStr username);
                               ("password", JStr password) ]);
         ("eventName", JStr "continue") ].

Definition submit_login_form (username password : string) : M state unit :=
  login_template_url <- capability CustomHTMLTemplateUrl ;;
  step <- attr "id" id ;;
  resp <- send (mkRequest POST login_template_url
                  [ua; content_type_json; origin]
                  (Some (login_form step username password))) ;;
  data <- lift (resp_json true resp) ;;
  returned_flow <- lift (getitem data "flowId") ;;
  flow <- attr "flowId" flowId ;;
  if py_ne returned_flow flow then
    raise (InvalidAuth "No such username. Login failed.")
  else
    returned_step <- lift (getitem data "id") ;;
    step <- attr "id" id ;;
    if py_eq returned_step step then
      raise (InvalidAuth "Wrong password. Login failed.")
    else
      v <- lift (getitem data "id") ;;
      update (set_id v).

Definition get_new_connection_id : M state unit :=
  login_template_url <- capability CustomHTMLTemplateUrl ;;
  step <- attr "id" id ;;
  resp <- send (mkRequest POST login_template_url
                  [ua; content_type_json; origin]
                  (Some (JObj [("id", step); ("eventName", JStr "continue")]))) ;;
  data <- lift (resp_json true resp) ;;
  v <- lift (getitem data "id") ;;
  update (set_id v) ;;
  v <- lift (getitem data "connectionId") ;;
  update (set_connectionId v).

(** The body of the two setCookieWithoutUser requests. *)
Definition complete_event (step : json) : json :=
  JObj [("eventName", JStr "complete"); ("parameters", JObj []); ("id", step)].

Definition get_new_connection_cookie : M state unit :=
  login_set_cookie_url <- capability SetCookieWithoutUserUrl ;;
  step <- attr "id" id ;;
  resp <- send (mkRequest POST login_set_cookie_url [ua; content_type_json]
                  (Some (complete_event step))) ;;
  data <- lift (resp_json true resp) ;;
  v <- lift (getitem data "id") ;;
  update (set_id v).

Definition get_new_access_token : M state unit :=
  login_set_cookie_url <- capability SetCookieWithoutUserUrl ;;
  step <- attr "id" id ;;
  resp <- send (mkRequest POST login_set_cookie_url [ua; content_type_json]
                  (Some (complete_event step))) ;;
  data <- lift (resp_json true resp) ;;
  v <- lift (getitem data "id") ;;
  update (set_id v) ;;
  v <- lift (getitem data "access_token") ;;
  update (set_access_token v).

Definition postprocessing_api : M state unit :=
  path <- auth "post_processing_api" ;;
  token <- attr "access_token" access_token ;;
  item <- auth "datasource_item_id" ;;
  resp <- send (mkRequest POST (PostProcessingUrl path) [ua; content_type_json]
                  (Some (JObj [("Token", token); ("DataSourceItemId", JStr item)]))) ;;
  lift (resp_json false resp) ;;
  ret tt.

(** The steps that precede the credential submission. *)
Definition before_submit : M state unit :=
  get_auth_data ;;
  get_sdktoken ;;
  start_flow ;;
  get_login_form.

Definition login (username password : string) : M state unit :=
  get_auth_data ;;
  get_sdktoken ;;
  start_flow ;;
  get_login_form ;;
  submit_login_form username password ;;
  get_new_connection_id ;;
  get_new_connection_cookie ;;
  get_new_access_token ;;
  postprocessing_api.

End EvergyLoginHandler.

(** ** Evergy *)

Module Evergy.

Record t : Type := mk {
  logged_in : bool;
  session : option session_ref;      (* annotated in __init__, assigned by login *)
  username : string;
  password : string;
  usage_data : json;
  dashboard_data : json;
  account_number : json;
  premise_id : json
}.

(** [__init__(username, password)]. *)
Definition init (username password : string) : t :=
  mk false None username password JNull JNull JNull JNull.

Definition set_logged_in (v : bool) (c : t) : t :=
  mk v (session c) (username c) (password c)
     (usage_data c) (dashboard_data c) (account_number c) (premise_id c).
Definition set_session (v : session_ref) (c : t) : t :=
  mk (logged_in c) (Some v) (username c) (password c)
     (usage_data c) (dashboard_data c) (account_number c) (premise_id c).
Definition set_usage_data (v : json) (c : t) : t :=
  mk (logged_in c) (session c) (username c) (password c)
     v (dashboard_data c) (account_number c) (premise_id c).
Definition set_dashboard_data (v : json) (c : t) : t :=
  mk (logged_in c) (session c) (username c) (password c)
     (usage_data c) v (account_number c) (premise_id c).
Definition set_account_number (v : json) (c : t) : t :=
  mk (logged_in c) (session c) (username c) (password c)
     (usage_data c) (dashboard_data c) v (premise_id c).
Definition set_premise_id (v : json) (c : t) : t :=
  mk (logged_in c) (session c) (username c) (password c)
     (usage_data c) (dashboard_data c) (account_number c) v.

Definition state : Type := (t * world)%type.

Definition update (f : t -> t) : M state unit :=
  modify (fun s => (f (fst s), snd s)).

(** A GET on [self.session]; the attribute is missing before the first login. *)
Definition send (rq : request) : M state response :=
  fun s =>
    match session (fst s) with
    | Some sid => in_world (session_request sid rq) s
    | None => (Raise (AttributeError "session"), s)
    end.

(** Runs a method of a handler object that lives only for this call. *)
Definition with_handler {A : Type} (h : EvergyLoginHandler.t)
    (m : M EvergyLoginHandler.state A) : M state A :=
  fun s =>
    match m (h, snd s) with
    | (r, (_, w')) => (r, (fst s, w'))
    end.

Definition ua : string * json := ("User-Agent", JStr USER_AGENT).

Definition login : M state bool :=
  sid <- in_world new_session ;;
  update (set_session sid) ;;
  user <- gets (fun s => username (fst s)) ;;
  pass <- gets (fun s => password (fst s)) ;;
  with_handler (EvergyLoginHandler.init sid) (EvergyLoginHandler.login user pass) ;;
  response <- send (mkRequest GET AccountSummaryUrl [ua] None) ;;
  account_data <- lift (resp_json false response) ;;
  assert (truthy account_data) "Failed to get Evergy account data" ;;
  n <- lift (py_len account_data) ;;
  (if n =? 0 then
     update (set_logged_in false)
   else
     first <- lift (getitem0 account_data) ;;
     v <- lift (getitem first "accountNumber") ;;
     update (set_account_number v) ;;
     number <- gets (fun s => account_number (fst s)) ;;
     resp <- send (mkRequest GET (AccountDashboardUrl number) [ua] None) ;;
     v <- lift (resp_json false resp) ;;
     update (set_dashboard_data v) ;;
     dashboard <- gets (fun s => dashboard_data (fst s)) ;;
     addresses <- lift (getitem dashboard "addresses") ;;
     address <- lift (getitem0 addresses) ;;
     v <- lift (getitem address "premiseId") ;;
     update (set_premise_id v) ;;
     number <- gets (fun s => account_number (fst s)) ;;
     premise <- gets (fun s => premise_id (fst s)) ;;
     update (set_logged_in (negb (is_none number) && negb (is_none premise)))) ;;
  gets (fun s => logged_in (fst s)).

(** [EvergyLogoutHandler(self.session).logout()], then the flag. *)
Definition logout : M state unit :=
  sid <- (fun s => (getattr "session" (session (fst s)), s)) ;;
  resp <- in_world (session_request sid (mkRequest GET LogoutPageUrl [ua] None)) ;;
  assert (negb (String.eqb (resp_text resp) "")) "Failed to logout." ;;
  in_world (close_session sid) ;;
  update (set_logged_in false).

(** [if x is None: x = get_past_date(0)]. *)
Definition default_date (d : option datetime) : M state datetime :=
  match d with
  | Some d => ret d
  | None => fun s => (get_past_date (utc_today (snd s)) 0, s)
  end.

(** [if not self.logged_in: await self.login()]. *)
Definition ensure_logged_in : M state unit :=
  logged <- gets (fun s => logged_in (fst s)) ;;
  if negb logged then login ;; ret tt else ret tt.

Definition START_AFTER_END : string := "'start' date can't be after 'end' date".

(** The result is [None] ([JNull]) or the dict with the keys "usage"
    and "dashboard". *)
Definition get_usage_range (start_ end_ : option datetime) (interval : string)
    : M state json :=
  start_ <- default_date start_ ;;
  end_ <- default_date end_ ;;
  ensure_logged_in ;;
  after <- lift (Datetime.gt start_ end_) ;;
  if after then
    raise (EvergyException START_AFTER_END)
  else
    premise <- gets (fun s => premise_id (fst s)) ;;
    resp <- send (mkRequest GET (UsageDataUrl premise interval start_ end_)
                    [ua; ("Content-Type", JStr "application/json")] None) ;;
    usage_response <- lift (resp_json true resp) ;;
    if is_none usage_response then
      update (set_usage_data JNull) ;;
      ret JNull
    else
      v <- lift (getitem usage_response "data") ;;
      update (set_usage_data v) ;;
      usage <- gets (fun s => usage_data (fst s)) ;;
      dashboard <- gets (fun s => dashboard_data (fst s)) ;;
      ret (JObj [("usage", usage); ("dashboard", dashboard)]).

(** [get_past_date(days_back)] with the clock of the world. *)
Definition past_date (days_back : Z) : M state datetime :=
  fun s => (get_past_date (utc_today (snd s)) days_back, s).

(** [get_usage(days, interval)]. *)
Definition get_usage (days : Z) (interval : string) : M state json :=
  start_ <- past_date (days - 1) ;;
  end_ <- past_date 0 ;;
  get_usage_range (Some start_) (Some end_) interval.

(** [get_usage_from(start, size, interval)]; [now] is the reading of
    [datetime.now()], which is taken only when [start] is [None]. *)
Definition get_usage_from (now : datetime) (start_ : option datetime) (size : Z)
    (interval : string) : M state json :=
  start_ <- match start_ with
            | Some d => ret d
            | None => lift (get_end_date_from_number_of_intervals now 1 "d")
            end ;;
  end_ <- lift (get_end_date_from_number_of_intervals start_ size interval) ;;
  get_usage_range (Some start_) (Some end_) interval.

End Evergy.

(** ** A scripted portal

    The end-to-end scenario of the spec: a login page with a complete
    widget descriptor, nine handshake responses with a constant flowId
    "F1" and a step id that advances with every response, then the
    account selector, the dashboard and one usage report. *)

Module Scenario.

(** A 200 response with a JSON body. *)
Definition json_response (v : json) : response :=
  mkResponse true true "{...}" [] (Some v).

Definition widget : starttag :=
  ("div", [ ("class", Some "davinci-widget-wrapper");
            ("data-davinci-company-id", Some "C1");
            ("data-davinci-sk-api-key", Some "KEY");
            ("data-davinci-api-root", Some "https://auth.x/a");
            ("data-davinci-policy-id", Some "P1");
            ("data-davinci-post-processing-api", Some "/post");
            ("data-davinci-datasource-item-id", Some "D1") ]).

Definition login_page : response :=
  mkResponse true false "<html>...</html>"
    [("html", []); ("body", []); widget] None.

Definition sdktoken : response :=
  json_response (JObj [("access_token", JStr "T0")]).

Definition flow_started : response :=
  json_response (JObj [ ("id", JStr "S0"); ("connectionId", JStr "K1");
                        ("interactionId", JStr "I1"); ("flowId", JStr "F1") ]).

Definition login_form : response :=
  json_response (JObj [("id", JStr "S1"); ("flowId", JStr "F1")]).

Definition credentials_accepted : response :=
  json_response (JObj [("id", JStr "S2"); ("flowId", JStr "F1")]).

Definition connection_rotated : response :=
  json_response (JObj [("id", JStr "S3"); ("connectionId", JStr "K2")]).

Definition cookie_set : response :=
  json_response (JObj [("id", JStr "S4")]).

Definition token_refreshed : response :=
  json_response (JObj [("id", JStr "S5"); ("access_token", JStr "T1")]).

Definition post_processed : response :=
  json_response (JObj [("success", JBool true)]).

Definition handshake : list response :=
  [ login_page; sdktoken; flow_started; login_form; credentials_accepted;
    connection_rotated; cookie_set; token_refreshed; post_processed ].

Definition accounts : response :=
  json_response (JArr [JObj [ ("accountNumber", JInt 123456789);
                              ("oPowerDomain", JStr "kcpl.opower.com") ]]).

Definition no_accounts : response := json_response (JArr []).

Definition dashboard : json :=
  JObj [("addresses", JArr [JObj [("premiseId", JInt 42)]])].

Definition usage : json :=
  JObj [("data", JArr [JObj [("period", JStr "2024-05-01"); ("usage", JInt 31)]])].

(** A 200 response with an empty body. *)
Definition empty_body : response := mkResponse true true "" [] None.

(** A 200 response with the body [null]. *)
Definition null_body : response := json_response JNull.

(** A 500 response. *)
Definition server_error : response := mkResponse false false "error" [] None.

(** A world that answers with [responses]; 2024-05-03 is day 739008. *)
Definition portal (responses : list response) : world :=
  mkWorld responses [] [] 739008.

Definition client : Evergy.t := Evergy.init "user" "secret".

(** The state of the handler when the login form was retrieved. *)
Definition handler_at_form : EvergyLoginHandler.t :=
  EvergyLoginHandler.mk 0%nat
    (Some [ ("company_id", "C1"); ("sk_api_key", "KEY");
            ("api_root", "https://auth.x/a"); ("policy_id", "P1");
            ("post_processing_api", "/post"); ("datasource_item_id", "D1") ])
    (Some (JStr "T0")) (Some (JStr "K1")) (Some (JStr "I1"))
    (Some (JStr "F1")) (Some (JStr "S1")).

(** A client that is logged in on session 0. *)
Definition logged_in_client : Evergy.t :=
  Evergy.mk true (Some 0%nat) "user" "secret" JNull dashboard (JInt 123456789) (JInt 42).

(** A world with the open session 0. *)
Definition online (responses : list response) : world :=
  mkWorld responses [] [false] 739008.

(** 2024-05-01 and 2024-05-02 at midnight, naive. *)
Definition may_1 : datetime := mkDatetime (739006 * US_PER_DAY) None.
Definition may_2 : datetime := mkDatetime (739007 * US_PER_DAY) None.

(** Answers to the credential submission of step "S1" in flow "F1". *)
Definition unknown_user_data : json :=
  JObj [("id", JStr "S1"); ("flowId", JStr "F2")].
Definition other_flow_new_step_data : json :=
  JObj [("id", JStr "S2"); ("flowId", JStr "F2")].
Definition wrong_password_data : json :=
  JObj [("id", JStr "S1"); ("flowId", JStr "F1")].

Definition unknown_user : response := json_response unknown_user_data.
Definition other_flow_new_step : response := json_response other_flow_new_step_data.
Definition wrong_password : response := json_response wrong_password_data.

(** The responses that follow the credential submission. *)
Definition after_submission : list response :=
  [connection_rotated; cookie_set; token_refreshed; post_processed].

(** A handshake whose credential submission is answered by [r]. *)
Definition handshake_with (r : response) : list response :=
  [login_page; sdktoken; flow_started; login_form; r] ++ after_submission.

(** A new handler on the open session 0, and the portal it talks to. *)
Definition fresh_handler (responses : list response) : EvergyLoginHandler.state :=
  (EvergyLoginHandler.init 0%nat, online responses).

(** The handler at the credential form, and the portal it talks to. *)
Definition at_form (responses : list response) : EvergyLoginHandler.state :=
  (handler_at_form, online responses).

(** A login page without the widget, and one whose widget lacks the policy id. *)
Definition page_without_widget : response :=
  mkResponse true false "<html>...</html>"
    [("html", []); ("div", [("class", Some "banner")])] None.

Definition incomplete_widget : starttag :=
  ("div", [ ("class", Some "davinci-widget-wrapper");
            ("data-davinci-company-id", Some "C1");
            ("data-davinci-sk-api-key", Some "KEY");
            ("data-davinci-api-root", Some "https://auth.x/a");
            ("data-davinci-post-processing-api", Some "/post");
            ("data-davinci-datasource-item-id", Some "D1") ]).

Definition page_with_incomplete_widget : response :=
  mkResponse true false "<html>...</html>"
    [("html", []); incomplete_widget] None.

(** The answer to the logout request. *)
Definition logged_out_page : response :=
  mkResponse true false "<html>...</html>" [("html", [])] None.

(** A widget whose company id has no value and whose policy id comes twice. *)
Definition second_widget_attrs : attrs_t :=
  [ ("class", Some "davinci-widget-wrapper");
    ("data-davinci-company-id", None);
    ("data-davinci-sk-api-key", Some "KEY2");
    ("data-davinci-api-root", Some "https://auth.y/b");
    ("data-davinci-policy-id", Some "P2");
    ("data-davinci-policy-id", Some "P3");
    ("data-davinci-post-processing-api", Some "/post2");
    ("data-davinci-datasource-item-id", Some "D2") ].

(** A login page with two widgets. *)
Definition page_with_two_widgets : response :=
  mkResponse true false "<html>...</html>"
    [("html", []); widget; ("div", second_widget_attrs); ("p", [])] None.

End Scenario.

(** ** Vocabulary of the properties *)

(** The world after [rq] went out on an open session and was answered by
    the first scripted response. *)
Definition answered (w : world) (rq : request) : world :=
  mkWorld (tl (script w)) (trace w ++ [rq]) (sessions w) (utc_today w).

(** The request [submit_login_form] issues. *)
Definition submit_request (api_root company_id connection : string) (step : json)
    (username password : string) : request :=
  mkRequest POST (CustomHTMLTemplateUrl api_root company_id connection)
    [EvergyLoginHandler.ua; EvergyLoginHandler.content_type_json; EvergyLoginHandler.origin]
    (Some (EvergyLoginHandler.login_form step username password)).

(** The request [get_auth_data] issues. *)
Definition login_page_request : request :=
  mkRequest GET LoginPageUrl [EvergyLoginHandler.ua] None.

(** The error kind the spec calls MissingWidgetData.  The code defines no
    exception class of that name: the extraction fails with the
    AssertionError of [get_auth_data] when no marker element was seen, and
    with the StopIteration of [next(filter(...))], which leaves the
    coroutine as a RuntimeError, when a marker element lacks an attribute. *)
Definition MissingWidgetData (e : exn) : Prop :=
  e = AssertionError "Failed to get davinci widget data" \/
  e = RuntimeError "coroutine raised StopIteration".

(** [m] leaves the observation [f] of the state as it is, whatever its outcome. *)
Definition frame {S A X : Type} (f : S -> X) (m : M S A) : Prop :=
  forall s : S, f (snd (m s)) = f s.

(** The flowId the handler holds. *)
Definition flow_of (s : EvergyLoginHandler.state) : option json :=
  EvergyLoginHandler.flowId (fst s).

(** The steps of the handshake that follow [start_flow]. *)
Definition steps_after_start_flow (username password : string)
    : list (M EvergyLoginHandler.state unit) :=
  [ EvergyLoginHandler.get_login_form;
    EvergyLoginHandler.submit_login_form username password;
    EvergyLoginHandler.get_new_connection_id;
    EvergyLoginHandler.get_new_connection_cookie;
    EvergyLoginHandler.get_new_access_token;
    EvergyLoginHandler.postprocessing_api ].

(** No start tag of the page is the marker element. *)
Definition marker_absent (tags : list starttag) : Prop :=
  forall tag attrs, In (tag, attrs) tags ->
    EvergyDavinciWidgetParser.is_marker tag attrs = false.

(** A marker element of the page lacks one of the six data attributes. *)
Definition marker_incomplete (tags : list starttag) : Prop :=
  exists tag attrs name,
    In (tag, attrs) tags /\
    EvergyDavinciWidgetParser.is_marker tag attrs = true /\
    In name EvergyDavinciWidgetParser.required_attributes /\
    forall v, ~ In (name, v) attrs.

(** The AccountContext of the spec: the account number, the premise id
    and the dashboard data the client holds. *)
Definition account_context (s : Evergy.state) : json * json * json :=
  (Evergy.account_number (fst s), Evergy.premise_id (fst s), Evergy.dashboard_data (fst s)).

(** The requests of the client. *)
Definition logout_request : request :=
  mkRequest GET LogoutPageUrl [Evergy.ua] None.

Definition account_request : request :=
  mkRequest GET AccountSummaryUrl [Evergy.ua] None.

Definition usage_request (premise : json) (interval : string) (start_ end_ : datetime)
    : request :=
  mkRequest GET (UsageDataUrl premise interval start_ end_)
    [Evergy.ua; ("Content-Type", JStr "application/json")] None.

(** The world after session [sid] was closed. *)
Definition closed (w : world) (sid : session_ref) : world :=
  mkWorld (script w) (trace w) (set_nth (sessions w) sid true) (utc_today w).

(** The world after a new session was created. *)
Definition with_new_session (w : world) : world :=
  mkWorld (script w) (trace w) (sessions w ++ [false]) (utc_today w).

(** The sessions of the world a handler talks to. *)
Definition sessions_of (s : EvergyLoginHandler.state) : list bool := sessions (snd s).

(** What goes over the wire: the requests issued and the responses still to come. *)
Definition wire {O : Type} (s : O * world) : list request * list response :=
  (trace (snd s), script (snd s)).

(** From the state [s], [m] issues at most [n] requests, each answered by
    the next scripted response while there is one; and when [m] returns
    it has issued exactly [n] requests, each answered with a success
    status. *)
Definition exchanges_at {O A : Type} (n : nat) (m : M (O * world) A) (s : O * world)
    : Prop :=
  exists (rqs : list request) (rs : list response),
    trace (snd (snd (m s))) = (trace (snd s) ++ rqs)%list /\
    script (snd s) = (rs ++ script (snd (snd (m s))))%list /\
    (List.length rqs <= n)%nat /\
    (List.length rs <= List.length rqs)%nat /\
    (forall a, fst (m s) = Ok a ->
       List.length rqs = n /\ List.length rs = n /\
       Forall (fun r => resp_ok r = true) rs).

(** The same from every state. *)
Definition exchanges {O A : Type} (n : nat) (m : M (O * world) A) : Prop :=
  forall s : O * world, exchanges_at n m s.

(** Every exception [m] can raise satisfies [P]. *)
Definition raises_only {S A : Type} (P : exn -> Prop) (m : M S A) : Prop :=
  forall (s : S) (e : exn), fst (m s) = Raise e -> P e.

(** The exceptions of the transport, of the protocol and of Python that
    the login may raise, next to InvalidAuth with one of its two messages:
    never an EvergyException, and never a bare StopIteration. *)
Definition login_exception (e : exn) : Prop :=
  match e with
  | InvalidAuth message =>
      message = "No such username. Login failed." \/
      message = "Wrong password. Login failed."
  | EvergyException _ => False
  | StopIteration => False
  | _ => True
  end.

(** The exceptions of [get_usage_range]: those of the login, and
    EvergyException with the message of the date check. *)
Definition usage_exception (e : exn) : Prop :=
  match e with
  | EvergyException message => message = Evergy.START_AFTER_END
  | _ => login_exception e
  end.

(** The session of the client and the sessions of the world. *)
Definition client_sessions (s : Evergy.state) : option session_ref * list bool :=
  (Evergy.session (fst s), sessions (snd s)).


(** A start that is given, or the reading of the clock. *)
Definition start_or_now (now : datetime) (start_ : option datetime) : datetime :=
  match start_ with
  | Some d => d
  | None => now
  end.

(** The keys of the descriptor and the data attributes they are read from. *)
Definition descriptor_keys : list (string * string) :=
  [ ("company_id", "data-davinci-company-id");
    ("sk_api_key", "data-davinci-sk-api-key");
    ("api_root", "data-davinci-api-root");
    ("policy_id", "data-davinci-policy-id");
    ("post_processing_api", "data-davinci-post-processing-api");
    ("datasource_item_id", "data-davinci-datasource-item-id") ].

(** The element carries each of the six data attributes. *)
Definition marker_complete (attrs : attrs_t) : Prop :=
  forall name, In name EvergyDavinciWidgetParser.required_attributes ->
    exists a, EvergyDavinciWidgetParser.next_filter name attrs = Ok a.

(** The request for the dashboard of an account. *)
Definition dashboard_request (number : json) : request :=
  mkRequest GET (AccountDashboardUrl number) [Evergy.ua] None.

(** The requests of the handshake, by the values that go into them. *)
Definition sdktoken_request (api_root company_id sk_api_key : string) : request :=
  mkRequest GET (SdkTokenUrl api_root company_id)
    [EvergyLoginHandler.ua; ("x-sk-api-key", JStr sk_api_key)] None.

Definition start_request (api_root company_id policy_id token : string) : request :=
  mkRequest GET (FlowStartUrl api_root company_id policy_id)
    [EvergyLoginHandler.ua; ("Authorization", JStr ("Bearer " ++ token))] None.

Definition form_request (api_root company_id connection : string) (interaction step : json)
    : request :=
  mkRequest POST (CustomHTMLTemplateUrl api_root company_id connection)
    [EvergyLoginHandler.ua; EvergyLoginHandler.content_type_json;
     ("interactionId", interaction); EvergyLoginHandler.origin]
    (Some (JObj [("id", step); ("eventName", JStr "continue")])).

Definition continue_request (api_root company_id connection : string) (step : json)
    : request :=
  mkRequest POST (CustomHTMLTemplateUrl api_root company_id connection)
    [EvergyLoginHandler.ua; EvergyLoginHandler.content_type_json; EvergyLoginHandler.origin]
    (Some (JObj [("id", step); ("eventName", JStr "continue")])).

Definition complete_request (api_root company_id connection : string) (step : json)
    : request :=
  mkRequest POST (SetCookieWithoutUserUrl api_root company_id connection)
    [EvergyLoginHandler.ua; EvergyLoginHandler.content_type_json]
    (Some (EvergyLoginHandler.complete_event step)).

Definition postprocess_request (path : string) (token : json) (item : string) : request :=
  mkRequest POST (PostProcessingUrl path)
    [EvergyLoginHandler.ua; EvergyLoginHandler.content_type_json]
    (Some (JObj [("Token", token); ("DataSourceItemId", JStr item)])).

(** The step id a request posts, and the step id a response returns. *)
Definition posted_id (rq : request) : res json :=
  match req_data rq with
  | Some body => getitem body "id"
  | None => Raise KeyError
  end.

Definition returned_id (r : response) : res json :=
  res_bind (resp_json true r) (fun j => getitem j "id").

(** An exception of the transport, of the protocol or of Python:
    neither InvalidAuth nor EvergyException nor StopIteration. *)
Definition benign (e : exn) : Prop :=
  match e with
  | InvalidAuth _ => False
  | EvergyException _ => False
  | StopIteration => False
  | _ => True
  end.



(** * Properties *)

(** ** The usage range calculator *)

Section IntervalEnd.

Ltac constants :=
  cbv [US_PER_DAY US_PER_HOUR US_PER_MINUTE MAX_WALL MAX_ORDINAL MAX_DELTA_DAYS] in *.

(** A timedelta that keeps a datetime inside of the datetime range can be built. *)
Lemma timedelta_fits (w us : Z) :
  0 <= w <= MAX_WALL -> 0 <= w + us <= MAX_WALL ->
  (Z.abs (us / US_PER_DAY) <=? MAX_DELTA_DAYS) = true.
Proof.
  constants. intros Hw Hr. apply Z.leb_le, Z.abs_le.
  Z.div_mod_to_equations. lia.
Qed.

Lemma in_range_iff (w : Z) : in_range w = true <-> 0 <= w <= MAX_WALL.
Proof.
  unfold in_range. rewrite andb_true_iff, !Z.leb_le. tauto.
Qed.

(** Moving a datetime by [us] microseconds through a timedelta. *)
Lemma add_timedelta (d : datetime) (us : Z) :
  valid d ->
  res_bind (if Z.abs (us / US_PER_DAY) <=? MAX_DELTA_DAYS then Ok us else Raise OverflowError)
           (fun td => add d td)
  = if in_range (wall d + us) then Ok (shift d us) else Raise OverflowError.
Proof.
  intros Hd. unfold add, shift.
  destruct (in_range (wall d + us)) eqn:Hr.
  - apply in_range_iff in Hr.
    rewrite (timedelta_fits (wall d) us Hd Hr). simpl.
    apply in_range_iff in Hr. rewrite Hr. reflexivity.
  - destruct (Z.abs (us / US_PER_DAY) <=? MAX_DELTA_DAYS); simpl.
    + rewrite Hr. reflexivity.
    + reflexivity.
Qed.

(** What [get_end_date_from_number_of_intervals] computes, on every input. *)
Lemma end_date_value (from_date : datetime) (n : Z) (interval : string) :
  valid from_date ->
  get_end_date_from_number_of_intervals from_date n interval
  = if in_range (wall from_date + (n - 1) * interval_unit interval)
    then Ok (shift from_date ((n - 1) * interval_unit interval))
    else Raise OverflowError.
Proof.
  intros Hd.
  unfold get_end_date_from_number_of_intervals, interval_unit, timedelta.
  destruct (String.eqb interval "mi"); [| destruct (String.eqb interval "h")].
  - replace (0 * US_PER_DAY + 0 * US_PER_HOUR + 15 * (n - 1) * US_PER_MINUTE)
      with ((n - 1) * (15 * US_PER_MINUTE)) by ring.
    apply add_timedelta; assumption.
  - replace (0 * US_PER_DAY + (n - 1) * US_PER_HOUR + 0 * US_PER_MINUTE)
      with ((n - 1) * US_PER_HOUR) by ring.
    apply add_timedelta; assumption.
  - replace ((n - 1) * US_PER_DAY + 0 * US_PER_HOUR + 0 * US_PER_MINUTE)
      with ((n - 1) * US_PER_DAY) by ring.
    apply add_timedelta; assumption.
Qed.

Lemma shift_zero (d : datetime) : shift d 0 = d.
Proof.
  destruct d as [w o]. unfold shift. simpl. rewrite Z.add_0_r. reflexivity.
Qed.

Lemma interval_unit_positive (interval : string) : 0 < interval_unit interval.
Proof.
  unfold interval_unit.
  destruct (String.eqb interval "mi"); [| destruct (String.eqb interval "h")];
    constants; lia.
Qed.

End IntervalEnd.

(** C7, as the spec states it, fails at the end of the datetime range:
    two hours after [datetime.max] is no datetime, and the addition
    raises OverflowError instead of returning. *)
Lemma interval_end_overflows_at_datetime_max :
  valid datetime_max /\
  In HOUR_INTERVAL [DAY_INTERVAL; HOUR_INTERVAL; FIFTEEN_MINUTE_INTERVAL] /\
  get_end_date_from_number_of_intervals datetime_max 3 HOUR_INTERVAL = Raise OverflowError /\
  get_end_date_from_number_of_intervals datetime_max 3 HOUR_INTERVAL
    <> Ok (shift datetime_max ((3 - 1) * interval_unit HOUR_INTERVAL)).
Proof.
  split; [| split; [| split]].
  - unfold valid, datetime_max. simpl. vm_compute. split; discriminate.
  - simpl. auto.
  - vm_compute. reflexivity.
  - vm_compute. discriminate.
Qed.

(** C7 (amended): for an interval in {"d", "h", "mi"} and a datetime
    [from_date], [get_end_date_from_number_of_intervals] returns
    [from_date] moved by [count - 1] interval-units whenever that value
    lies inside of the datetime range, and raises OverflowError when it
    does not.  With [count = 1] it returns [from_date]; with [count = 3]
    it returns [from_date] plus 2 hours, 30 minutes or 2 days, when these
    lie inside of the range. *)
Theorem interval_end_within_range
    (from_date : datetime) (count : Z) (interval : string) :
  valid from_date ->
  In interval [DAY_INTERVAL; HOUR_INTERVAL; FIFTEEN_MINUTE_INTERVAL] ->
  (0 <= wall from_date + (count - 1) * interval_unit interval <= MAX_WALL ->
     get_end_date_from_number_of_intervals from_date count interval
     = Ok (shift from_date ((count - 1) * interval_unit interval))) /\
  (~ 0 <= wall from_date + (count - 1) * interval_unit interval <= MAX_WALL ->
     get_end_date_from_number_of_intervals from_date count interval = Raise OverflowError) /\
  get_end_date_from_number_of_intervals from_date 1 interval = Ok from_date /\
  (wall from_date + 2 * US_PER_HOUR <= MAX_WALL ->
     get_end_date_from_number_of_intervals from_date 3 HOUR_INTERVAL
     = Ok (shift from_date (2 * US_PER_HOUR))) /\
  (wall from_date + 30 * US_PER_MINUTE <= MAX_WALL ->
     get_end_date_from_number_of_intervals from_date 3 FIFTEEN_MINUTE_INTERVAL
     = Ok (shift from_date (30 * US_PER_MINUTE))) /\
  (wall from_date + 2 * US_PER_DAY <= MAX_WALL ->
     get_end_date_from_number_of_intervals from_date 3 DAY_INTERVAL
     = Ok (shift from_date (2 * US_PER_DAY))).
Proof.
  intros Hd _.
  assert (Hfix : forall n us, 0 <= us -> wall from_date + us <= MAX_WALL ->
            forall i, (n - 1) * interval_unit i = us ->
            get_end_date_from_number_of_intervals from_date n i = Ok (shift from_date us)).
  { intros n us Hus Hmax i Hi. rewrite (end_date_value from_date n i Hd), Hi.
    replace (in_range (wall from_date + us)) with true; [reflexivity |].
    symmetry. apply in_range_iff. unfold valid in Hd. lia. }
  repeat split.
  - intros Hr. rewrite (end_date_value _ _ _ Hd).
    apply in_range_iff in Hr. rewrite Hr. reflexivity.
  - intros Hr. rewrite (end_date_value _ _ _ Hd).
    destruct (in_range _) eqn:E; [| reflexivity].
    apply in_range_iff in E. contradiction.
  - rewrite <- (shift_zero from_date) at 2.
    apply Hfix; [lia | unfold valid in Hd; lia | ring].
  - intros H. apply Hfix; [vm_compute; discriminate | assumption | reflexivity].
  - intros H. apply Hfix; [vm_compute; discriminate | assumption | reflexivity].
  - intros H. apply Hfix; [vm_compute; discriminate | assumption | reflexivity].
Qed.

(** Three hourly intervals from 2024-05-01 end two hours later. *)
Lemma interval_end_within_range_witness :
  valid Scenario.may_1 /\
  In HOUR_INTERVAL [DAY_INTERVAL; HOUR_INTERVAL; FIFTEEN_MINUTE_INTERVAL] /\
  0 <= wall Scenario.may_1 + (3 - 1) * interval_unit HOUR_INTERVAL <= MAX_WALL /\
  get_end_date_from_number_of_intervals Scenario.may_1 3 HOUR_INTERVAL
  = Ok (shift Scenario.may_1 ((3 - 1) * interval_unit HOUR_INTERVAL)).
Proof.
  assert (Hv : valid Scenario.may_1) by (vm_compute; split; discriminate).
  assert (Hi : In HOUR_INTERVAL [DAY_INTERVAL; HOUR_INTERVAL; FIFTEEN_MINUTE_INTERVAL])
    by (simpl; auto).
  assert (Hr : 0 <= wall Scenario.may_1 + (3 - 1) * interval_unit HOUR_INTERVAL <= MAX_WALL)
    by (vm_compute; split; discriminate).
  split; [exact Hv | split; [exact Hi | split; [exact Hr |]]].
  exact (proj1 (interval_end_within_range Scenario.may_1 3 HOUR_INTERVAL Hv Hi) Hr).
Defined.

(** C10, as stated, fails at the start of the datetime range: one day
    before [datetime.min] is no datetime, and the call raises
    OverflowError. *)
Lemma zero_intervals_overflows_at_datetime_min :
  valid datetime_min /\
  get_end_date_from_number_of_intervals datetime_min 0 DAY_INTERVAL = Raise OverflowError /\
  get_end_date_from_number_of_intervals datetime_min 0 DAY_INTERVAL
    <> Ok (shift datetime_min (- interval_unit DAY_INTERVAL)).
Proof.
  split; [| split].
  - vm_compute. split; discriminate.
  - vm_compute. reflexivity.
  - vm_compute. discriminate.
Qed.

(** C10 (amended): with [num_intervals = 0] and a datetime [from_date]
    that lies at least one interval-unit after [datetime.min], the call
    raises no error and returns [from_date] minus one interval-unit: 15
    minutes for "mi", one hour for "h", one day otherwise; closer to
    [datetime.min] it raises OverflowError.  An interval string other
    than "mi" or "h" is treated as the day interval, for every count. *)
Theorem zero_intervals_steps_back (from_date : datetime) (interval : string) :
  valid from_date ->
  (interval_unit interval <= wall from_date ->
     get_end_date_from_number_of_intervals from_date 0 interval
     = Ok (shift from_date (- interval_unit interval))) /\
  (wall from_date < interval_unit interval ->
     get_end_date_from_number_of_intervals from_date 0 interval = Raise OverflowError) /\
  interval_unit FIFTEEN_MINUTE_INTERVAL = 15 * US_PER_MINUTE /\
  interval_unit HOUR_INTERVAL = US_PER_HOUR /\
  (interval <> FIFTEEN_MINUTE_INTERVAL -> interval <> HOUR_INTERVAL ->
     interval_unit interval = US_PER_DAY /\
     forall n : Z,
       get_end_date_from_number_of_intervals from_date n interval
       = get_end_date_from_number_of_intervals from_date n DAY_INTERVAL).
Proof.
  intros Hd. pose proof (interval_unit_positive interval) as Hpos.
  repeat split.
  - intros Hu. rewrite (end_date_value _ _ _ Hd).
    replace ((0 - 1) * interval_unit interval) with (- interval_unit interval) by ring.
    replace (in_range _) with true; [reflexivity |].
    symmetry. apply in_range_iff. unfold valid in Hd. lia.
  - intros Hu. rewrite (end_date_value _ _ _ Hd).
    destruct (in_range _) eqn:E; [| reflexivity].
    apply in_range_iff in E. lia.
  - unfold interval_unit.
    destruct (String.eqb_spec interval "mi"); [contradiction |].
    destruct (String.eqb_spec interval "h"); [contradiction | reflexivity].
  - intros n. unfold get_end_date_from_number_of_intervals.
    destruct (String.eqb_spec interval "mi"); [contradiction |].
    destruct (String.eqb_spec interval "h"); [contradiction | reflexivity].
Qed.

(** No interval from 2024-05-02, with an unknown interval string, ends a day before. *)
Lemma zero_intervals_steps_back_witness :
  valid Scenario.may_2 /\
  interval_unit "week" <= wall Scenario.may_2 /\
  get_end_date_from_number_of_intervals Scenario.may_2 0 "week" = Ok Scenario.may_1.
Proof.
  assert (Hv : valid Scenario.may_2) by (vm_compute; split; discriminate).
  assert (Hu : interval_unit "week" <= wall Scenario.may_2) by (vm_compute; discriminate).
  split; [exact Hv | split; [exact Hu |]].
  exact (proj1 (zero_intervals_steps_back Scenario.may_2 "week" Hv) Hu).
Defined.

(** ** Reasoning about the monad *)

Section MonadFacts.

Context {S : Type}.

Lemma bind_ok {A B : Type} (m : M S A) (k : A -> M S B) (s s' : S) (a : A) :
  m s = (Ok a, s') -> bind m k s = k a s'.
Proof. intros H. unfold bind. rewrite H. reflexivity. Qed.

Lemma bind_raise {A B : Type} (m : M S A) (k : A -> M S B) (s s' : S) (e : exn) :
  m s = (Raise e, s') -> bind m k s = (Raise e, s').
Proof. intros H. unfold bind. rewrite H. reflexivity. Qed.

Context {X : Type} (f : S -> X).

Lemma frame_ret {A : Type} (a : A) : frame f (ret a).
Proof. intros s. reflexivity. Qed.

Lemma frame_raise {A : Type} (e : exn) : frame f (@raise S A e).
Proof. intros s. reflexivity. Qed.

Lemma frame_lift {A : Type} (r : res A) : frame f (lift r).
Proof. intros s. reflexivity. Qed.

Lemma frame_gets {A : Type} (g : S -> A) : frame f (gets g).
Proof. intros s. reflexivity. Qed.

Lemma frame_assert (cond : bool) (message : string) : frame f (assert cond message).
Proof. intros s. destruct cond; reflexivity. Qed.

Lemma frame_bind {A B : Type} (m : M S A) (k : A -> M S B) :
  frame f m -> (forall a, frame f (k a)) -> frame f (bind m k).
Proof.
  intros Hm Hk s. unfold bind.
  specialize (Hm s). destruct (m s) as [[a | e] s']; simpl in *.
  - rewrite Hk. exact Hm.
  - exact Hm.
Qed.

Lemma frame_if {A : Type} (b : bool) (m1 m2 : M S A) :
  frame f m1 -> frame f m2 -> frame f (if b then m1 else m2).
Proof. destruct b; auto. Qed.

Lemma frame_coroutine {A : Type} (m : M S A) : frame f m -> frame f (coroutine m).
Proof.
  intros Hm s. unfold coroutine. specialize (Hm s).
  destruct (m s) as [[a | e] s']; [exact Hm |].
  destruct e; exact Hm.
Qed.

Lemma frame_modify (g : S -> S) : (forall s, f (g s) = f s) -> frame f (modify g).
Proof. intros Hg s. apply Hg. Qed.

End MonadFacts.

(** A request on an open session that the script can answer. *)
Lemma session_request_answered (sid : session_ref) (rq : request) (w : world)
    (r : response) (rest : list response) :
  nth sid (sessions w) true = false -> script w = r :: rest -> resp_ok r = true ->
  session_request sid rq w = (Ok r, answered w rq).
Proof.
  intros Hopen Hscript Hok. unfold session_request, answered.
  rewrite Hopen, Hscript, Hok. reflexivity.
Qed.

(** A request changes nothing but the world. *)
Lemma in_world_object {O A : Type} (m : M world A) (s : O * world) :
  fst (snd (in_world m s)) = fst s.
Proof.
  unfold in_world. destruct (m (snd s)). reflexivity.
Qed.

(** Case analysis along the run of a computation: the scrutinee of a
    match that blocks the evaluation is destructed, innermost first. *)
Ltac atomic_scrutinee x :=
  lazymatch x with
  | context [match _ with _ => _ end] => fail
  | _ => idtac
  end.

Ltac crack :=
  repeat (simpl;
          match goal with
          | |- context [match ?x with _ => _ end] =>
              atomic_scrutinee x; destruct x eqn:?; try discriminate
          end).

Create HintDb frames.

#[local] Hint Resolve frame_ret frame_raise frame_lift frame_gets frame_assert
  frame_modify frame_coroutine frame_if : frames.

(** ** The handshake: which steps touch the flowId *)

Section HandlerFrames.

Import EvergyLoginHandler.

Lemma frame_attr {A X : Type} (f : state -> X) (name : string) (field : t -> option A) :
  frame f (attr name field).
Proof. intros s. reflexivity. Qed.

Lemma frame_auth {X : Type} (f : state -> X) (key : string) : frame f (auth key).
Proof.
  unfold auth. apply frame_bind; [apply frame_attr | intros d; apply frame_lift].
Qed.

Lemma frame_capability {X : Type} (f : state -> X) (mk_url : string -> string -> string -> url) :
  frame f (capability mk_url).
Proof.
  unfold capability.
  repeat (apply frame_bind; [| intros ?]);
    auto using frame_auth, frame_attr, frame_lift, frame_ret.
Qed.

Lemma frame_send (rq : request) : frame flow_of (send rq).
Proof.
  intros s. unfold flow_of, send.
  exact (f_equal flowId (in_world_object (session_request (session (fst s)) rq) s)).
Qed.

Lemma frame_update (g : t -> t) :
  (forall h, flowId (g h) = flowId h) -> frame flow_of (update g).
Proof. intros Hg s. apply Hg. Qed.

Hint Resolve frame_attr frame_auth frame_capability frame_send : frames.

Ltac frames :=
  repeat first
    [ apply frame_bind; [| intros ?]
    | apply frame_update; intros ?; reflexivity
    | solve [auto with frames] ].

Lemma get_auth_data_frame : frame flow_of get_auth_data.
Proof.
  unfold get_auth_data. apply frame_coroutine.
  apply frame_bind; [auto with frames | intros resp].
  cbv zeta. frames.
Qed.

Lemma get_sdktoken_frame : frame flow_of get_sdktoken.
Proof. unfold get_sdktoken. frames. Qed.

Lemma get_login_form_frame : frame flow_of get_login_form.
Proof. unfold get_login_form. frames. Qed.

Lemma submit_login_form_frame (username password : string) :
  frame flow_of (submit_login_form username password).
Proof.
  unfold submit_login_form. frames.
  apply frame_if; frames. apply frame_if; frames.
Qed.

Lemma get_new_connection_id_frame : frame flow_of get_new_connection_id.
Proof. unfold get_new_connection_id. frames. Qed.

Lemma get_new_connection_cookie_frame : frame flow_of get_new_connection_cookie.
Proof. unfold get_new_connection_cookie. frames. Qed.

Lemma get_new_access_token_frame : frame flow_of get_new_access_token.
Proof. unfold get_new_access_token. frames. Qed.

Lemma postprocessing_api_frame : frame flow_of postprocessing_api.
Proof. unfold postprocessing_api. frames. Qed.

(** When [start_flow] returns, the flowId is the one of the response it consumed. *)
Lemma start_flow_sets_flowId (s s' : state) :
  start_flow s = (Ok tt, s') ->
  exists (r : response) (rest : list response) (data v : json),
    script (snd s) = r :: rest /\ resp_json true r = Ok data /\
    getitem data "flowId" = Ok v /\ flowId (fst s') = Some v.
Proof.
  destruct s as [h w].
  unfold start_flow, auth, attr, send, update, modify, lift, in_world, bind,
    session_request.
  crack. intros H. injection H as <-.
  do 4 eexists. repeat split; simpl; eassumption || reflexivity.
Qed.

End HandlerFrames.

(** A run that completed a prefix of a sequence continues with the rest. *)
Lemma after_three {S A B C D : Type} (m1 : M S A) (m2 : M S B) (m3 : M S C) (k : M S D)
    (s0 s3 : S) (c : C) :
  (m1 ;; m2 ;; m3) s0 = (Ok c, s3) -> (m1 ;; m2 ;; m3 ;; k) s0 = k s3.
Proof.
  unfold bind.
  destruct (m1 s0) as [[a | e] s1]; [| discriminate].
  destruct (m2 s1) as [[b | e] s2]; [| discriminate].
  intros H. rewrite H. reflexivity.
Qed.

Lemma after_four {S A B C D E : Type}
    (m1 : M S A) (m2 : M S B) (m3 : M S C) (m4 : M S D) (k : M S E)
    (s0 s4 : S) (d : D) :
  (m1 ;; m2 ;; m3 ;; m4) s0 = (Ok d, s4) -> (m1 ;; m2 ;; m3 ;; m4 ;; k) s0 = k s4.
Proof.
  unfold bind.
  destruct (m1 s0) as [[a | e] s1]; [| discriminate].
  destruct (m2 s1) as [[b | e] s2]; [| discriminate].
  destruct (m3 s2) as [[c | e] s3]; [| discriminate].
  intros H. rewrite H. reflexivity.
Qed.

(** C6: in one run of [EvergyLoginHandler.login] the flowId is assigned
    by [start_flow] only: the two steps before it and the six steps after
    it leave the field as it is, whatever their outcome; [start_flow],
    when it returns, has stored the flowId of the response it consumed;
    and once [start_flow] has returned, the handler ends the run, with
    success or with an exception, holding that same flowId. *)
Theorem flowId_assigned_once (username password : string) :
  (forall step, In step (steps_after_start_flow username password) -> frame flow_of step) /\
  frame flow_of EvergyLoginHandler.get_auth_data /\
  frame flow_of EvergyLoginHandler.get_sdktoken /\
  (forall s s', EvergyLoginHandler.start_flow s = (Ok tt, s') ->
     exists (r : response) (rest : list response) (data v : json),
       script (snd s) = r :: rest /\ resp_json true r = Ok data /\
       getitem data "flowId" = Ok v /\ flow_of s' = Some v) /\
  (forall s0 s3,
     (EvergyLoginHandler.get_auth_data ;; EvergyLoginHandler.get_sdktoken ;;
      EvergyLoginHandler.start_flow) s0 = (Ok tt, s3) ->
     flow_of (snd (EvergyLoginHandler.login username password s0)) = flow_of s3).
Proof.
  assert (Hafter : forall step,
            In step (steps_after_start_flow username password) -> frame flow_of step).
  { intros step Hin. simpl in Hin.
    repeat (destruct Hin as [<- | Hin]);
      auto using get_login_form_frame, submit_login_form_frame, get_new_connection_id_frame,
        get_new_connection_cookie_frame, get_new_access_token_frame,
        postprocessing_api_frame.
    contradiction. }
  split; [exact Hafter |].
  split; [exact get_auth_data_frame |].
  split; [exact get_sdktoken_frame |].
  split; [exact start_flow_sets_flowId |].
  intros s0 s3 H. unfold EvergyLoginHandler.login.
  rewrite (after_three _ _ _ _ s0 s3 tt H).
  repeat (apply frame_bind; [| intros _]); apply Hafter; simpl; auto 10.
Qed.

(** The scripted handshake ends with the flowId of its flow-start response. *)
Lemma flowId_assigned_once_witness :
  flow_of (snd (EvergyLoginHandler.login "user" "secret"
                  (Scenario.fresh_handler Scenario.handshake)))
  = Some (JStr "F1").
Proof.
  pose proof (flowId_assigned_once "user" "secret") as [_ [_ [_ [_ H]]]].
  rewrite (H (Scenario.fresh_handler Scenario.handshake)
             (snd ((EvergyLoginHandler.get_auth_data ;; EvergyLoginHandler.get_sdktoken ;;
                    EvergyLoginHandler.start_flow)
                     (Scenario.fresh_handler Scenario.handshake)))).
  - vm_compute. reflexivity.
  - vm_compute. reflexivity.
Defined.

(** ** The credential submission *)

Section CredentialSubmission.

Import EvergyLoginHandler.

(** The handler as the steps before the submission leave it, on an open
    session, and the response [r], with the JSON body [data], that
    answers the submission. *)
Variables (h : t) (w : world) (username password : string).
Variables (d : dict string) (api_root company_id connection : string).
Variables (step flow : json).
Variables (r : response) (rest : list response) (data : json).

Hypothesis Hauth : auth_data h = Some d.
Hypothesis Hroot : dict_get d "api_root" = Some api_root.
Hypothesis Hcompany : dict_get d "company_id" = Some company_id.
Hypothesis Hconnection : connectionId h = Some (JStr connection).
Hypothesis Hstep : id h = Some step.
Hypothesis Hflow : flowId h = Some flow.
Hypothesis Hopen : nth (session h) (sessions w) true = false.
Hypothesis Hscript : script w = r :: rest.
Hypothesis Hok : resp_ok r = true.
Hypothesis Hjson : resp_json true r = Ok data.

Ltac submit_run :=
  unfold submit_login_form, capability, auth, attr, send, update, modify, lift,
    in_world, bind, dict_item, ret, raise;
  simpl;
  repeat (progress (rewrite ?Hauth, ?Hroot, ?Hcompany, ?Hconnection, ?Hstep, ?Hflow;
                    simpl));
  rewrite (session_request_answered _ _ _ _ _ Hopen Hscript Hok);
  simpl; rewrite ?Hjson; simpl.

(** The returned flowId differs: the username is unknown. *)
Lemma submit_unknown_username (returned : json) :
  getitem data "flowId" = Ok returned -> py_ne returned flow = true ->
  submit_login_form username password (h, w)
  = (Raise (InvalidAuth "No such username. Login failed."),
     (h, answered w (submit_request api_root company_id connection step username password))).
Proof.
  intros Hreturned Hne. submit_run.
  rewrite Hreturned. simpl. rewrite Hflow. simpl. rewrite Hne. reflexivity.
Qed.

(** The flowId is the same and the step id did not move: the password is wrong. *)
Lemma submit_wrong_password (returned returned_step : json) :
  getitem data "flowId" = Ok returned -> py_ne returned flow = false ->
  getitem data "id" = Ok returned_step -> py_eq returned_step step = true ->
  submit_login_form username password (h, w)
  = (Raise (InvalidAuth "Wrong password. Login failed."),
     (h, answered w (submit_request api_root company_id connection step username password))).
Proof.
  intros Hreturned Hne Hid Heq. submit_run.
  rewrite Hreturned. simpl. rewrite Hflow. simpl. rewrite Hne.
  rewrite Hid. simpl. rewrite Hstep. simpl. rewrite Heq. reflexivity.
Qed.

(** The flowId is the same and the step id moved: the new step id is adopted. *)
Lemma submit_accepted (returned returned_step : json) :
  getitem data "flowId" = Ok returned -> py_ne returned flow = false ->
  getitem data "id" = Ok returned_step -> py_eq returned_step step = false ->
  submit_login_form username password (h, w)
  = (Ok tt,
     (set_id returned_step h,
      answered w (submit_request api_root company_id connection step username password))).
Proof.
  intros Hreturned Hne Hid Heq. submit_run.
  rewrite Hreturned. simpl. rewrite Hflow. simpl. rewrite Hne.
  rewrite Hid. simpl. rewrite Hstep. simpl. rewrite Heq. reflexivity.
Qed.

(** C1: a response to the credential submission whose flowId differs
    from the flowId captured by [start_flow] makes [submit_login_form]
    raise InvalidAuth("No such username. Login failed."), whatever else
    the response holds; the handler is left as it was, and a [login]
    that reached the submission ends there with that exception: the
    submission is the last request it issues, and no later response is
    consumed. *)
Theorem unknown_username_stops_handshake (returned : json) :
  getitem data "flowId" = Ok returned -> py_ne returned flow = true ->
  submit_login_form username password (h, w)
  = (Raise (InvalidAuth "No such username. Login failed."),
     (h, answered w (submit_request api_root company_id connection step username password)))
  /\
  forall s0 : state,
    before_submit s0 = (Ok tt, (h, w)) ->
    login username password s0
    = (Raise (InvalidAuth "No such username. Login failed."),
       (h, answered w (submit_request api_root company_id connection step username password))).
Proof.
  intros Hreturned Hne.
  pose proof (submit_unknown_username returned Hreturned Hne) as Hsubmit.
  split; [exact Hsubmit |].
  intros s0 Hbefore. unfold login.
  rewrite (after_four _ _ _ _ _ s0 (h, w) tt Hbefore).
  apply bind_raise. exact Hsubmit.
Qed.

(** C2 (amended): for a response to the credential submission whose
    flowId equals the flowId captured by [start_flow]: when its id
    equals the step id that was submitted, [submit_login_form] raises
    InvalidAuth("Wrong password. Login failed.") and leaves the handler
    as it was; otherwise it returns and the handler holds the new step
    id. *)
Theorem same_flow_checks_step_id (returned returned_step : json) :
  getitem data "flowId" = Ok returned -> py_ne returned flow = false ->
  getitem data "id" = Ok returned_step ->
  (py_eq returned_step step = true ->
     submit_login_form username password (h, w)
     = (Raise (InvalidAuth "Wrong password. Login failed."),
        (h, answered w (submit_request api_root company_id connection step username password))))
  /\
  (py_eq returned_step step = false ->
     submit_login_form username password (h, w)
     = (Ok tt,
        (set_id returned_step h,
         answered w (submit_request api_root company_id connection step username password)))).
Proof.
  intros Hreturned Hne Hid. split; intros Heq.
  - exact (submit_wrong_password returned returned_step Hreturned Hne Hid Heq).
  - exact (submit_accepted returned returned_step Hreturned Hne Hid Heq).
Qed.

End CredentialSubmission.

(** The scripted handshake, with a submission answered from another flow:
    five requests went out, and the four later responses stay unread. *)
Lemma unknown_username_stops_handshake_witness :
  py_ne (JStr "F2") (JStr "F1") = true /\
  fst (EvergyLoginHandler.login "user" "secret"
         (Scenario.fresh_handler (Scenario.handshake_with Scenario.unknown_user)))
  = Raise (InvalidAuth "No such username. Login failed.") /\
  List.length (trace (snd (snd (EvergyLoginHandler.login "user" "secret"
         (Scenario.fresh_handler (Scenario.handshake_with Scenario.unknown_user))))))
  = 5%nat /\
  script (snd (snd (EvergyLoginHandler.login "user" "secret"
         (Scenario.fresh_handler (Scenario.handshake_with Scenario.unknown_user)))))
  = Scenario.after_submission.
Proof.
  set (s0 := Scenario.fresh_handler (Scenario.handshake_with Scenario.unknown_user)).
  set (w4 := snd (snd (EvergyLoginHandler.before_submit s0))).
  assert (Hbefore : EvergyLoginHandler.before_submit s0 = (Ok tt, (Scenario.handler_at_form, w4)))
    by (vm_compute; reflexivity).
  destruct (unknown_username_stops_handshake
              Scenario.handler_at_form w4 "user" "secret"
              [ ("company_id", "C1"); ("sk_api_key", "KEY");
                ("api_root", "https://auth.x/a"); ("policy_id", "P1");
                ("post_processing_api", "/post"); ("datasource_item_id", "D1") ]
              "https://auth.x/a" "C1" "K1" (JStr "S1") (JStr "F1")
              Scenario.unknown_user Scenario.after_submission Scenario.unknown_user_data
              eq_refl eq_refl eq_refl eq_refl eq_refl eq_refl eq_refl eq_refl eq_refl eq_refl
              (JStr "F2") eq_refl eq_refl) as [_ Hlogin].
  rewrite (Hlogin s0 Hbefore).
  split; [reflexivity | split; [reflexivity | split; reflexivity]].
Defined.

(** C2, as stated, fails when the flowId differs as well: a response
    whose id equals the submitted step id "S1" but whose flowId is not the
    one of the flow raises the unknown-username variant, not the
    wrong-password one; and a response with another flowId and a new step
    id raises too, so its step id is not adopted. *)
Lemma equal_step_id_in_other_flow_is_unknown_username :
  getitem Scenario.unknown_user_data "id" = Ok (JStr "S1") /\
  EvergyLoginHandler.id Scenario.handler_at_form = Some (JStr "S1") /\
  py_eq (JStr "S1") (JStr "S1") = true /\
  fst (EvergyLoginHandler.submit_login_form "user" "secret"
         (Scenario.at_form [Scenario.unknown_user]))
  = Raise (InvalidAuth "No such username. Login failed.") /\
  fst (EvergyLoginHandler.submit_login_form "user" "secret"
         (Scenario.at_form [Scenario.unknown_user]))
  <> Raise (InvalidAuth "Wrong password. Login failed.") /\
  py_eq (JStr "S2") (JStr "S1") = false /\
  fst (EvergyLoginHandler.submit_login_form "user" "secret"
         (Scenario.at_form [Scenario.other_flow_new_step]))
  = Raise (InvalidAuth "No such username. Login failed.") /\
  EvergyLoginHandler.id
    (fst (snd (EvergyLoginHandler.submit_login_form "user" "secret"
                 (Scenario.at_form [Scenario.other_flow_new_step]))))
  = Some (JStr "S1").
Proof.
  repeat split; try reflexivity.
  vm_compute. discriminate.
Qed.

(** The submission of step S1, answered in the same flow with the step id S1. *)
Lemma same_flow_checks_step_id_witness :
  getitem Scenario.wrong_password_data "flowId" = Ok (JStr "F1") /\
  py_ne (JStr "F1") (JStr "F1") = false /\
  getitem Scenario.wrong_password_data "id" = Ok (JStr "S1") /\
  py_eq (JStr "S1") (JStr "S1") = true /\
  fst (EvergyLoginHandler.submit_login_form "user" "secret"
         (Scenario.at_form [Scenario.wrong_password]))
  = Raise (InvalidAuth "Wrong password. Login failed.").
Proof.
  repeat (split; [reflexivity |]).
  unfold Scenario.at_form.
  rewrite (proj1 (same_flow_checks_step_id
                    Scenario.handler_at_form (Scenario.online [Scenario.wrong_password])
                    "user" "secret"
                    [ ("company_id", "C1"); ("sk_api_key", "KEY");
                      ("api_root", "https://auth.x/a"); ("policy_id", "P1");
                      ("post_processing_api", "/post"); ("datasource_item_id", "D1") ]
                    "https://auth.x/a" "C1" "K1" (JStr "S1") (JStr "F1")
                    Scenario.wrong_password [] Scenario.wrong_password_data
                    eq_refl eq_refl eq_refl eq_refl eq_refl eq_refl eq_refl eq_refl eq_refl
                    eq_refl (JStr "F1") (JStr "S1") eq_refl eq_refl eq_refl) eq_refl).
  reflexivity.
Defined.

(** ** The widget descriptor extractor *)

Section Extractor.

Import EvergyDavinciWidgetParser.

Lemma next_filter_missing (name : string) (attrs : attrs_t) :
  (forall v, ~ In (name, v) attrs) -> next_filter name attrs = Raise StopIteration.
Proof.
  induction attrs as [| [k v] attrs IH]; intros Hmissing; simpl.
  - reflexivity.
  - destruct (String.eqb_spec k name) as [-> | Hk].
    + exfalso. apply (Hmissing v). left. reflexivity.
    + apply IH. intros v' Hin. apply (Hmissing v'). right. exact Hin.
Qed.

(** The lookup of an attribute finds it or raises StopIteration. *)
Lemma next_filter_cases (name : string) (attrs : attrs_t) :
  next_filter name attrs = Raise StopIteration \/ exists a, next_filter name attrs = Ok a.
Proof.
  induction attrs as [| a attrs IH]; simpl.
  - left. reflexivity.
  - destruct (String.eqb (fst a) name); [right; exists a; reflexivity | exact IH].
Qed.

Lemma store_cases (key name : string) (attrs : attrs_t) (data : dict string) :
  store key name attrs data = (Raise StopIteration, data) \/
  exists data', store key name attrs data = (Ok tt, data').
Proof.
  unfold store, bind, lift, modify.
  destruct (next_filter_cases name attrs) as [-> | [a ->]].
  - left. reflexivity.
  - right. eexists. reflexivity.
Qed.

Lemma store_missing (key name : string) (attrs : attrs_t) (data : dict string) :
  (forall v, ~ In (name, v) attrs) -> store key name attrs data = (Raise StopIteration, data).
Proof.
  intros Hmissing. unfold store, bind, lift.
  rewrite (next_filter_missing name attrs Hmissing). reflexivity.
Qed.

(** A start tag is handled without an exception or with StopIteration. *)
Lemma handle_starttag_cases (tag : string) (attrs : attrs_t) (data : dict string) :
  fst (handle_starttag tag attrs data) = Ok tt \/
  fst (handle_starttag tag attrs data) = Raise StopIteration.
Proof.
  unfold handle_starttag. destruct (is_marker tag attrs); [| left; reflexivity].
  unfold bind.
  repeat match goal with
         | |- context [store ?k ?n attrs ?d] =>
             destruct (store_cases k n attrs d) as [-> | [? ->]];
             [right; reflexivity |]
         end.
  left. reflexivity.
Qed.

(** A marker element that lacks a required attribute stops the parser. *)
Lemma handle_starttag_incomplete (tag : string) (attrs : attrs_t) (name : string)
    (data : dict string) :
  is_marker tag attrs = true -> In name required_attributes ->
  (forall v, ~ In (name, v) attrs) ->
  fst (handle_starttag tag attrs data) = Raise StopIteration.
Proof.
  intros Hmarker Hname Hmissing. unfold handle_starttag. rewrite Hmarker.
  unfold bind. simpl in Hname.
  repeat (destruct Hname as [<- | Hname]); try contradiction;
    repeat match goal with
           | |- context [store ?k ?n attrs ?d] =>
               first [ rewrite (store_missing k n attrs d Hmissing)
                     | destruct (store_cases k n attrs d) as [-> | [? ->]] ];
               try reflexivity
           end.
Qed.

Lemma feed_incomplete (tags : list starttag) (data : dict string) :
  marker_incomplete tags -> fst (feed tags data) = Raise StopIteration.
Proof.
  revert data. induction tags as [| [tag attrs] tags IH]; intros data Hinc.
  - destruct Hinc as (? & ? & ? & [] & _).
  - simpl. unfold bind.
    destruct Hinc as (tag' & attrs' & name & Hin & Hmarker & Hname & Hmissing).
    destruct Hin as [Hhead | Htail].
    + injection Hhead as -> ->.
      pose proof (handle_starttag_incomplete tag' attrs' name data Hmarker Hname Hmissing) as H.
      destruct (handle_starttag tag' attrs' data) as [[[] | e] data']; simpl in H.
      * discriminate.
      * rewrite H. reflexivity.
    + destruct (handle_starttag_cases tag attrs data) as [H | H];
        destruct (handle_starttag tag attrs data) as [[[] | e] data']; simpl in H;
        try discriminate.
      * apply IH. exists tag', attrs', name. auto.
      * rewrite H. reflexivity.
Qed.

Lemma feed_without_marker (tags : list starttag) (data : dict string) :
  marker_absent tags -> feed tags data = (Ok tt, data).
Proof.
  induction tags as [| [tag attrs] tags IH]; intros Habsent.
  - reflexivity.
  - simpl. unfold bind, handle_starttag.
    rewrite (Habsent tag attrs (or_introl eq_refl)). simpl.
    apply IH. intros tag' attrs' Hin. apply Habsent. right. exact Hin.
Qed.

End Extractor.

(** C5: when the login page was fetched and its markup holds no marker
    element ([div] of class davinci-widget-wrapper), or holds a marker
    element that lacks one of the six data attributes, [get_auth_data]
    fails with the error kind the spec calls MissingWidgetData: the
    AssertionError "Failed to get davinci widget data" in the first case
    and the StopIteration of the attribute lookup, which leaves the
    coroutine as a RuntimeError, in the second.  The fetch of the page is
    the only request. *)
Theorem missing_widget_data_fails
    (h : EvergyLoginHandler.t) (w : world) (page : response) (rest : list response) :
  nth (EvergyLoginHandler.session h) (sessions w) true = false ->
  script w = page :: rest ->
  resp_ok page = true ->
  (marker_absent (resp_starttags page) ->
     EvergyLoginHandler.get_auth_data (h, w)
     = (Raise (AssertionError "Failed to get davinci widget data"),
        (EvergyLoginHandler.set_auth_data [] h, answered w login_page_request))) /\
  (marker_incomplete (resp_starttags page) ->
     EvergyLoginHandler.get_auth_data (h, w)
     = (Raise (RuntimeError "coroutine raised StopIteration"),
        (h, answered w login_page_request))) /\
  (marker_absent (resp_starttags page) \/ marker_incomplete (resp_starttags page) ->
     exists e,
       fst (EvergyLoginHandler.get_auth_data (h, w)) = Raise e /\
       MissingWidgetData e /\
       trace (snd (snd (EvergyLoginHandler.get_auth_data (h, w))))
       = (trace w ++ [login_page_request])%list).
Proof.
  intros Hopen Hscript Hok.
  assert (Habsent : marker_absent (resp_starttags page) ->
            EvergyLoginHandler.get_auth_data (h, w)
            = (Raise (AssertionError "Failed to get davinci widget data"),
               (EvergyLoginHandler.set_auth_data [] h, answered w login_page_request))).
  { intros Hm.
    unfold EvergyLoginHandler.get_auth_data, coroutine, EvergyLoginHandler.send, in_world, bind.
    simpl.
    rewrite (session_request_answered _ _ _ _ _ Hopen Hscript Hok).
    rewrite (feed_without_marker _ [] Hm). reflexivity. }
  assert (Hincomplete : marker_incomplete (resp_starttags page) ->
            EvergyLoginHandler.get_auth_data (h, w)
            = (Raise (RuntimeError "coroutine raised StopIteration"),
               (h, answered w login_page_request))).
  { intros Hm.
    unfold EvergyLoginHandler.get_auth_data, coroutine, EvergyLoginHandler.send, in_world, bind.
    simpl.
    rewrite (session_request_answered _ _ _ _ _ Hopen Hscript Hok).
    pose proof (feed_incomplete (resp_starttags page) [] Hm) as Hfeed.
    unfold lift.
    destruct (EvergyDavinciWidgetParser.feed (resp_starttags page) []) as [outcome data].
    simpl in Hfeed. subst outcome. reflexivity. }
  split; [exact Habsent | split; [exact Hincomplete |]].
  intros [Hm | Hm].
  - rewrite (Habsent Hm). eexists. split; [reflexivity | split; [left; reflexivity | reflexivity]].
  - rewrite (Hincomplete Hm). eexists.
    split; [reflexivity | split; [right; reflexivity | reflexivity]].
Qed.

(** The page whose widget lacks the policy id, and the page without a widget. *)
Lemma missing_widget_data_fails_witness :
  marker_incomplete (resp_starttags Scenario.page_with_incomplete_widget) /\
  EvergyLoginHandler.get_auth_data
    (Scenario.fresh_handler [Scenario.page_with_incomplete_widget; Scenario.sdktoken])
  = (Raise (RuntimeError "coroutine raised StopIteration"),
     (EvergyLoginHandler.init 0%nat,
      answered (Scenario.online [Scenario.page_with_incomplete_widget; Scenario.sdktoken])
               login_page_request)) /\
  marker_absent (resp_starttags Scenario.page_without_widget) /\
  EvergyLoginHandler.get_auth_data
    (Scenario.fresh_handler [Scenario.page_without_widget; Scenario.sdktoken])
  = (Raise (AssertionError "Failed to get davinci widget data"),
     (EvergyLoginHandler.set_auth_data [] (EvergyLoginHandler.init 0%nat),
      answered (Scenario.online [Scenario.page_without_widget; Scenario.sdktoken])
               login_page_request)).
Proof.
  assert (Hincomplete : marker_incomplete (resp_starttags Scenario.page_with_incomplete_widget)).
  { exists (fst Scenario.incomplete_widget), (snd Scenario.incomplete_widget),
      "data-davinci-policy-id".
    split; [right; left; reflexivity |].
    split; [reflexivity |].
    split; [simpl; auto |].
    intros v Hin. simpl in Hin.
    repeat (destruct Hin as [Hin | Hin]; [discriminate Hin |]).
    exact Hin. }
  assert (Habsent : marker_absent (resp_starttags Scenario.page_without_widget)).
  { intros tag attrs Hin. simpl in Hin.
    destruct Hin as [Hin | [Hin | Hin]]; [| | contradiction];
      injection Hin as <- <-; reflexivity. }
  split; [exact Hincomplete | split; [| split; [exact Habsent |]]].
  - exact (proj1 (proj2 (missing_widget_data_fails
                           (EvergyLoginHandler.init 0%nat)
                           (Scenario.online
                              [Scenario.page_with_incomplete_widget; Scenario.sdktoken])
                           Scenario.page_with_incomplete_widget [Scenario.sdktoken]
                           eq_refl eq_refl eq_refl)) Hincomplete).
  - exact (proj1 (missing_widget_data_fails
                    (EvergyLoginHandler.init 0%nat)
                    (Scenario.online [Scenario.page_without_widget; Scenario.sdktoken])
                    Scenario.page_without_widget [Scenario.sdktoken]
                    eq_refl eq_refl eq_refl) Habsent).
Defined.

(** ** The client: logout *)

Section Logout.

Import Evergy.

Lemma logout_frame : frame account_context logout.
Proof.
  unfold logout.
  apply frame_bind; [intros s; reflexivity | intros sid].
  apply frame_bind; [| intros resp].
  { intros s. unfold account_context, in_world.
    destruct (session_request _ _ (snd s)). reflexivity. }
  apply frame_bind; [apply frame_assert | intros _].
  apply frame_bind; [| intros _].
  { intros s. unfold account_context, in_world.
    destruct (close_session sid (snd s)). reflexivity. }
  intros s. reflexivity.
Qed.

Lemma logout_returns (c : t) (w : world) (sid : session_ref)
    (r : response) (rest : list response) :
  session c = Some sid -> nth sid (sessions w) true = false ->
  script w = r :: rest -> resp_ok r = true -> resp_text r <> "" ->
  logout (c, w) = (Ok tt, (set_logged_in false c, closed (answered w logout_request) sid)).
Proof.
  intros Hsession Hopen Hscript Hok Htext.
  unfold logout, bind, in_world. simpl. rewrite Hsession. simpl.
  fold logout_request.
  rewrite (session_request_answered _ _ _ _ _ Hopen Hscript Hok).
  destruct (String.eqb_spec (resp_text r) "") as [Hempty | _]; [contradiction |].
  reflexivity.
Qed.

Lemma logout_flag (c : t) (w : world) :
  logged_in (fst (snd (logout (c, w))))
  = match fst (logout (c, w)) with
    | Ok _ => false
    | Raise _ => logged_in c
    end.
Proof.
  unfold logout, bind, in_world, update, modify, assert, close_session, ret, raise.
  simpl. crack; reflexivity.
Qed.

End Logout.

(** C9: [logout] leaves the account number, the premise id and the
    dashboard data of the client as they were, whatever its outcome; when
    it returns, the flag [logged_in] is false (when it raises, the flag is
    as it was); and it returns whenever the open session of the client
    gets a response with a success status and a body that is not empty. *)
Theorem logout_keeps_account_context (c : Evergy.t) (w : world) :
  account_context (snd (Evergy.logout (c, w))) = account_context (c, w) /\
  Evergy.logged_in (fst (snd (Evergy.logout (c, w))))
  = match fst (Evergy.logout (c, w)) with
    | Ok _ => false
    | Raise _ => Evergy.logged_in c
    end /\
  forall (sid : session_ref) (r : response) (rest : list response),
    Evergy.session c = Some sid -> nth sid (sessions w) true = false ->
    script w = r :: rest -> resp_ok r = true -> resp_text r <> "" ->
    Evergy.logout (c, w)
    = (Ok tt, (Evergy.set_logged_in false c, closed (answered w logout_request) sid)).
Proof.
  split; [apply logout_frame | split; [apply logout_flag |]].
  intros sid r rest. apply logout_returns.
Qed.

(** The logout of a logged-in client. *)
Lemma logout_keeps_account_context_witness :
  Evergy.logout (Scenario.logged_in_client, Scenario.online [Scenario.logged_out_page])
  = (Ok tt,
     (Evergy.mk false (Some 0%nat) "user" "secret" JNull
        Scenario.dashboard (JInt 123456789) (JInt 42),
      closed (answered (Scenario.online [Scenario.logged_out_page]) logout_request) 0%nat)).
Proof.
  refine (proj2 (proj2 (logout_keeps_account_context Scenario.logged_in_client
                          (Scenario.online [Scenario.logged_out_page])))
            0%nat Scenario.logged_out_page [] eq_refl eq_refl eq_refl eq_refl _).
  discriminate.
Defined.

(** ** The client: login *)

Section HandlerSessions.

Import EvergyLoginHandler.

Lemma sessions_send (rq : request) : frame sessions_of (send rq).
Proof.
  intros [h w]. unfold sessions_of, send, in_world, session_request. simpl.
  destruct (nth (session h) (sessions w) true); [reflexivity |].
  destruct (script w) as [| r rest]; [reflexivity |].
  destruct (resp_ok r); reflexivity.
Qed.

Lemma sessions_update (g : t -> t) : frame sessions_of (update g).
Proof. intros s. reflexivity. Qed.

Ltac sessions :=
  repeat first
    [ apply frame_bind; [| intros ?]
    | apply frame_if
    | apply frame_coroutine
    | apply sessions_send
    | apply sessions_update
    | apply frame_attr
    | apply frame_auth
    | apply frame_capability
    | solve [auto with frames]
    | progress cbv zeta ].

(** The handshake creates and closes no session. *)
Lemma login_sessions (username password : string) :
  frame sessions_of (login username password).
Proof.
  unfold login, get_auth_data, get_sdktoken, start_flow, get_login_form,
    submit_login_form, get_new_connection_id, get_new_connection_cookie,
    get_new_access_token, postprocessing_api.
  sessions.
Qed.

End HandlerSessions.

(** A session that was just created is open. *)
Lemma new_session_open (l : list bool) : nth (List.length l) (l ++ [false]) true = false.
Proof.
  induction l as [| b l IH]; simpl; [reflexivity | exact IH].
Qed.

(** A value that passes [assert account_data] has no length 0. *)
Lemma truthy_length (v : json) (n : Z) : truthy v = true -> py_len v = Ok n -> n <> 0.
Proof.
  destruct v as [| b | z | s | items | fields]; simpl; intros Ht Hn;
    try discriminate; injection Hn as <-.
  - destruct s; [discriminate | simpl; lia].
  - destruct items; [discriminate | simpl; lia].
  - destruct fields; [discriminate | simpl; lia].
Qed.

Section ClientLogin.

Import Evergy.

Variables (c : t) (w : world) (h' : EvergyLoginHandler.t) (w' : world).

(** The handshake of [login], on the session it created, succeeded. *)
Hypothesis Hhandshake :
  EvergyLoginHandler.login (username c) (password c)
    (EvergyLoginHandler.init (List.length (sessions w)), with_new_session w)
  = (Ok tt, (h', w')).

Lemma session_still_open : nth (List.length (sessions w)) (sessions w') true = false.
Proof.
  pose proof (login_sessions (username c) (password c)
                (EvergyLoginHandler.init (List.length (sessions w)), with_new_session w)) as H.
  rewrite Hhandshake in H. unfold sessions_of in H. simpl in H.
  rewrite H. apply new_session_open.
Qed.

(** [login] up to the answer of the account selector. *)
Lemma login_reaches_accounts (r : response) (rest : list response) (k : response -> M state bool) :
  script w' = r :: rest -> resp_ok r = true ->
  (sid <- in_world new_session ;;
   update (set_session sid) ;;
   user <- gets (fun s => username (fst s)) ;;
   pass <- gets (fun s => password (fst s)) ;;
   with_handler (EvergyLoginHandler.init sid) (EvergyLoginHandler.login user pass) ;;
   response <- send (mkRequest GET AccountSummaryUrl [ua] None) ;;
   k response) (c, w)
  = k r (set_session (List.length (sessions w)) c, answered w' account_request).
Proof.
  intros Hscript Hok.
  unfold bind at 1. unfold in_world at 1, new_session at 1. cbv beta iota. cbn [snd fst].
  unfold bind at 1. unfold update at 1, modify at 1. cbv beta iota. cbn [snd fst].
  unfold bind at 1. unfold gets at 1. cbv beta iota. cbn [snd fst username set_session].
  unfold bind at 1. unfold gets at 1. cbv beta iota. cbn [snd fst password set_session].
  unfold bind at 1. unfold with_handler at 1. cbn [snd fst].
  fold (with_new_session w). rewrite Hhandshake. cbv beta iota. cbn [snd fst].
  unfold bind at 1. unfold send at 1. cbn [snd fst session set_session].
  unfold in_world at 1. cbn [snd fst].
  rewrite (session_request_answered _ _ _ _ _ session_still_open Hscript Hok).
  reflexivity.
Qed.

End ClientLogin.

(** C3 (what the code does): when the handshake succeeded and the account
    selector answers with an empty list, [login] does not return: the
    statement [assert account_data] raises AssertionError, because an
    empty list is falsy.  The client keeps its account number, premise id
    and flag as they were (unset on a new client); only the session was
    assigned.  No value that passes the assertion has length 0, so the
    branch [len(account_data) == 0] that would make [login] return False
    is never taken. *)
Theorem login_without_accounts_raises
    (c : Evergy.t) (w : world) (h' : EvergyLoginHandler.t) (w' : world)
    (r : response) (rest : list response) :
  EvergyLoginHandler.login (Evergy.username c) (Evergy.password c)
    (EvergyLoginHandler.init (List.length (sessions w)), with_new_session w)
  = (Ok tt, (h', w')) ->
  script w' = r :: rest -> resp_ok r = true -> resp_json false r = Ok (JArr []) ->
  Evergy.login (c, w)
  = (Raise (AssertionError "Failed to get Evergy account data"),
     (Evergy.set_session (List.length (sessions w)) c, answered w' account_request)) /\
  forall (account_data : json) (n : Z),
    truthy account_data = true -> py_len account_data = Ok n -> (n =? 0) = false.
Proof.
  intros Hhandshake Hscript Hok Hjson. split.
  - unfold Evergy.login.
    rewrite (login_reaches_accounts c w h' w' Hhandshake r rest _ Hscript Hok).
    unfold bind at 1. unfold lift at 1. rewrite Hjson. reflexivity.
  - intros v n Ht Hn. apply Z.eqb_neq. exact (truthy_length v n Ht Hn).
Qed.

(** The scripted handshake followed by an empty account list, on a new client. *)
Lemma login_without_accounts_raises_witness :
  fst (Evergy.login (Scenario.client,
                     Scenario.portal (Scenario.handshake ++ [Scenario.no_accounts])))
  = Raise (AssertionError "Failed to get Evergy account data") /\
  account_context (snd (Evergy.login (Scenario.client,
                     Scenario.portal (Scenario.handshake ++ [Scenario.no_accounts]))))
  = (JNull, JNull, JNull) /\
  Evergy.logged_in (fst (snd (Evergy.login (Scenario.client,
                     Scenario.portal (Scenario.handshake ++ [Scenario.no_accounts])))))
  = false.
Proof.
  set (w0 := Scenario.portal (Scenario.handshake ++ [Scenario.no_accounts])).
  set (run := EvergyLoginHandler.login "user" "secret"
                (Scenario.fresh_handler (Scenario.handshake ++ [Scenario.no_accounts]))).
  assert (Hhandshake :
            EvergyLoginHandler.login (Evergy.username Scenario.client)
              (Evergy.password Scenario.client)
              (EvergyLoginHandler.init (List.length (sessions w0)), with_new_session w0)
            = (Ok tt, (fst (snd run), snd (snd run))))
    by (vm_compute; reflexivity).
  assert (Hscript : script (snd (snd run)) = [Scenario.no_accounts])
    by (vm_compute; reflexivity).
  rewrite (proj1 (login_without_accounts_raises
                    Scenario.client w0 (fst (snd run)) (snd (snd run))
                    Scenario.no_accounts [] Hhandshake Hscript eq_refl eq_refl)).
  split; [reflexivity | split; reflexivity].
Defined.

(** ** The client: get_usage_range *)

(** C4, as stated, fails for a client that is not logged in: [login] runs
    before the dates are compared.  On the scripted portal the exception
    for [start > end] comes after the eleven requests of the login; and
    when the portal answers the first request with a status 500, it is
    the error of the transport that is raised, after one request. *)
Lemma start_after_end_is_checked_after_login :
  Datetime.gt Scenario.may_2 Scenario.may_1 = Ok true /\
  Evergy.logged_in Scenario.client = false /\
  fst (Evergy.get_usage_range (Some Scenario.may_2) (Some Scenario.may_1) DAY_INTERVAL
         (Scenario.client,
          Scenario.portal (Scenario.handshake ++
                           [Scenario.accounts; Scenario.json_response Scenario.dashboard])))
  = Raise (EvergyException Evergy.START_AFTER_END) /\
  List.length
    (trace (snd (snd (Evergy.get_usage_range (Some Scenario.may_2) (Some Scenario.may_1)
         DAY_INTERVAL
         (Scenario.client,
          Scenario.portal (Scenario.handshake ++
                           [Scenario.accounts; Scenario.json_response Scenario.dashboard]))))))
  = 11%nat /\
  Evergy.get_usage_range (Some Scenario.may_2) (Some Scenario.may_1) DAY_INTERVAL
    (Scenario.client, Scenario.portal [Scenario.server_error])
  = (Raise ClientResponseError,
     (Evergy.set_session 0%nat Scenario.client,
      mkWorld [] [login_page_request] [false] 739008)).
Proof.
  repeat split; vm_compute; reflexivity.
Qed.

Section UsageRange.

Import Evergy.

Variables (c : t) (w : world) (interval : string).

(** The dates are in the wrong order and the client is logged in. *)
Lemma wrong_order_logged_in (start_ end_ : datetime) :
  Datetime.gt start_ end_ = Ok true -> logged_in c = true ->
  get_usage_range (Some start_) (Some end_) interval (c, w)
  = (Raise (EvergyException START_AFTER_END), (c, w)).
Proof.
  intros Hgt Hlogged.
  unfold get_usage_range, default_date, ensure_logged_in, bind, ret, gets, lift, raise.
  cbn [fst snd]. rewrite Hlogged. cbn [negb]. rewrite Hgt. reflexivity.
Qed.

(** The dates are in the wrong order and the client is not logged in. *)
Lemma wrong_order_logged_out (start_ end_ : datetime) :
  Datetime.gt start_ end_ = Ok true -> logged_in c = false ->
  get_usage_range (Some start_) (Some end_) interval (c, w)
  = match login (c, w) with
    | (Ok _, s') => (Raise (EvergyException START_AFTER_END), s')
    | (Raise e, s') => (Raise e, s')
    end.
Proof.
  intros Hgt Hlogged.
  unfold get_usage_range, default_date, ensure_logged_in.
  unfold bind at 1. unfold ret at 1.
  unfold bind at 1. unfold ret at 1.
  unfold bind at 1. unfold bind at 1. unfold gets at 1. cbn [fst snd].
  rewrite Hlogged. cbn [negb].
  unfold bind at 1.
  destruct (login (c, w)) as [[b | e] s']; [| reflexivity].
  unfold ret at 1. unfold bind at 1. unfold lift at 1. rewrite Hgt.
  reflexivity.
Qed.

End UsageRange.

(** C4 (amended): for dates with [start > end], [get_usage_range] never
    issues the request for the usage report.  A client that is logged in
    raises EvergyException without any request and is left as it was.  A
    client that is not logged in runs [login] first, with the requests of
    the handshake: when [login] returns, with either flag, EvergyException
    is raised in the state [login] left; when [login] raises, that
    exception is the outcome. *)
Theorem start_after_end_raises
    (c : Evergy.t) (w : world) (start_ end_ : datetime) (interval : string) :
  Datetime.gt start_ end_ = Ok true ->
  (Evergy.logged_in c = true ->
     Evergy.get_usage_range (Some start_) (Some end_) interval (c, w)
     = (Raise (EvergyException Evergy.START_AFTER_END), (c, w))) /\
  (Evergy.logged_in c = false ->
     Evergy.get_usage_range (Some start_) (Some end_) interval (c, w)
     = match Evergy.login (c, w) with
       | (Ok _, s') => (Raise (EvergyException Evergy.START_AFTER_END), s')
       | (Raise e, s') => (Raise e, s')
       end).
Proof.
  intros Hgt. split; intros Hlogged.
  - exact (wrong_order_logged_in c w interval start_ end_ Hgt Hlogged).
  - exact (wrong_order_logged_out c w interval start_ end_ Hgt Hlogged).
Qed.

(** A logged-in client asked for the range from 2024-05-02 to 2024-05-01. *)
Lemma start_after_end_raises_witness :
  Datetime.gt Scenario.may_2 Scenario.may_1 = Ok true /\
  Evergy.logged_in Scenario.logged_in_client = true /\
  Evergy.get_usage_range (Some Scenario.may_2) (Some Scenario.may_1) DAY_INTERVAL
    (Scenario.logged_in_client, Scenario.online [Scenario.json_response Scenario.usage])
  = (Raise (EvergyException "'start' date can't be after 'end' date"),
     (Scenario.logged_in_client, Scenario.online [Scenario.json_response Scenario.usage])).
Proof.
  assert (Hgt : Datetime.gt Scenario.may_2 Scenario.may_1 = Ok true) by reflexivity.
  split; [exact Hgt | split; [reflexivity |]].
  exact (proj1 (start_after_end_raises Scenario.logged_in_client
                  (Scenario.online [Scenario.json_response Scenario.usage])
                  Scenario.may_2 Scenario.may_1 DAY_INTERVAL Hgt) eq_refl).
Defined.

Section UsageReport.

Import Evergy.

(** A call whose dates are in order: the client [c1] and the world [w1]
    are what the lazy login leaves, and [r] answers the request for the
    usage report on the open session of [c1]. *)
Variables (c : t) (w : world) (start_ end_ : option datetime) (interval : string).
Variables (from_date to_date : datetime) (c1 : t) (w1 : world).
Variables (sid : session_ref) (r : response) (rest : list response).

Hypothesis Hstart : fst (default_date start_ (c, w)) = Ok from_date.
Hypothesis Hend : fst (default_date end_ (c, w)) = Ok to_date.
Hypothesis Hlogin : ensure_logged_in (c, w) = (Ok tt, (c1, w1)).
Hypothesis Horder : Datetime.gt from_date to_date = Ok false.
Hypothesis Hsession : session c1 = Some sid.
Hypothesis Hopen : nth sid (sessions w1) true = false.
Hypothesis Hscript : script w1 = r :: rest.
Hypothesis Hok : resp_ok r = true.

Lemma default_date_run (d : option datetime) (v : datetime) (s : state) :
  fst (default_date d s) = Ok v -> default_date d s = (Ok v, s).
Proof.
  destruct d as [d |]; simpl; intros H.
  - injection H as ->. reflexivity.
  - rewrite H. reflexivity.
Qed.

(** The call up to the decoded body of the usage report. *)
Lemma usage_report_received (k : json -> M state json) :
  (start_ <- default_date start_ ;;
   end_ <- default_date end_ ;;
   ensure_logged_in ;;
   after <- lift (Datetime.gt start_ end_) ;;
   if after then raise (EvergyException START_AFTER_END)
   else
     premise <- gets (fun s => premise_id (fst s)) ;;
     resp <- send (mkRequest GET (UsageDataUrl premise interval start_ end_)
                     [ua; ("Content-Type", JStr "application/json")] None) ;;
     usage_response <- lift (resp_json true resp) ;;
     k usage_response) (c, w)
  = match resp_json true r with
    | Ok usage_response =>
        k usage_response
          (c1, answered w1 (usage_request (premise_id c1) interval from_date to_date))
    | Raise e =>
        (Raise e, (c1, answered w1 (usage_request (premise_id c1) interval from_date to_date)))
    end.
Proof.
  unfold bind at 1. rewrite (default_date_run _ _ _ Hstart).
  unfold bind at 1. rewrite (default_date_run _ _ _ Hend).
  unfold bind at 1. rewrite Hlogin.
  unfold bind at 1. unfold lift at 1. rewrite Horder.
  unfold bind at 1. unfold gets at 1. cbn [fst snd].
  unfold bind at 1. unfold send at 1. cbn [fst snd]. rewrite Hsession.
  unfold in_world at 1. cbn [fst snd].
  rewrite (session_request_answered _ _ _ _ _ Hopen Hscript Hok).
  unfold bind at 1. unfold lift at 1. fold (usage_request (premise_id c1) interval from_date to_date).
  destruct (resp_json true r); reflexivity.
Qed.

(** A body that is absent (blank) or the JSON [null] decodes to [None]. *)
Lemma null_or_absent_body :
  resp_is_json r = true ->
  blank (resp_text r) = true \/ resp_loads r = Some JNull ->
  resp_json true r = Ok JNull.
Proof.
  intros Hct Hbody. unfold resp_json. rewrite Hct. simpl.
  destruct (blank (resp_text r)); [reflexivity |].
  destruct Hbody as [Hblank | Hnull]; [discriminate | rewrite Hnull; reflexivity].
Qed.

(** C8: when the usage report comes back with a body that is absent or
    [null], [get_usage_range] returns [None] without raising, and
    [usage_data] is [None]; when it comes back with a JSON value that is
    not [null] and has the entry "data", [get_usage_range] returns the
    dict with "usage", the value of that entry, and "dashboard", the
    dashboard data the client holds. *)
Theorem usage_report_none_or_record :
  (resp_is_json r = true ->
   blank (resp_text r) = true \/ resp_loads r = Some JNull ->
   get_usage_range start_ end_ interval (c, w)
   = (Ok JNull,
      (set_usage_data JNull c1,
       answered w1 (usage_request (premise_id c1) interval from_date to_date)))) /\
  (forall usage_response data : json,
     resp_json true r = Ok usage_response ->
     is_none usage_response = false ->
     getitem usage_response "data" = Ok data ->
     get_usage_range start_ end_ interval (c, w)
     = (Ok (JObj [("usage", data); ("dashboard", dashboard_data c1)]),
        (set_usage_data data c1,
         answered w1 (usage_request (premise_id c1) interval from_date to_date)))).
Proof.
  split.
  - intros Hct Hbody. unfold get_usage_range.
    rewrite usage_report_received, (null_or_absent_body Hct Hbody). reflexivity.
  - intros usage_response data Hjson Hsome Hdata. unfold get_usage_range.
    rewrite usage_report_received, Hjson, Hsome.
    unfold bind at 1. unfold lift at 1. rewrite Hdata. reflexivity.
Qed.

End UsageReport.

(** A logged-in client that gets an empty body, the body [null], and a report. *)
Lemma usage_report_none_or_record_witness :
  Evergy.get_usage_range (Some Scenario.may_1) (Some Scenario.may_2) DAY_INTERVAL
    (Scenario.logged_in_client, Scenario.online [Scenario.empty_body])
  = (Ok JNull,
     (Scenario.logged_in_client,
      answered (Scenario.online [Scenario.empty_body])
        (usage_request (JInt 42) DAY_INTERVAL Scenario.may_1 Scenario.may_2))) /\
  Evergy.get_usage_range (Some Scenario.may_1) (Some Scenario.may_2) DAY_INTERVAL
    (Scenario.logged_in_client, Scenario.online [Scenario.null_body])
  = (Ok JNull,
     (Scenario.logged_in_client,
      answered (Scenario.online [Scenario.null_body])
        (usage_request (JInt 42) DAY_INTERVAL Scenario.may_1 Scenario.may_2))) /\
  Evergy.get_usage_range None None HOUR_INTERVAL
    (Scenario.logged_in_client, Scenario.online [Scenario.json_response Scenario.usage])
  = (Ok (JObj [ ("usage", JArr [JObj [("period", JStr "2024-05-01"); ("usage", JInt 31)]]);
                ("dashboard", Scenario.dashboard) ]),
     (Evergy.set_usage_data
        (JArr [JObj [("period", JStr "2024-05-01"); ("usage", JInt 31)]])
        Scenario.logged_in_client,
      answered (Scenario.online [Scenario.json_response Scenario.usage])
        (usage_request (JInt 42) HOUR_INTERVAL
           (mkDatetime (739008 * US_PER_DAY) None) (mkDatetime (739008 * US_PER_DAY) None)))).
Proof.
  split; [| split].
  - refine (proj1 (usage_report_none_or_record
                     Scenario.logged_in_client (Scenario.online [Scenario.empty_body])
                     (Some Scenario.may_1) (Some Scenario.may_2) DAY_INTERVAL
                     Scenario.may_1 Scenario.may_2
                     Scenario.logged_in_client (Scenario.online [Scenario.empty_body])
                     0%nat Scenario.empty_body []
                     eq_refl eq_refl eq_refl eq_refl eq_refl eq_refl eq_refl eq_refl)
              eq_refl (or_introl eq_refl)).
  - refine (proj1 (usage_report_none_or_record
                     Scenario.logged_in_client (Scenario.online [Scenario.null_body])
                     (Some Scenario.may_1) (Some Scenario.may_2) DAY_INTERVAL
                     Scenario.may_1 Scenario.may_2
                     Scenario.logged_in_client (Scenario.online [Scenario.null_body])
                     0%nat Scenario.null_body []
                     eq_refl eq_refl eq_refl eq_refl eq_refl eq_refl eq_refl eq_refl)
              eq_refl (or_intror eq_refl)).
  - refine (proj2 (usage_report_none_or_record
                     Scenario.logged_in_client
                     (Scenario.online [Scenario.json_response Scenario.usage])
                     None None HOUR_INTERVAL
                     (mkDatetime (739008 * US_PER_DAY) None)
                     (mkDatetime (739008 * US_PER_DAY) None)
                     Scenario.logged_in_client
                     (Scenario.online [Scenario.json_response Scenario.usage])
                     0%nat (Scenario.json_response Scenario.usage) []
                     eq_refl eq_refl eq_refl eq_refl eq_refl eq_refl eq_refl eq_refl)
              Scenario.usage _ eq_refl eq_refl eq_refl).
Defined.

(** * Further properties of the code *)

(** ** Dates: composition of interval ends, and the two wrappers *)

Section Dates.

Ltac constants :=
  cbv [US_PER_DAY US_PER_HOUR US_PER_MINUTE MAX_WALL MAX_ORDINAL MAX_DELTA_DAYS] in *.

Lemma valid_shift (d : datetime) (us : Z) :
  in_range (wall d + us) = true -> valid (shift d us).
Proof.
  intros H. apply in_range_iff in H. exact H.
Qed.

Lemma shift_shift (d : datetime) (a b : Z) : shift (shift d a) b = shift d (a + b).
Proof.
  unfold shift. simpl. rewrite Z.add_assoc. reflexivity.
Qed.

(** An interval end that was computed is the shifted start. *)
Lemma end_date_ok (from_date mid : datetime) (n : Z) (interval : string) :
  valid from_date ->
  get_end_date_from_number_of_intervals from_date n interval = Ok mid ->
  in_range (wall from_date + (n - 1) * interval_unit interval) = true /\
  mid = shift from_date ((n - 1) * interval_unit interval).
Proof.
  intros Hv H. rewrite (end_date_value _ _ _ Hv) in H.
  destruct (in_range _); [| discriminate].
  injection H as <-. split; reflexivity.
Qed.



End Dates.

(** X1: interval ends compose.  When the end of [a] intervals from
    [from_date] was computed, the end of [b] further intervals counted
    from that end is the end of [a + b - 1] intervals from [from_date]:
    the same datetime, or OverflowError in both computations. *)
Theorem interval_ends_compose (from_date mid : datetime) (a b : Z) (interval : string) :
  valid from_date ->
  get_end_date_from_number_of_intervals from_date a interval = Ok mid ->
  get_end_date_from_number_of_intervals mid b interval
  = get_end_date_from_number_of_intervals from_date (a + b - 1) interval.
Proof.
  intros Hv Hmid.
  destruct (end_date_ok from_date mid a interval Hv Hmid) as [Hr ->].
  rewrite (end_date_value _ b interval (valid_shift _ _ Hr)).
  rewrite (end_date_value _ (a + b - 1) interval Hv).
  rewrite shift_shift. simpl wall.
  replace (wall from_date + (a - 1) * interval_unit interval + (b - 1) * interval_unit interval)
    with (wall from_date + (a + b - 1 - 1) * interval_unit interval) by ring.
  replace ((a - 1) * interval_unit interval + (b - 1) * interval_unit interval)
    with ((a + b - 1 - 1) * interval_unit interval) by ring.
  reflexivity.
Qed.

(** Two hourly intervals from 2024-05-01, then three more, against four at once. *)
Lemma interval_ends_compose_witness :
  valid Scenario.may_1 /\
  get_end_date_from_number_of_intervals Scenario.may_1 2 HOUR_INTERVAL
  = Ok (shift Scenario.may_1 US_PER_HOUR) /\
  get_end_date_from_number_of_intervals (shift Scenario.may_1 US_PER_HOUR) 3 HOUR_INTERVAL
  = get_end_date_from_number_of_intervals Scenario.may_1 (2 + 3 - 1) HOUR_INTERVAL.
Proof.
  assert (Hv : valid Scenario.may_1) by (vm_compute; split; discriminate).
  assert (Hmid : get_end_date_from_number_of_intervals Scenario.may_1 2 HOUR_INTERVAL
                 = Ok (shift Scenario.may_1 US_PER_HOUR)) by (vm_compute; reflexivity).
  split; [exact Hv | split; [exact Hmid |]].
  exact (interval_ends_compose Scenario.may_1 _ 2 3 HOUR_INTERVAL Hv Hmid).
Defined.

Section Wrappers.

Import Evergy.

Ltac constants :=
  cbv [US_PER_DAY US_PER_HOUR US_PER_MINUTE MAX_WALL MAX_ORDINAL MAX_DELTA_DAYS] in *.

Variables (c : t) (w : world) (interval : string).




Lemma get_usage_from_dates (now : datetime) (start_ : option datetime) (size : Z) :
  valid (start_or_now now start_) ->
  get_usage_from now start_ size interval (c, w)
  = if in_range (wall (start_or_now now start_) + (size - 1) * interval_unit interval)
    then get_usage_range (Some (start_or_now now start_))
           (Some (shift (start_or_now now start_) ((size - 1) * interval_unit interval)))
           interval (c, w)
    else (Raise OverflowError, (c, w)).
Proof.
  intros Hv. unfold get_usage_from.
  unfold bind at 1.
  destruct start_ as [d |]; cbn [start_or_now] in *.
  - unfold ret at 1. unfold bind at 1. unfold lift at 1.
    rewrite (end_date_value _ size interval Hv).
    destruct (in_range _); reflexivity.
  - unfold lift at 1. rewrite (end_date_value now 1 "d" Hv).
    replace ((1 - 1) * interval_unit "d") with 0 by reflexivity.
    rewrite Z.add_0_r, shift_zero.
    replace (in_range (wall now)) with true by (symmetry; apply in_range_iff; exact Hv).
    unfold bind at 1. unfold lift at 1.
    rewrite (end_date_value _ size interval Hv).
    destruct (in_range _); reflexivity.
Qed.

Lemma shift_gt (d : datetime) (us : Z) : Datetime.gt d (shift d us) = Ok (us <? 0).
Proof.
  unfold Datetime.gt, shift. cbn [wall utcoffset]. destruct (utcoffset d); f_equal.
  - destruct (Z.ltb_spec us 0); [apply Z.ltb_lt | apply Z.ltb_ge]; lia.
  - destruct (Z.ltb_spec us 0); [apply Z.ltb_lt | apply Z.ltb_ge]; lia.
Qed.

End Wrappers.



(** X3: [get_usage_from(start, size, interval)] starts at [start], or at
    the reading of the clock when [start] is [None], and asks for the
    range up to [size - 1] interval-units later.  For [size >= 1] the
    dates are in order; for [size <= 0] the end lies before the start,
    and a client that is logged in raises EvergyException without any
    request; and when the end leaves the datetime range, OverflowError is
    raised before any login or request. *)
Theorem get_usage_from_size
    (c : Evergy.t) (w : world) (now : datetime) (start_ : option datetime)
    (size : Z) (interval : string) :
  valid (start_or_now now start_) ->
  (1 <= size ->
   wall (start_or_now now start_) + (size - 1) * interval_unit interval <= MAX_WALL ->
     Evergy.get_usage_from now start_ size interval (c, w)
     = Evergy.get_usage_range (Some (start_or_now now start_))
         (Some (shift (start_or_now now start_) ((size - 1) * interval_unit interval)))
         interval (c, w) /\
     Datetime.gt (start_or_now now start_)
       (shift (start_or_now now start_) ((size - 1) * interval_unit interval)) = Ok false) /\
  (size <= 0 ->
   0 <= wall (start_or_now now start_) + (size - 1) * interval_unit interval ->
   Evergy.logged_in c = true ->
     Evergy.get_usage_from now start_ size interval (c, w)
     = (Raise (EvergyException Evergy.START_AFTER_END), (c, w))) /\
  (~ 0 <= wall (start_or_now now start_) + (size - 1) * interval_unit interval <= MAX_WALL ->
     Evergy.get_usage_from now start_ size interval (c, w) = (Raise OverflowError, (c, w))).
Proof.
  intros Hv. pose proof (interval_unit_positive interval) as Hunit.
  rewrite (get_usage_from_dates c w interval now start_ size Hv).
  split; [| split].
  - intros Hsize Hmax.
    replace (in_range _) with true
      by (symmetry; apply in_range_iff; unfold valid in Hv; nia).
    split; [reflexivity |].
    rewrite shift_gt. f_equal. apply Z.ltb_ge. nia.
  - intros Hsize Hmin Hlogged.
    replace (in_range _) with true
      by (symmetry; apply in_range_iff; unfold valid in Hv; nia).
    apply wrong_order_logged_in; [| exact Hlogged].
    rewrite shift_gt. f_equal. apply Z.ltb_lt. nia.
  - intros Hout. destruct (in_range _) eqn:Hr; [| reflexivity].
    apply in_range_iff in Hr. contradiction.
Qed.

(** From 2024-05-01: two days end on 2024-05-02, and no interval is refused. *)
Lemma get_usage_from_size_witness :
  valid (start_or_now Scenario.may_2 (Some Scenario.may_1)) /\
  Evergy.get_usage_from Scenario.may_2 (Some Scenario.may_1) 2 DAY_INTERVAL
    (Scenario.logged_in_client, Scenario.online [])
  = Evergy.get_usage_range (Some Scenario.may_1) (Some Scenario.may_2) DAY_INTERVAL
      (Scenario.logged_in_client, Scenario.online []) /\
  Evergy.get_usage_from Scenario.may_2 (Some Scenario.may_1) 0 DAY_INTERVAL
    (Scenario.logged_in_client, Scenario.online [])
  = (Raise (EvergyException "'start' date can't be after 'end' date"),
     (Scenario.logged_in_client, Scenario.online [])).
Proof.
  assert (Hv : valid (start_or_now Scenario.may_2 (Some Scenario.may_1)))
    by (vm_compute; split; discriminate).
  pose proof (get_usage_from_size Scenario.logged_in_client (Scenario.online [])
                Scenario.may_2 (Some Scenario.may_1) 2 DAY_INTERVAL Hv) as [Htwo _].
  pose proof (get_usage_from_size Scenario.logged_in_client (Scenario.online [])
                Scenario.may_2 (Some Scenario.may_1) 0 DAY_INTERVAL Hv) as [_ [Hzero _]].
  split; [exact Hv | split].
  - refine (proj1 (Htwo _ _)); vm_compute; discriminate.
  - refine (Hzero _ _ eq_refl); vm_compute; discriminate.
Defined.

(** ** The widget descriptor that is extracted *)

Section Descriptor.

Import EvergyDavinciWidgetParser.

Lemma dict_get_set_same {V : Type} (d : dict V) (key : string) (v : V) :
  dict_get (dict_set d key v) key = Some v.
Proof.
  induction d as [| [k w] d IH]; simpl.
  - rewrite String.eqb_refl. reflexivity.
  - destruct (String.eqb k key) eqn:E; simpl; rewrite E; [reflexivity | exact IH].
Qed.

Lemma dict_get_set_other {V : Type} (d : dict V) (key key' : string) (v : V) :
  key <> key' -> dict_get (dict_set d key v) key' = dict_get d key'.
Proof.
  intros Hne. induction d as [| [k w] d IH]; simpl.
  - destruct (String.eqb_spec key key'); [contradiction | reflexivity].
  - destruct (String.eqb_spec k key) as [-> | Hk]; simpl.
    + destruct (String.eqb_spec key key'); [contradiction | reflexivity].
    + destruct (String.eqb k key'); [reflexivity | exact IH].
Qed.

(** A complete marker element stores its six attributes. *)
Lemma handle_starttag_complete (tag : string) (attrs : attrs_t) (data : dict string) :
  is_marker tag attrs = true -> marker_complete attrs ->
  exists data',
    handle_starttag tag attrs data = (Ok tt, data') /\
    forall key name a,
      In (key, name) descriptor_keys -> next_filter name attrs = Ok a ->
      dict_get data' key = Some (py_str (snd a)).
Proof.
  intros Hmarker Hcomplete.
  destruct (Hcomplete "data-davinci-company-id") as [a1 H1]; [simpl; auto 10 |].
  destruct (Hcomplete "data-davinci-sk-api-key") as [a2 H2]; [simpl; auto 10 |].
  destruct (Hcomplete "data-davinci-api-root") as [a3 H3]; [simpl; auto 10 |].
  destruct (Hcomplete "data-davinci-policy-id") as [a4 H4]; [simpl; auto 10 |].
  destruct (Hcomplete "data-davinci-post-processing-api") as [a5 H5]; [simpl; auto 10 |].
  destruct (Hcomplete "data-davinci-datasource-item-id") as [a6 H6]; [simpl; auto 10 |].
  eexists. split.
  - unfold handle_starttag, store, bind, lift, modify.
    rewrite Hmarker, H1, H2, H3, H4, H5, H6. reflexivity.
  - intros key name a Hin Ha. simpl in Hin.
    repeat (destruct Hin as [Hin | Hin]; [injection Hin as <- <- |]); try contradiction;
      repeat (rewrite dict_get_set_other by discriminate);
      rewrite dict_get_set_same; congruence.
Qed.

Lemma feed_app (l1 l2 : list starttag) (data : dict string) :
  feed (l1 ++ l2) data = (feed l1 ;; feed l2) data.
Proof.
  revert data. induction l1 as [| [tag attrs] l1 IH]; intros data; simpl.
  - reflexivity.
  - unfold bind in *. destruct (handle_starttag tag attrs data) as [[[] | e] data'].
    + apply IH.
    + reflexivity.
Qed.

Lemma feed_complete (tags : list starttag) (data : dict string) :
  (forall tag attrs, In (tag, attrs) tags -> is_marker tag attrs = true ->
     marker_complete attrs) ->
  exists data', feed tags data = (Ok tt, data').
Proof.
  revert data. induction tags as [| [tag attrs] tags IH]; intros data Hall; simpl.
  - eexists. reflexivity.
  - unfold bind.
    assert (Hhead : exists data1, handle_starttag tag attrs data = (Ok tt, data1)).
    { destruct (is_marker tag attrs) eqn:Hm.
      - destruct (handle_starttag_complete tag attrs data Hm
                    (Hall tag attrs (or_introl eq_refl) Hm)) as [data1 [H _]].
        exists data1. exact H.
      - unfold handle_starttag. rewrite Hm. eexists. reflexivity. }
    destruct Hhead as [data1 ->].
    apply IH. intros tag' attrs' Hin. apply Hall. right. exact Hin.
Qed.

End Descriptor.

(** X4: when the login page was fetched, every marker element of its
    markup carries the six data attributes, and the last marker element
    has the attributes [attrs], [get_auth_data] returns with a descriptor
    read off that last element: each key holds [str] of the value of the
    first attribute of its name, which is the string "None" for an
    attribute without a value. *)
Theorem descriptor_of_last_marker
    (h : EvergyLoginHandler.t) (w : world) (page : response) (rest : list response)
    (pre post : list starttag) (tag : string) (attrs : attrs_t) :
  nth (EvergyLoginHandler.session h) (sessions w) true = false ->
  script w = page :: rest ->
  resp_ok page = true ->
  resp_starttags page = (pre ++ (tag, attrs) :: post)%list ->
  (forall tag' attrs', In (tag', attrs') pre ->
     EvergyDavinciWidgetParser.is_marker tag' attrs' = true -> marker_complete attrs') ->
  EvergyDavinciWidgetParser.is_marker tag attrs = true ->
  marker_complete attrs ->
  marker_absent post ->
  exists d : dict string,
    EvergyLoginHandler.get_auth_data (h, w)
    = (Ok tt, (EvergyLoginHandler.set_auth_data d h, answered w login_page_request)) /\
    forall key name a,
      In (key, name) descriptor_keys ->
      EvergyDavinciWidgetParser.next_filter name attrs = Ok a ->
      dict_get d key = Some (EvergyDavinciWidgetParser.py_str (snd a)).
Proof.
  intros Hopen Hscript Hok Htags Hpre Hmarker Hcomplete Hpost.
  destruct (feed_complete pre [] Hpre) as [d0 Hfeed0].
  destruct (handle_starttag_complete tag attrs d0 Hmarker Hcomplete) as [d [Hhandle Hkeys]].
  assert (Hfeed : EvergyDavinciWidgetParser.feed (resp_starttags page) [] = (Ok tt, d)).
  { rewrite Htags, feed_app. unfold bind. rewrite Hfeed0. simpl.
    unfold bind. rewrite Hhandle. apply feed_without_marker. exact Hpost. }
  exists d. split; [| exact Hkeys].
  unfold EvergyLoginHandler.get_auth_data, coroutine, EvergyLoginHandler.send, in_world, bind.
  simpl.
  rewrite (session_request_answered _ _ _ _ _ Hopen Hscript Hok).
  rewrite Hfeed. simpl.
  destruct d as [| entry d'].
  - destruct (Hcomplete "data-davinci-company-id") as [a Ha]; [simpl; auto |].
    specialize (Hkeys "company_id" "data-davinci-company-id" a (or_introl eq_refl) Ha).
    discriminate.
  - reflexivity.
Qed.

(** The page with two widgets: the second one is read, its company id is
    "None" and its policy id is the first of the two. *)
Lemma descriptor_of_last_marker_witness :
  exists d : dict string,
    EvergyLoginHandler.get_auth_data (Scenario.fresh_handler [Scenario.page_with_two_widgets])
    = (Ok tt,
       (EvergyLoginHandler.set_auth_data d (EvergyLoginHandler.init 0%nat),
        answered (Scenario.online [Scenario.page_with_two_widgets]) login_page_request)) /\
    dict_get d "company_id" = Some "None" /\
    dict_get d "policy_id" = Some "P2" /\
    dict_get d "api_root" = Some "https://auth.y/b".
Proof.
  assert (Hcomplete : forall attrs,
            attrs = snd Scenario.widget \/ attrs = Scenario.second_widget_attrs ->
            marker_complete attrs).
  { intros attrs [-> | ->] name Hin; simpl in Hin;
      repeat (destruct Hin as [<- | Hin]; [eexists; reflexivity |]); contradiction. }
  destruct (descriptor_of_last_marker
              (EvergyLoginHandler.init 0%nat) (Scenario.online [Scenario.page_with_two_widgets])
              Scenario.page_with_two_widgets []
              [("html", []); Scenario.widget] [("p", [])]
              "div" Scenario.second_widget_attrs
              eq_refl eq_refl eq_refl eq_refl) as [d [Hrun Hkeys]].
  - intros tag' attrs' Hin Hm.
    destruct Hin as [Hin | [Hin | Hin]]; [| | contradiction].
    + injection Hin as <- <-. discriminate Hm.
    + apply (Hcomplete attrs'). left. injection Hin as _ <-. reflexivity.
  - reflexivity.
  - apply (Hcomplete Scenario.second_widget_attrs). right. reflexivity.
  - intros tag' attrs' [Hin | Hin]; [injection Hin as <- <-; reflexivity | contradiction].
  - exists d. split; [exact Hrun |].
    split; [| split].
    + apply (Hkeys "company_id" "data-davinci-company-id" ("data-davinci-company-id", None));
        [simpl; auto | reflexivity].
    + apply (Hkeys "policy_id" "data-davinci-policy-id" ("data-davinci-policy-id", Some "P2"));
        [simpl; auto 10 | reflexivity].
    + apply (Hkeys "api_root" "data-davinci-api-root"
               ("data-davinci-api-root", Some "https://auth.y/b"));
        [simpl; auto 10 | reflexivity].
Defined.

(** ** Counting the requests *)

Section Exchanges.

Context {O : Type}.

(** A computation that leaves the wire alone exchanges nothing. *)
Lemma exchanges_pure {A : Type} (m : M (O * world) A) :
  frame wire m -> exchanges 0 m.
Proof.
  intros Hm s. specialize (Hm s). unfold wire in Hm. injection Hm as Ht Hs.
  exists [], []. rewrite Ht, Hs, app_nil_r. simpl.
  repeat split; auto.
Qed.

Lemma exchanges_raise {A : Type} (n : nat) (e : exn) : exchanges n (@raise (O * world) A e).
Proof.
  intros s. exists [], []. simpl. rewrite app_nil_r.
  repeat split; try lia; discriminate.
Qed.

Lemma exchanges_bind {A B : Type} (n1 n2 : nat) (m : M (O * world) A)
    (k : A -> M (O * world) B) :
  exchanges n1 m -> (forall a, exchanges n2 (k a)) -> exchanges (n1 + n2) (bind m k).
Proof.
  intros Hm Hk s. destruct (Hm s) as (rq1 & rs1 & Ht & Hs & Hle & Hrs & Hok).
  unfold exchanges_at, bind. destruct (m s) as [[a | e] s1]; simpl in *.
  - destruct (Hk a s1) as (rq2 & rs2 & Ht2 & Hs2 & Hle2 & Hrs2 & Hok2).
    exists (rq1 ++ rq2)%list, (rs1 ++ rs2)%list.
    rewrite Ht2, Ht, Hs, Hs2, <- !app_assoc, !length_app.
    split; [reflexivity | split; [reflexivity | split; [lia | split; [lia |]]]].
    intros b Hb. destruct (Hok a eq_refl) as (H1 & H2 & H3).
    destruct (Hok2 b Hb) as (H4 & H5 & H6).
    split; [lia | split; [lia |]]. apply Forall_app. split; assumption.
  - exists rq1, rs1.
    split; [exact Ht | split; [exact Hs | split; [lia | split; [exact Hrs |]]]].
    intros b Hb. discriminate.
Qed.

(** The continuation may use that the lifted result was a value. *)
Lemma exchanges_bind_lift {A B : Type} (n : nat) (r : res A) (k : A -> M (O * world) B) :
  (forall a, r = Ok a -> exchanges n (k a)) -> exchanges n (bind (lift r) k).
Proof.
  intros Hk. destruct r as [a | e].
  - intros s. exact (Hk a eq_refl s).
  - intros s. exact (exchanges_raise n e s).
Qed.

(** The continuation may use that the assertion held. *)
Lemma exchanges_bind_assert {B : Type} (n : nat) (cond : bool) (message : string)
    (k : M (O * world) B) :
  (cond = true -> exchanges n k) -> exchanges n (bind (assert cond message) (fun _ => k)).
Proof.
  intros Hk. destruct cond.
  - intros s. exact (Hk eq_refl s).
  - intros s. exact (exchanges_raise n (AssertionError message) s).
Qed.

Lemma exchanges_coroutine {A : Type} (n : nat) (m : M (O * world) A) :
  exchanges n m -> exchanges n (coroutine m).
Proof.
  intros Hm s. destruct (Hm s) as (rqs & rs & Ht & Hs & Hle & Hrs & Hok).
  unfold exchanges_at, coroutine. destruct (m s) as [[a | e] s1]; simpl in *.
  - exists rqs, rs. auto.
  - destruct e; simpl;
      (exists rqs, rs;
       split; [exact Ht | split; [exact Hs | split; [exact Hle | split; [exact Hrs |]]]];
       intros a Ha; discriminate Ha).
Qed.

Lemma exchanges_if {A : Type} (n : nat) (b : bool) (m1 m2 : M (O * world) A) :
  exchanges n m1 -> exchanges n m2 -> exchanges n (if b then m1 else m2).
Proof. destruct b; auto. Qed.

(** One request on a session. *)
Lemma exchanges_request (sid : session_ref) (rq : request) :
  exchanges 1 (@in_world O response (session_request sid rq)).
Proof.
  intros [o w]. unfold exchanges_at, in_world, session_request. simpl.
  destruct (nth sid (sessions w) true).
  - exists [], []. simpl. rewrite app_nil_r.
    repeat split; try lia; discriminate.
  - destruct (script w) as [| r rest] eqn:Hscript.
    + exists [rq], []. simpl.
      repeat split; try lia; discriminate.
    + destruct (resp_ok r) eqn:Hok.
      * exists [rq], [r]. simpl.
        repeat split; try lia. constructor; [exact Hok | constructor].
      * exists [rq], [r]. simpl.
        repeat split; try lia; discriminate.
Qed.

Lemma wire_in_world_sessions {A : Type} (m : M world A) :
  (forall w, trace (snd (m w)) = trace w /\ script (snd (m w)) = script w) ->
  frame wire (@in_world O A m).
Proof.
  intros Hm [o w]. unfold wire, in_world. simpl.
  destruct (Hm w) as [Ht Hs]. destruct (m w) as [r w']. simpl in *.
  rewrite Ht, Hs. reflexivity.
Qed.

End Exchanges.

Section HandshakeExchanges.

Import EvergyLoginHandler.

Lemma wire_update (g : t -> t) : frame wire (update g).
Proof. intros s. reflexivity. Qed.

Lemma exchanges_send (rq : request) : exchanges 1 (send rq).
Proof.
  intros s. exact (exchanges_request (session (fst s)) rq s).
Qed.

Ltac quiet :=
  apply exchanges_pure;
  repeat first
    [ apply frame_bind; [| intros ?]
    | apply frame_if
    | apply wire_update
    | apply frame_attr
    | apply frame_auth
    | apply frame_capability
    | apply frame_lift
    | apply frame_ret
    | apply frame_raise
    | apply frame_assert ].

Ltac one_exchange :=
  lazymatch goal with
  | |- exchanges 1 (bind (send _) _) =>
      apply (exchanges_bind 1 0); [apply exchanges_send | intros ?; quiet]
  | |- exchanges 1 (bind _ _) =>
      apply (exchanges_bind 0 1); [quiet | intros ?; one_exchange]
  end.

Lemma get_auth_data_exchange : exchanges 1 get_auth_data.
Proof.
  unfold get_auth_data. apply exchanges_coroutine.
  apply (exchanges_bind 1 0); [apply exchanges_send | intros resp].
  cbv zeta. quiet.
Qed.

Lemma get_sdktoken_exchange : exchanges 1 get_sdktoken.
Proof. unfold get_sdktoken. one_exchange. Qed.

Lemma start_flow_exchange : exchanges 1 start_flow.
Proof. unfold start_flow. one_exchange. Qed.

Lemma get_login_form_exchange : exchanges 1 get_login_form.
Proof. unfold get_login_form. one_exchange. Qed.

Lemma submit_login_form_exchange (username password : string) :
  exchanges 1 (submit_login_form username password).
Proof. unfold submit_login_form. one_exchange. Qed.

Lemma get_new_connection_id_exchange : exchanges 1 get_new_connection_id.
Proof. unfold get_new_connection_id. one_exchange. Qed.

Lemma get_new_connection_cookie_exchange : exchanges 1 get_new_connection_cookie.
Proof. unfold get_new_connection_cookie. one_exchange. Qed.

Lemma get_new_access_token_exchange : exchanges 1 get_new_access_token.
Proof. unfold get_new_access_token. one_exchange. Qed.

Lemma postprocessing_api_exchange : exchanges 1 postprocessing_api.
Proof. unfold postprocessing_api. one_exchange. Qed.

End HandshakeExchanges.

(** The nine steps of the handshake, one request each. *)
Lemma handshake_exchange (username password : string) :
  exchanges 9 (EvergyLoginHandler.login username password).
Proof.
  unfold EvergyLoginHandler.login.
  apply (exchanges_bind 1 8); [apply get_auth_data_exchange | intros _].
  apply (exchanges_bind 1 7); [apply get_sdktoken_exchange | intros _].
  apply (exchanges_bind 1 6); [apply start_flow_exchange | intros _].
  apply (exchanges_bind 1 5); [apply get_login_form_exchange | intros _].
  apply (exchanges_bind 1 4); [apply submit_login_form_exchange | intros _].
  apply (exchanges_bind 1 3); [apply get_new_connection_id_exchange | intros _].
  apply (exchanges_bind 1 2); [apply get_new_connection_cookie_exchange | intros _].
  apply (exchanges_bind 1 1); [apply get_new_access_token_exchange | intros _].
  apply postprocessing_api_exchange.
Qed.

Section ClientExchanges.

Import Evergy.

Lemma wire_client_update (g : t -> t) : frame wire (update g).
Proof. intros s. reflexivity. Qed.

Lemma exchanges_client_send (rq : request) : exchanges 1 (send rq).
Proof.
  intros s. unfold exchanges_at, send. destruct (session (fst s)) as [sid |].
  - exact (exchanges_request sid rq s).
  - exists [], []. simpl. rewrite app_nil_r. repeat split; try lia; discriminate.
Qed.

Lemma exchanges_with_handler {A : Type} (n : nat) (h : EvergyLoginHandler.t)
    (m : M EvergyLoginHandler.state A) :
  exchanges n m -> exchanges n (with_handler h m).
Proof.
  intros Hm s. destruct (Hm (h, snd s)) as (rqs & rs & H).
  exists rqs, rs. unfold with_handler.
  destruct (m (h, snd s)) as [r [h' w']]. exact H.
Qed.

Ltac quiet :=
  apply exchanges_pure;
  repeat first
    [ apply frame_bind; [| intros ?]
    | apply frame_if
    | apply wire_client_update
    | apply frame_lift
    | apply frame_gets
    | apply frame_ret
    | apply frame_raise
    | apply frame_assert ].

(** The part of [login] after the assertion on the account data. *)
Lemma accounts_exchange (account_data : json) :
  truthy account_data = true ->
  exchanges 1
    (n <- lift (py_len account_data) ;;
     (if n =? 0 then
        update (set_logged_in false)
      else
        first <- lift (getitem0 account_data) ;;
        v <- lift (getitem first "accountNumber") ;;
        update (set_account_number v) ;;
        number <- gets (fun s => account_number (fst s)) ;;
        resp <- send (mkRequest GET (AccountDashboardUrl number) [ua] None) ;;
        v <- lift (resp_json false resp) ;;
        update (set_dashboard_data v) ;;
        dashboard <- gets (fun s => dashboard_data (fst s)) ;;
        addresses <- lift (getitem dashboard "addresses") ;;
        address <- lift (getitem0 addresses) ;;
        v <- lift (getitem address "premiseId") ;;
        update (set_premise_id v) ;;
        number <- gets (fun s => account_number (fst s)) ;;
        premise <- gets (fun s => premise_id (fst s)) ;;
        update (set_logged_in (negb (is_none number) && negb (is_none premise)))) ;;
     gets (fun s => logged_in (fst s))).
Proof.
  intros Htruthy. apply exchanges_bind_lift. intros n Hn.
  rewrite (proj2 (Z.eqb_neq n 0) (truthy_length account_data n Htruthy Hn)).
  apply (exchanges_bind 1 0); [| intros _; quiet].
  apply (exchanges_bind 0 1); [quiet | intros first].
  apply (exchanges_bind 0 1); [quiet | intros v].
  apply (exchanges_bind 0 1); [quiet | intros _].
  apply (exchanges_bind 0 1); [quiet | intros number].
  apply (exchanges_bind 1 0); [apply exchanges_client_send | intros resp; quiet].
Qed.

Lemma client_login_exchange : exchanges 11 login.
Proof.
  unfold login.
  apply (exchanges_bind 0 11); [| intros sid].
  { apply exchanges_pure, wire_in_world_sessions. intros w. split; reflexivity. }
  apply (exchanges_bind 0 11); [quiet | intros _].
  apply (exchanges_bind 0 11); [quiet | intros user].
  apply (exchanges_bind 0 11); [quiet | intros pass].
  apply (exchanges_bind 9 2); [| intros _].
  { apply exchanges_with_handler, handshake_exchange. }
  apply (exchanges_bind 1 1); [apply exchanges_client_send | intros response].
  apply (exchanges_bind 0 1); [quiet | intros account_data].
  apply exchanges_bind_assert. apply accounts_exchange.
Qed.

End ClientExchanges.

(** X5: the handshake issues at most nine requests, one per step and none
    after a step that failed; each request is answered by the next
    response of the portal while there is one.  When
    [EvergyLoginHandler.login] returns, it has issued exactly nine
    requests and each of the nine responses had a success status. *)
Theorem handshake_nine_exchanges
    (username password : string) (s : EvergyLoginHandler.state) :
  exists (rqs : list request) (rs : list response),
    trace (snd (snd (EvergyLoginHandler.login username password s)))
    = (trace (snd s) ++ rqs)%list /\
    script (snd s)
    = (rs ++ script (snd (snd (EvergyLoginHandler.login username password s))))%list /\
    (List.length rqs <= 9)%nat /\
    (List.length rs <= List.length rqs)%nat /\
    (fst (EvergyLoginHandler.login username password s) = Ok tt ->
       List.length rqs = 9%nat /\ List.length rs = 9%nat /\
       Forall (fun r => resp_ok r = true) rs).
Proof.
  destruct (handshake_exchange username password s) as (rqs & rs & Ht & Hs & Hle & Hrs & Hok).
  exists rqs, rs.
  split; [exact Ht | split; [exact Hs | split; [exact Hle | split; [exact Hrs |]]]].
  intros Hreturn. exact (Hok tt Hreturn).
Qed.

(** The scripted handshake: nine requests for nine responses. *)
Lemma handshake_nine_exchanges_witness :
  fst (EvergyLoginHandler.login "user" "secret" (Scenario.fresh_handler Scenario.handshake))
  = Ok tt /\
  List.length
    (trace (snd (snd (EvergyLoginHandler.login "user" "secret"
                        (Scenario.fresh_handler Scenario.handshake))))) = 9%nat /\
  Forall (fun r => resp_ok r = true) Scenario.handshake.
Proof.
  assert (Hreturn : fst (EvergyLoginHandler.login "user" "secret"
                           (Scenario.fresh_handler Scenario.handshake)) = Ok tt)
    by (vm_compute; reflexivity).
  assert (Hrest : script (snd (snd (EvergyLoginHandler.login "user" "secret"
                           (Scenario.fresh_handler Scenario.handshake)))) = [])
    by (vm_compute; reflexivity).
  destruct (handshake_nine_exchanges "user" "secret"
              (Scenario.fresh_handler Scenario.handshake))
    as (rqs & rs & Ht & Hs & _ & _ & Hok).
  destruct (Hok Hreturn) as (Hn & _ & Hall).
  split; [exact Hreturn | split].
  - rewrite Ht. simpl. exact Hn.
  - rewrite Hrest, app_nil_r in Hs. simpl in Hs. rewrite <- Hs in Hall. exact Hall.
Defined.

(** X6: [Evergy.login] issues at most eleven requests: the nine of the
    handshake, the account selector and the dashboard.  When it returns,
    with either flag, it has issued exactly eleven requests and each of
    the eleven responses had a success status: it never returns after the
    account selector alone. *)
Theorem client_login_eleven_exchanges (s : Evergy.state) :
  exists (rqs : list request) (rs : list response),
    trace (snd (snd (Evergy.login s))) = (trace (snd s) ++ rqs)%list /\
    script (snd s) = (rs ++ script (snd (snd (Evergy.login s))))%list /\
    (List.length rqs <= 11)%nat /\
    (List.length rs <= List.length rqs)%nat /\
    (forall flag : bool, fst (Evergy.login s) = Ok flag ->
       List.length rqs = 11%nat /\ List.length rs = 11%nat /\
       Forall (fun r => resp_ok r = true) rs).
Proof.
  destruct (client_login_exchange s) as (rqs & rs & Ht & Hs & Hle & Hrs & Hok).
  exists rqs, rs.
  split; [exact Ht | split; [exact Hs | split; [exact Hle | split; [exact Hrs |]]]].
  exact Hok.
Qed.

(** The scripted portal: the login returns after eleven requests. *)
Lemma client_login_eleven_exchanges_witness :
  fst (Evergy.login (Scenario.client,
         Scenario.portal (Scenario.handshake ++
                          [Scenario.accounts; Scenario.json_response Scenario.dashboard])))
  = Ok true /\
  List.length
    (trace (snd (snd (Evergy.login (Scenario.client,
         Scenario.portal (Scenario.handshake ++
                          [Scenario.accounts; Scenario.json_response Scenario.dashboard]))))))
  = 11%nat.
Proof.
  set (s0 := (Scenario.client,
              Scenario.portal (Scenario.handshake ++
                               [Scenario.accounts; Scenario.json_response Scenario.dashboard]))).
  assert (Hreturn : fst (Evergy.login s0) = Ok true) by (vm_compute; reflexivity).
  destruct (client_login_eleven_exchanges s0) as (rqs & rs & Ht & _ & _ & _ & Hok).
  destruct (Hok true Hreturn) as (Hn & _ & _).
  split; [exact Hreturn |].
  rewrite Ht. simpl. exact Hn.
Defined.

Section UsageExchanges.

Import Evergy.

Ltac quiet :=
  apply exchanges_pure;
  repeat first
    [ apply frame_bind; [| intros ?]
    | apply frame_if
    | apply wire_client_update
    | apply frame_lift
    | apply frame_gets
    | apply frame_ret
    | apply frame_raise
    | apply frame_assert ].

Lemma default_date_state (d : option datetime) (s : state) :
  default_date d s = (fst (default_date d s), s).
Proof. destruct d; reflexivity. Qed.

(** [get_usage_range] from the comparison of the dates on. *)
Lemma usage_tail_exchange (start_ end_ : datetime) (interval : string) :
  exchanges 1
    (after <- lift (Datetime.gt start_ end_) ;;
     if after then
       raise (EvergyException START_AFTER_END)
     else
       premise <- gets (fun s => premise_id (fst s)) ;;
       resp <- send (mkRequest GET (UsageDataUrl premise interval start_ end_)
                       [ua; ("Content-Type", JStr "application/json")] None) ;;
       usage_response <- lift (resp_json true resp) ;;
       if is_none usage_response then
         update (set_usage_data JNull) ;;
         ret JNull
       else
         v <- lift (getitem usage_response "data") ;;
         update (set_usage_data v) ;;
         usage <- gets (fun s => usage_data (fst s)) ;;
         dashboard <- gets (fun s => dashboard_data (fst s)) ;;
         ret (JObj [("usage", usage); ("dashboard", dashboard)])).
Proof.
  apply exchanges_bind_lift. intros after _. destruct after.
  - apply exchanges_raise.
  - apply (exchanges_bind 0 1); [quiet | intros premise].
    apply (exchanges_bind 1 0); [apply exchanges_client_send | intros resp; quiet].
Qed.

(** The start of [get_usage_range]: two dates, then the lazy login. *)
Lemma usage_range_shape {B : Type} (tail : datetime -> datetime -> M state B)
    (start_ end_ : option datetime) (s : state) :
  (from_date <- default_date start_ ;;
   to_date <- default_date end_ ;;
   ensure_logged_in ;;
   tail from_date to_date) s
  = match fst (default_date start_ s) with
    | Raise e => (Raise e, s)
    | Ok from_date =>
        match fst (default_date end_ s) with
        | Raise e => (Raise e, s)
        | Ok to_date =>
            if logged_in (fst s) then tail from_date to_date s
            else ((login ;; ret tt) ;; tail from_date to_date) s
        end
    end.
Proof.
  unfold bind at 1. rewrite (default_date_state start_ s).
  destruct (fst (default_date start_ s)) as [from_date | e]; [| reflexivity].
  unfold bind at 1. rewrite (default_date_state end_ s).
  destruct (fst (default_date end_ s)) as [to_date | e]; [| reflexivity].
  unfold ensure_logged_in, bind, gets, ret. cbn [fst snd].
  destruct (logged_in (fst s)); reflexivity.
Qed.

Lemma usage_range_exchange (start_ end_ : option datetime) (interval : string) (s : state) :
  exchanges_at (if logged_in (fst s) then 1 else 12)
    (get_usage_range start_ end_ interval) s.
Proof.
  unfold exchanges_at, get_usage_range. rewrite usage_range_shape.
  destruct (fst (default_date start_ s)) as [from_date | e].
  2:{ exists [], []. cbn [fst snd List.length]. rewrite app_nil_r.
      repeat split; try lia; discriminate. }
  destruct (fst (default_date end_ s)) as [to_date | e].
  2:{ exists [], []. cbn [fst snd List.length]. rewrite app_nil_r.
      repeat split; try lia; discriminate. }
  pose proof (usage_tail_exchange from_date to_date interval) as Htail.
  destruct (logged_in (fst s)).
  - exact (Htail s).
  - assert (Hlogin : exchanges 11 (login ;; ret tt)).
    { apply (exchanges_bind 11 0); [apply client_login_exchange | intros _; quiet]. }
    exact (exchanges_bind 11 1 _ _ Hlogin (fun _ => Htail) s).
Qed.

End UsageExchanges.

(** X7: [get_usage_range] issues at most one request when the client is
    logged in and at most twelve when it is not (the eleven of the lazy
    login, then the usage report).  When it returns, it has issued exactly
    that many requests, each answered with a success status. *)
Theorem usage_range_exchanges
    (start_ end_ : option datetime) (interval : string) (s : Evergy.state) :
  exists (rqs : list request) (rs : list response),
    trace (snd (snd (Evergy.get_usage_range start_ end_ interval s)))
    = (trace (snd s) ++ rqs)%list /\
    script (snd s)
    = (rs ++ script (snd (snd (Evergy.get_usage_range start_ end_ interval s))))%list /\
    (List.length rqs <= if Evergy.logged_in (fst s) then 1 else 12)%nat /\
    (List.length rs <= List.length rqs)%nat /\
    (forall result : json,
       fst (Evergy.get_usage_range start_ end_ interval s) = Ok result ->
       List.length rqs = (if Evergy.logged_in (fst s) then 1 else 12)%nat /\
       List.length rs = List.length rqs /\
       Forall (fun r => resp_ok r = true) rs).
Proof.
  destruct (usage_range_exchange start_ end_ interval s)
    as (rqs & rs & Ht & Hs & Hle & Hrs & Hok).
  exists rqs, rs.
  split; [exact Ht | split; [exact Hs | split; [exact Hle | split; [exact Hrs |]]]].
  intros result Hreturn. destruct (Hok result Hreturn) as (Hn & Hm & Hall).
  split; [exact Hn | split; [congruence | exact Hall]].
Qed.

(** A new client on the scripted portal: twelve requests until the report is returned. *)
Lemma usage_range_exchanges_witness :
  List.length
    (trace (snd (snd (Evergy.get_usage_range (Some Scenario.may_1) (Some Scenario.may_2)
       DAY_INTERVAL
       (Scenario.client,
        Scenario.portal (Scenario.handshake ++
                         [Scenario.accounts; Scenario.json_response Scenario.dashboard;
                          Scenario.json_response Scenario.usage]))))))
  = 12%nat.
Proof.
  set (s0 := (Scenario.client,
              Scenario.portal (Scenario.handshake ++
                               [Scenario.accounts; Scenario.json_response Scenario.dashboard;
                                Scenario.json_response Scenario.usage]))).
  assert (Hreturn : exists result,
            fst (Evergy.get_usage_range (Some Scenario.may_1) (Some Scenario.may_2)
                   DAY_INTERVAL s0) = Ok result)
    by (eexists; vm_compute; reflexivity).
  destruct Hreturn as [result Hreturn].
  destruct (usage_range_exchanges (Some Scenario.may_1) (Some Scenario.may_2) DAY_INTERVAL s0)
    as (rqs & rs & Ht & _ & _ & _ & Hok).
  destruct (Hok result Hreturn) as (Hn & _ & _).
  rewrite Ht. simpl. exact Hn.
Defined.

(** ** Which exceptions can be raised *)

Section Raises.

Context {S : Type} (P : exn -> Prop).

Lemma raises_ret {A : Type} (a : A) : raises_only P (@ret S A a).
Proof. intros s e H. discriminate. Qed.

Lemma raises_gets {A : Type} (g : S -> A) : raises_only P (gets g).
Proof. intros s e H. discriminate. Qed.

Lemma raises_modify (g : S -> S) : raises_only P (modify g).
Proof. intros s e H. discriminate. Qed.

Lemma raises_raise {A : Type} (e : exn) : P e -> raises_only P (@raise S A e).
Proof. intros He s e' H. injection H as <-. exact He. Qed.

Lemma raises_lift {A : Type} (r : res A) :
  (forall e, r = Raise e -> P e) -> raises_only P (@lift S A r).
Proof. intros Hr s e H. exact (Hr e H). Qed.

Lemma raises_assert (cond : bool) (message : string) :
  P (AssertionError message) -> raises_only P (@assert S cond message).
Proof.
  intros Hp s e H. destruct cond; [discriminate | injection H as <-; exact Hp].
Qed.

Lemma raises_bind {A B : Type} (m : M S A) (k : A -> M S B) :
  raises_only P m -> (forall a, raises_only P (k a)) -> raises_only P (bind m k).
Proof.
  intros Hm Hk s e. unfold bind. specialize (Hm s).
  destruct (m s) as [[a | e'] s1]; simpl in *.
  - apply Hk.
  - intros H. injection H as <-. apply Hm. reflexivity.
Qed.

Lemma raises_if {A : Type} (b : bool) (m1 m2 : M S A) :
  raises_only P m1 -> raises_only P m2 -> raises_only P (if b then m1 else m2).
Proof. destruct b; auto. Qed.

(** The coroutine turns StopIteration into RuntimeError and lets the rest through. *)
Lemma raises_coroutine {A : Type} (Q : exn -> Prop) (m : M S A) :
  raises_only Q m ->
  (forall e, Q e -> e <> StopIteration -> P e) ->
  P (RuntimeError "coroutine raised StopIteration") ->
  raises_only P (coroutine m).
Proof.
  intros Hm Hq Hp s e. unfold coroutine. specialize (Hm s).
  destruct (m s) as [[a | e'] s1]; simpl in *; [discriminate |].
  assert (He' : Q e') by (apply Hm; reflexivity).
  destruct e'; simpl; intros H; injection H as <-;
    first [exact Hp | apply Hq; [exact He' | discriminate]].
Qed.

Lemma raises_weaken {A : Type} (Q : exn -> Prop) (m : M S A) :
  raises_only Q m -> (forall e, Q e -> P e) -> raises_only P m.
Proof. intros Hm Hq s e H. apply Hq. exact (Hm s e H). Qed.

End Raises.

(** What the operations on values can raise. *)
Section Primitives.

Lemma getattr_raises {A : Type} (name : string) (field : option A) (e : exn) :
  getattr name field = Raise e -> e = AttributeError name.
Proof. destruct field; simpl; intros H; [discriminate | congruence]. Qed.

Lemma dict_item_raises (d : dict string) (key : string) (e : exn) :
  dict_item d key = Raise e -> e = KeyError.
Proof. unfold dict_item. destruct (dict_get d key); intros H; [discriminate | congruence]. Qed.

Lemma as_str_raises (v : json) (e : exn) : as_str v = Raise e -> e = TypeError.
Proof. destruct v; simpl; intros H; try discriminate; congruence. Qed.

Lemma getitem_raises (v : json) (key : string) (e : exn) :
  getitem v key = Raise e -> e = KeyError \/ e = TypeError.
Proof.
  destruct v; simpl; intros H; try (right; congruence).
  destruct (dict_get fields key); [discriminate | left; congruence].
Qed.

Lemma getitem0_raises (v : json) (e : exn) :
  getitem0 v = Raise e -> e = IndexError \/ e = KeyError \/ e = TypeError.
Proof.
  destruct v as [| b | n | s | items | fields]; simpl; intros H;
    try (right; right; congruence).
  - destruct s; [left; congruence | discriminate].
  - destruct items; [left; congruence | discriminate].
  - right. left. congruence.
Qed.

Lemma py_len_raises (v : json) (e : exn) : py_len v = Raise e -> e = TypeError.
Proof. destruct v; simpl; intros H; try discriminate; congruence. Qed.

Lemma resp_json_raises (check : bool) (r : response) (e : exn) :
  resp_json check r = Raise e -> e = ContentTypeError \/ e = JSONDecodeError.
Proof.
  unfold resp_json. destruct (check && negb (resp_is_json r))%bool.
  - intros H. left. congruence.
  - destruct (blank (resp_text r)); [discriminate |].
    destruct (resp_loads r); [discriminate | intros H; right; congruence].
Qed.

Lemma session_request_raises (sid : session_ref) (rq : request) (w : world) (e : exn) :
  fst (session_request sid rq w) = Raise e ->
  e = RuntimeError "Session is closed" \/ e = ClientConnectionError \/
  e = ClientResponseError.
Proof.
  unfold session_request. destruct (nth sid (sessions w) true); simpl.
  - intros H. left. congruence.
  - destruct (script w) as [| r rest]; simpl.
    + intros H. right. left. congruence.
    + destruct (resp_ok r); simpl; intros H; [discriminate | right; right; congruence].
Qed.

Lemma feed_raises (tags : list starttag) (data : dict string) (e : exn) :
  fst (EvergyDavinciWidgetParser.feed tags data) = Raise e -> e = StopIteration.
Proof.
  revert data. induction tags as [| [tag attrs] tags IH]; intros data; simpl.
  - discriminate.
  - unfold bind.
    destruct (handle_starttag_cases tag attrs data) as [H | H];
      destruct (EvergyDavinciWidgetParser.handle_starttag tag attrs data)
        as [[[] | e'] data']; simpl in H; try discriminate.
    + apply IH.
    + simpl. congruence.
Qed.

Lemma gt_raises (a b : datetime) (e : exn) : Datetime.gt a b = Raise e -> e = TypeError.
Proof.
  unfold Datetime.gt. destruct (utcoffset a), (utcoffset b); intros H;
    try discriminate; congruence.
Qed.

Lemma get_past_date_raises (today days_back : Z) (e : exn) :
  get_past_date today days_back = Raise e -> e = OverflowError.
Proof.
  unfold get_past_date, timedelta, sub, res_bind.
  destruct (Z.abs _ <=? MAX_DELTA_DAYS); [| congruence].
  destruct (in_range _); [discriminate | congruence].
Qed.

Lemma end_date_raises (from_date : datetime) (n : Z) (interval : string) (e : exn) :
  get_end_date_from_number_of_intervals from_date n interval = Raise e -> e = OverflowError.
Proof.
  unfold get_end_date_from_number_of_intervals, timedelta, add, res_bind.
  destruct (String.eqb interval "mi"); [| destruct (String.eqb interval "h")];
    (destruct (Z.abs _ <=? MAX_DELTA_DAYS); [| congruence]);
    (destruct (in_range _); [discriminate | congruence]).
Qed.

End Primitives.

Ltac known_exception :=
  let e := fresh "e" in
  let He := fresh "He" in
  intros e He;
  first
    [ apply getattr_raises in He
    | apply dict_item_raises in He
    | apply as_str_raises in He
    | apply getitem_raises in He
    | apply getitem0_raises in He
    | apply py_len_raises in He
    | apply resp_json_raises in He
    | apply gt_raises in He
    | apply get_past_date_raises in He
    | apply end_date_raises in He ];
  repeat (destruct He as [He | He]); subst; exact I.

Section HandshakeRaises.

Import EvergyLoginHandler.

Lemma raises_attr {A : Type} (name : string) (field : t -> option A) :
  raises_only login_exception (attr name field).
Proof.
  intros s e H. unfold attr in H. simpl in H. apply getattr_raises in H. subst. exact I.
Qed.

Lemma raises_update (g : t -> t) : raises_only login_exception (update g).
Proof. apply raises_modify. Qed.

Lemma raises_auth (key : string) : raises_only login_exception (auth key).
Proof.
  unfold auth. apply raises_bind; [apply raises_attr | intros d].
  apply raises_lift. known_exception.
Qed.

Lemma raises_send (rq : request) : raises_only login_exception (send rq).
Proof.
  intros s e H. unfold send, in_world in H.
  pose proof (session_request_raises (session (fst s)) rq (snd s) e) as Hr.
  destruct (session_request (session (fst s)) rq (snd s)) as [r w']. simpl in *.
  destruct (Hr H) as [-> | [-> | ->]]; exact I.
Qed.

Ltac audit :=
  repeat first
    [ apply raises_bind; [| intros ?]
    | apply raises_if
    | apply raises_attr
    | apply raises_auth
    | apply raises_send
    | apply raises_update
    | apply raises_ret
    | apply raises_lift; known_exception
    | apply raises_raise; simpl; auto ].

Lemma raises_capability (mk_url : string -> string -> string -> url) :
  raises_only login_exception (capability mk_url).
Proof. unfold capability. audit. Qed.

Lemma get_auth_data_raises : raises_only login_exception get_auth_data.
Proof.
  unfold get_auth_data.
  apply (raises_coroutine login_exception (fun e => e = StopIteration \/ login_exception e)).
  - apply raises_bind; [| intros resp; cbv zeta].
    { apply (raises_weaken _ login_exception); [apply raises_send | auto]. }
    apply raises_bind; [| intros _].
    { apply raises_lift. intros e He. left. exact (feed_raises _ _ _ He). }
    apply raises_bind; [| intros _].
    { apply raises_modify. }
    apply raises_assert. right. exact I.
  - intros e [-> | He] Hne; [contradiction | exact He].
  - exact I.
Qed.

Lemma get_sdktoken_raises : raises_only login_exception get_sdktoken.
Proof. unfold get_sdktoken. audit. Qed.

Lemma start_flow_raises : raises_only login_exception start_flow.
Proof. unfold start_flow. audit. Qed.

Lemma get_login_form_raises : raises_only login_exception get_login_form.
Proof. unfold get_login_form. audit; apply raises_capability. Qed.

Lemma submit_login_form_raises (username password : string) :
  raises_only login_exception (submit_login_form username password).
Proof. unfold submit_login_form. audit; apply raises_capability. Qed.

Lemma get_new_connection_id_raises : raises_only login_exception get_new_connection_id.
Proof. unfold get_new_connection_id. audit; apply raises_capability. Qed.

Lemma get_new_connection_cookie_raises :
  raises_only login_exception get_new_connection_cookie.
Proof. unfold get_new_connection_cookie. audit; apply raises_capability. Qed.

Lemma get_new_access_token_raises : raises_only login_exception get_new_access_token.
Proof. unfold get_new_access_token. audit; apply raises_capability. Qed.

Lemma postprocessing_api_raises : raises_only login_exception postprocessing_api.
Proof. unfold postprocessing_api. audit. Qed.

Lemma handshake_raises (username password : string) :
  raises_only login_exception (login username password).
Proof.
  unfold login.
  repeat (apply raises_bind; [| intros _]);
    auto using get_auth_data_raises, get_sdktoken_raises, start_flow_raises,
      get_login_form_raises, submit_login_form_raises, get_new_connection_id_raises,
      get_new_connection_cookie_raises, get_new_access_token_raises,
      postprocessing_api_raises.
Qed.

End HandshakeRaises.

Section ClientRaises.

Import Evergy.

Lemma raises_client_send (rq : request) : raises_only login_exception (send rq).
Proof.
  intros s e H. unfold send in H. destruct (session (fst s)) as [sid |].
  - unfold in_world in H.
    pose proof (session_request_raises sid rq (snd s) e) as Hr.
    destruct (session_request sid rq (snd s)) as [r w']. simpl in *.
    destruct (Hr H) as [-> | [-> | ->]]; exact I.
  - simpl in H. injection H as <-. exact I.
Qed.

Lemma raises_with_handler {A : Type} (P : exn -> Prop) (h : EvergyLoginHandler.t)
    (m : M EvergyLoginHandler.state A) :
  raises_only P m -> raises_only P (with_handler h m).
Proof.
  intros Hm s e H. apply (Hm (h, snd s)). unfold with_handler in H.
  destruct (m (h, snd s)) as [r [h' w']]. exact H.
Qed.

Ltac audit :=
  repeat first
    [ apply raises_bind; [| intros ?]
    | apply raises_if
    | apply raises_client_send
    | apply raises_modify
    | apply raises_gets
    | apply raises_ret
    | apply raises_assert; exact I
    | apply raises_lift; known_exception
    | apply raises_raise; simpl; auto ].

Lemma client_login_raises : raises_only login_exception login.
Proof.
  unfold login.
  apply raises_bind; [| intros sid].
  { intros s e H. discriminate. }
  apply raises_bind; [apply raises_modify | intros _].
  apply raises_bind; [apply raises_gets | intros user].
  apply raises_bind; [apply raises_gets | intros pass].
  apply raises_bind; [apply raises_with_handler, handshake_raises | intros _].
  unfold update. audit.
Qed.

Lemma login_exception_usage (e : exn) : login_exception e -> usage_exception e.
Proof. destruct e; simpl; auto. contradiction. Qed.

Lemma default_date_raises (d : option datetime) :
  raises_only usage_exception (default_date d).
Proof.
  intros s e H. destruct d as [d |]; simpl in H; [discriminate |].
  apply get_past_date_raises in H. subst. exact I.
Qed.

Lemma usage_range_raises (start_ end_ : option datetime) (interval : string) :
  raises_only usage_exception (get_usage_range start_ end_ interval).
Proof.
  unfold get_usage_range.
  apply raises_bind; [apply default_date_raises | intros from_date].
  apply raises_bind; [apply default_date_raises | intros to_date].
  apply raises_bind; [| intros _].
  { unfold ensure_logged_in.
    apply raises_bind; [apply raises_gets | intros logged].
    apply raises_if; [| apply raises_ret].
    apply raises_bind; [| intros _; apply raises_ret].
    apply (raises_weaken _ login_exception);
      [apply client_login_raises | apply login_exception_usage]. }
  apply raises_bind; [apply raises_lift; known_exception | intros after].
  apply raises_if; [apply raises_raise; reflexivity |].
  apply raises_bind; [apply raises_gets | intros premise].
  apply raises_bind; [| intros resp].
  { apply (raises_weaken _ login_exception);
      [apply raises_client_send | apply login_exception_usage]. }
  unfold update. audit.
Qed.

Lemma get_usage_raises (days : Z) (interval : string) :
  raises_only usage_exception (get_usage days interval).
Proof.
  unfold get_usage, past_date.
  apply raises_bind; [| intros from_date].
  { intros s e H. simpl in H. apply get_past_date_raises in H. subst. exact I. }
  apply raises_bind; [| intros to_date].
  { intros s e H. simpl in H. apply get_past_date_raises in H. subst. exact I. }
  apply usage_range_raises.
Qed.

Lemma get_usage_from_raises (now : datetime) (start_ : option datetime) (size : Z)
    (interval : string) :
  raises_only usage_exception (get_usage_from now start_ size interval).
Proof.
  unfold get_usage_from.
  apply raises_bind; [| intros from_date].
  { destruct start_; [apply raises_ret | apply raises_lift; known_exception]. }
  apply raises_bind; [apply raises_lift; known_exception | intros to_date].
  apply usage_range_raises.
Qed.

End ClientRaises.

(** X8: whatever the portal answers, a login, of the handler and of the
    client, raises InvalidAuth only with one of its two messages ("No
    such username. Login failed." and "Wrong password. Login failed.");
    it never raises EvergyException, an empty or malformed account list
    included, and a StopIteration of the parser never leaves it. *)
Theorem login_raises_no_evergy_exception :
  (forall (username password : string) (s : EvergyLoginHandler.state) (e : exn),
     fst (EvergyLoginHandler.login username password s) = Raise e -> login_exception e) /\
  (forall (s : Evergy.state) (e : exn),
     fst (Evergy.login s) = Raise e -> login_exception e).
Proof.
  split.
  - intros username password s e. apply handshake_raises.
  - intros s e. apply client_login_raises.
Qed.

(** The login against an empty account list: an AssertionError, no EvergyException. *)
Lemma login_raises_no_evergy_exception_witness :
  fst (Evergy.login (Scenario.client,
                     Scenario.portal (Scenario.handshake ++ [Scenario.no_accounts])))
  = Raise (AssertionError "Failed to get Evergy account data") /\
  login_exception (AssertionError "Failed to get Evergy account data").
Proof.
  assert (H : fst (Evergy.login (Scenario.client,
                     Scenario.portal (Scenario.handshake ++ [Scenario.no_accounts])))
              = Raise (AssertionError "Failed to get Evergy account data"))
    by (vm_compute; reflexivity).
  split; [exact H |].
  exact (proj2 login_raises_no_evergy_exception _ _ H).
Defined.

(** X9: the only EvergyException that [get_usage_range], [get_usage] and
    [get_usage_from] raise is the one of the date check, with the message
    "'start' date can't be after 'end' date"; their other exceptions are
    those of the login, of the transport and of Python. *)
Theorem usage_raises_date_check_only :
  (forall (start_ end_ : option datetime) (interval : string) (s : Evergy.state) (e : exn),
     fst (Evergy.get_usage_range start_ end_ interval s) = Raise e -> usage_exception e) /\
  (forall (days : Z) (interval : string) (s : Evergy.state) (e : exn),
     fst (Evergy.get_usage days interval s) = Raise e -> usage_exception e) /\
  (forall (now : datetime) (start_ : option datetime) (size : Z) (interval : string)
          (s : Evergy.state) (e : exn),
     fst (Evergy.get_usage_from now start_ size interval s) = Raise e -> usage_exception e).
Proof.
  split; [| split].
  - intros start_ end_ interval s e. apply usage_range_raises.
  - intros days interval s e. apply get_usage_raises.
  - intros now start_ size interval s e. apply get_usage_from_raises.
Qed.

(** A report without the entry "data": the exception is a KeyError. *)
Lemma usage_raises_date_check_only_witness :
  fst (Evergy.get_usage_range (Some Scenario.may_1) (Some Scenario.may_2) DAY_INTERVAL
         (Scenario.logged_in_client,
          Scenario.online [Scenario.json_response Scenario.dashboard]))
  = Raise KeyError /\
  usage_exception KeyError.
Proof.
  assert (H : fst (Evergy.get_usage_range (Some Scenario.may_1) (Some Scenario.may_2)
                     DAY_INTERVAL
                     (Scenario.logged_in_client,
                      Scenario.online [Scenario.json_response Scenario.dashboard]))
              = Raise KeyError) by (vm_compute; reflexivity).
  split; [exact H |].
  exact (proj1 usage_raises_date_check_only _ _ _ _ _ H).
Defined.

(** ** What a login stores and returns *)

(** A value with a first item passes the assertion and has a length that is not 0. *)
Lemma getitem0_truthy (v first : json) :
  getitem0 v = Ok first ->
  truthy v = true /\ exists n, py_len v = Ok n /\ (n =? 0) = false.
Proof.
  destruct v as [| b | z | s | items | fields]; simpl; intros H; try discriminate.
  - destruct s as [| ch s']; [discriminate |].
    split; [reflexivity |]. eexists. split; [reflexivity |].
    apply Z.eqb_neq. simpl. lia.
  - destruct items as [| x items']; [discriminate |].
    split; [reflexivity |]. eexists. split; [reflexivity |].
    apply Z.eqb_neq. simpl. lia.
Qed.

(** X10: when the handshake succeeded, the account selector answers with
    a value whose first item has an "accountNumber", and the dashboard of
    that account has "addresses"[0]["premiseId"], [Evergy.login] stores
    the account number, the dashboard and the premise id, and returns,
    and stores in [logged_in], whether both the account number and the
    premise id are not [None].  The dashboard is asked for also when the
    account number is [None]. *)
Theorem client_login_stores_account
    (c : Evergy.t) (w : world) (h' : EvergyLoginHandler.t) (w' : world)
    (selector dashboard_response : response) (rest : list response)
    (accounts first number dashboard addresses address premise : json) :
  EvergyLoginHandler.login (Evergy.username c) (Evergy.password c)
    (EvergyLoginHandler.init (List.length (sessions w)), with_new_session w)
  = (Ok tt, (h', w')) ->
  script w' = selector :: dashboard_response :: rest ->
  resp_ok selector = true -> resp_ok dashboard_response = true ->
  resp_json false selector = Ok accounts ->
  getitem0 accounts = Ok first ->
  getitem first "accountNumber" = Ok number ->
  resp_json false dashboard_response = Ok dashboard ->
  getitem dashboard "addresses" = Ok addresses ->
  getitem0 addresses = Ok address ->
  getitem address "premiseId" = Ok premise ->
  Evergy.login (c, w)
  = (Ok (negb (is_none number) && negb (is_none premise)),
     (Evergy.mk (negb (is_none number) && negb (is_none premise))
        (Some (List.length (sessions w))) (Evergy.username c) (Evergy.password c)
        (Evergy.usage_data c) dashboard number premise,
      answered (answered w' account_request) (dashboard_request number))).
Proof.
  intros Hhandshake Hscript Hok1 Hok2 Haccounts Hfirst Hnumber Hdash Haddresses Haddress
    Hpremise.
  destruct (getitem0_truthy accounts first Hfirst) as [Htruthy [n [Hlen Hn]]].
  unfold Evergy.login.
  rewrite (login_reaches_accounts c w h' w' Hhandshake selector
             (dashboard_response :: rest) _ Hscript Hok1).
  unfold bind at 1. unfold lift at 1. rewrite Haccounts.
  unfold bind at 1. rewrite Htruthy. unfold assert at 1, ret at 1.
  unfold bind at 1. unfold lift at 1. rewrite Hlen.
  rewrite Hn.
  assert (Hopen : nth (List.length (sessions w))
                    (sessions (answered w' account_request)) true = false)
    by exact (session_still_open c w h' w' Hhandshake).
  assert (Hscript2 : script (answered w' account_request) = dashboard_response :: rest)
    by (unfold answered; simpl; rewrite Hscript; reflexivity).
  unfold bind, lift, gets, Evergy.update, modify, Evergy.send, in_world.
  cbn [fst snd]. rewrite Hfirst, Hnumber.
  cbn [fst snd Evergy.session Evergy.set_session Evergy.set_account_number
       Evergy.account_number].
  fold (dashboard_request number).
  rewrite (session_request_answered _ _ _ _ _ Hopen Hscript2 Hok2).
  rewrite Hdash.
  cbn [fst snd Evergy.dashboard_data Evergy.set_dashboard_data].
  rewrite Haddresses, Haddress, Hpremise.
  reflexivity.
Qed.

(** The scripted portal: the login stores account 123456789 and premise 42. *)
Lemma client_login_stores_account_witness :
  Evergy.login
    (Scenario.client,
     Scenario.portal (Scenario.handshake ++
                      [Scenario.accounts; Scenario.json_response Scenario.dashboard]))
  = (Ok true,
     (Evergy.mk true (Some 0%nat) "user" "secret" JNull
        Scenario.dashboard (JInt 123456789) (JInt 42),
      answered
        (answered
           (snd (snd (EvergyLoginHandler.login "user" "secret"
                        (Scenario.fresh_handler
                           (Scenario.handshake ++
                            [Scenario.accounts; Scenario.json_response Scenario.dashboard])))))
           account_request)
        (dashboard_request (JInt 123456789)))).
Proof.
  set (w0 := Scenario.portal (Scenario.handshake ++
                              [Scenario.accounts; Scenario.json_response Scenario.dashboard])).
  set (run := EvergyLoginHandler.login "user" "secret"
                (Scenario.fresh_handler
                   (Scenario.handshake ++
                    [Scenario.accounts; Scenario.json_response Scenario.dashboard]))).
  assert (Hhandshake :
            EvergyLoginHandler.login (Evergy.username Scenario.client)
              (Evergy.password Scenario.client)
              (EvergyLoginHandler.init (List.length (sessions w0)), with_new_session w0)
            = (Ok tt, (fst (snd run), snd (snd run))))
    by (vm_compute; reflexivity).
  assert (Hscript : script (snd (snd run))
                    = [Scenario.accounts; Scenario.json_response Scenario.dashboard])
    by (vm_compute; reflexivity).
  exact (client_login_stores_account
           Scenario.client w0 (fst (snd run)) (snd (snd run))
           Scenario.accounts (Scenario.json_response Scenario.dashboard) []
           _ _ (JInt 123456789) Scenario.dashboard _ _ (JInt 42)
           Hhandshake Hscript eq_refl eq_refl eq_refl eq_refl eq_refl eq_refl eq_refl
           eq_refl eq_refl).
Defined.

(** ** Sessions *)

Section ClientSessions.

Import Evergy.

Lemma sessions_client_send (rq : request) : frame client_sessions (send rq).
Proof.
  intros [c w]. unfold client_sessions, send, in_world, session_request. simpl.
  destruct (session c) as [sid |] eqn:E; simpl; [| rewrite E; reflexivity].
  destruct (nth sid (sessions w) true); simpl; [rewrite E; reflexivity |].
  destruct (script w) as [| r rest]; simpl; [rewrite E; reflexivity |].
  destruct (resp_ok r); simpl; rewrite E; reflexivity.
Qed.

Lemma sessions_with_handler {A : Type} (h : EvergyLoginHandler.t)
    (m : M EvergyLoginHandler.state A) :
  frame sessions_of m -> frame client_sessions (with_handler h m).
Proof.
  intros Hm [c w]. specialize (Hm (h, w)). unfold sessions_of in Hm.
  unfold client_sessions, with_handler. simpl in *.
  destruct (m (h, w)) as [r [h' w']]. simpl in *. rewrite Hm. reflexivity.
Qed.

Lemma sessions_client_update (g : t -> t) :
  (forall c, session (g c) = session c) -> frame client_sessions (update g).
Proof.
  intros Hg [c w]. unfold client_sessions, update, modify. simpl. rewrite Hg. reflexivity.
Qed.

Ltac sessions :=
  repeat first
    [ apply frame_bind; [| intros ?]
    | apply frame_if
    | apply sessions_client_send
    | apply sessions_client_update; intros ?; reflexivity
    | apply sessions_with_handler, login_sessions
    | apply frame_lift
    | apply frame_gets
    | apply frame_ret
    | apply frame_raise
    | apply frame_assert ].

(** [login] after the session was created and assigned. *)
Lemma login_opens_one_session (s : state) :
  client_sessions (snd (login s))
  = (Some (List.length (sessions (snd s))), (sessions (snd s) ++ [false])%list).
Proof.
  destruct s as [c w]. unfold login.
  unfold bind at 1. unfold in_world at 1, new_session at 1. cbn [fst snd].
  unfold bind at 1. unfold update at 1, modify at 1. cbn [fst snd].
  match goal with
  | |- client_sessions (snd (?m ?s1)) = _ =>
      assert (Hrest : frame client_sessions m) by sessions;
      rewrite (Hrest s1)
  end.
  reflexivity.
Qed.

End ClientSessions.

(** X11: every [Evergy.login] creates a session of its own and closes
    none: after the call, whatever its outcome, the client holds the new
    session, that session is open, and the sessions that existed before,
    the one of an earlier login included, are as they were. *)
Theorem login_opens_and_closes_nothing (c : Evergy.t) (w : world) :
  Evergy.session (fst (snd (Evergy.login (c, w)))) = Some (List.length (sessions w)) /\
  sessions (snd (snd (Evergy.login (c, w)))) = (sessions w ++ [false])%list /\
  nth (List.length (sessions w)) (sessions (snd (snd (Evergy.login (c, w))))) true = false /\
  forall sid : session_ref,
    (sid < List.length (sessions w))%nat ->
    nth sid (sessions (snd (snd (Evergy.login (c, w))))) true = nth sid (sessions w) true.
Proof.
  pose proof (login_opens_one_session (c, w)) as H.
  unfold client_sessions in H. simpl in H. injection H as Hsession Hsessions.
  split; [exact Hsession | split; [exact Hsessions | split]].
  - rewrite Hsessions. apply new_session_open.
  - intros sid Hsid. rewrite Hsessions. apply app_nth1. exact Hsid.
Qed.

(** A second login of a client whose first session is still open: that
    session stays open, and a failed login leaves its own session open. *)
Lemma login_opens_and_closes_nothing_witness :
  nth 0 (sessions (snd (snd (Evergy.login
           (Scenario.logged_in_client, Scenario.online [Scenario.server_error]))))) true
  = false /\
  Evergy.session (fst (snd (Evergy.login
           (Scenario.logged_in_client, Scenario.online [Scenario.server_error]))))
  = Some 1%nat /\
  nth 1 (sessions (snd (snd (Evergy.login
           (Scenario.logged_in_client, Scenario.online [Scenario.server_error]))))) true
  = false.
Proof.
  destruct (login_opens_and_closes_nothing Scenario.logged_in_client
              (Scenario.online [Scenario.server_error])) as (Hs & _ & Hnew & Hold).
  split; [| split; [exact Hs | exact Hnew]].
  rewrite (Hold 0%nat); [reflexivity | simpl; lia].
Defined.

(** ** Logout: the session it needs, and what a failure leaves *)

Section LogoutEdges.

Import Evergy.

Lemma closed_session_is_closed (l : list bool) (sid : session_ref) :
  nth sid l true = false -> nth sid (set_nth l sid true) true = true.
Proof.
  revert sid. induction l as [| b l IH]; intros [| sid]; simpl; intros H;
    try discriminate; try reflexivity.
  apply IH. exact H.
Qed.

(** What a [logout] that returned has done. *)
Lemma logout_returned (c c1 : t) (w w1 : world) :
  logout (c, w) = (Ok tt, (c1, w1)) ->
  exists sid : session_ref,
    session c = Some sid /\ nth sid (sessions w) true = false /\
    c1 = set_logged_in false c /\ w1 = closed (answered w logout_request) sid.
Proof.
  unfold logout, bind, in_world, update, modify, assert, close_session, ret, raise,
    session_request.
  simpl. destruct (session c) as [sid |] eqn:Hsession; simpl; [| discriminate].
  destruct (nth sid (sessions w) true) eqn:Hopen; simpl; [discriminate |].
  destruct (script w) as [| r rest] eqn:Hscript; simpl; [discriminate |].
  destruct (resp_ok r); simpl; [| discriminate].
  destruct (String.eqb (resp_text r) ""); simpl; [discriminate |].
  intros H. injection H as <- <-. exists sid.
  unfold closed, answered. rewrite Hscript. simpl. auto.
Qed.

Lemma logout_on_closed_session (c : t) (w : world) (sid : session_ref) :
  session c = Some sid -> nth sid (sessions w) true = true ->
  logout (c, w) = (Raise (RuntimeError "Session is closed"), (c, w)).
Proof.
  intros Hsession Hclosed.
  unfold logout, bind, in_world, session_request. simpl.
  rewrite Hsession. simpl. rewrite Hclosed. reflexivity.
Qed.

Lemma logout_fails (c : t) (w : world) (sid : session_ref) (r : response)
    (rest : list response) :
  session c = Some sid -> nth sid (sessions w) true = false -> script w = r :: rest ->
  logout (c, w)
  = (if resp_ok r
     then if String.eqb (resp_text r) ""
          then Raise (AssertionError "Failed to logout.")
          else Ok tt
     else Raise ClientResponseError,
     if resp_ok r && negb (String.eqb (resp_text r) "")
     then (set_logged_in false c, closed (answered w logout_request) sid)
     else (c, answered w logout_request)).
Proof.
  intros Hsession Hopen Hscript.
  unfold logout, bind, in_world, update, modify, assert, close_session, ret, raise,
    session_request, closed, answered.
  simpl. rewrite Hsession. simpl. rewrite Hopen, Hscript. simpl.
  destruct (resp_ok r); simpl; [| reflexivity].
  destruct (String.eqb (resp_text r) ""); reflexivity.
Qed.

End LogoutEdges.

(** X12: [logout] needs an open session.  On a client that never logged
    in it raises AttributeError, and after a [logout] that returned, a
    second [logout] raises RuntimeError("Session is closed"); in both
    cases no request is issued and nothing changes. *)
Theorem logout_needs_open_session (c : Evergy.t) (w : world) :
  (Evergy.session c = None ->
     Evergy.logout (c, w) = (Raise (AttributeError "session"), (c, w))) /\
  (forall (c1 : Evergy.t) (w1 : world),
     Evergy.logout (c, w) = (Ok tt, (c1, w1)) ->
     Evergy.logged_in c1 = false /\
     Evergy.logout (c1, w1) = (Raise (RuntimeError "Session is closed"), (c1, w1))).
Proof.
  split.
  - intros Hnone. unfold Evergy.logout, bind. simpl. rewrite Hnone. reflexivity.
  - intros c1 w1 Hfirst.
    destruct (logout_returned c c1 w w1 Hfirst) as (sid & Hsession & Hopen & -> & ->).
    split; [reflexivity |].
    apply (logout_on_closed_session _ _ sid); [exact Hsession |].
    unfold closed, answered. simpl. apply closed_session_is_closed. exact Hopen.
Qed.

(** A logged-in client logs out twice. *)
Lemma logout_needs_open_session_witness :
  Evergy.logout (Scenario.logged_in_client,
                 Scenario.online [Scenario.logged_out_page; Scenario.logged_out_page])
  = (Ok tt,
     (Evergy.set_logged_in false Scenario.logged_in_client,
      closed (answered (Scenario.online [Scenario.logged_out_page; Scenario.logged_out_page])
                logout_request) 0%nat)) /\
  Evergy.logout
    (Evergy.set_logged_in false Scenario.logged_in_client,
     closed (answered (Scenario.online [Scenario.logged_out_page; Scenario.logged_out_page])
               logout_request) 0%nat)
  = (Raise (RuntimeError "Session is closed"),
     (Evergy.set_logged_in false Scenario.logged_in_client,
      closed (answered (Scenario.online [Scenario.logged_out_page; Scenario.logged_out_page])
                logout_request) 0%nat)).
Proof.
  assert (Hfirst :
            Evergy.logout (Scenario.logged_in_client,
                           Scenario.online [Scenario.logged_out_page; Scenario.logged_out_page])
            = (Ok tt,
               (Evergy.set_logged_in false Scenario.logged_in_client,
                closed (answered (Scenario.online
                                    [Scenario.logged_out_page; Scenario.logged_out_page])
                          logout_request) 0%nat)))
    by (vm_compute; reflexivity).
  split; [exact Hfirst |].
  exact (proj2 (proj2 (logout_needs_open_session _ _) _ _ Hfirst)).
Defined.

(** X13: a [logout] whose request is answered with an error status
    raises ClientResponseError, and one that is answered with an empty
    body raises AssertionError("Failed to logout."); in both cases the
    client is left as it was, flag included, and the session is not
    closed. *)
Theorem failed_logout_keeps_session
    (c : Evergy.t) (w : world) (sid : session_ref) (r : response) (rest : list response) :
  Evergy.session c = Some sid -> nth sid (sessions w) true = false ->
  script w = r :: rest ->
  (resp_ok r = false ->
     Evergy.logout (c, w) = (Raise ClientResponseError, (c, answered w logout_request))) /\
  (resp_ok r = true -> resp_text r = "" ->
     Evergy.logout (c, w)
     = (Raise (AssertionError "Failed to logout."), (c, answered w logout_request))) /\
  nth sid (sessions (answered w logout_request)) true = false.
Proof.
  intros Hsession Hopen Hscript.
  rewrite (logout_fails c w sid r rest Hsession Hopen Hscript).
  split; [| split].
  - intros Hok. rewrite Hok. reflexivity.
  - intros Hok Htext. rewrite Hok, Htext. reflexivity.
  - exact Hopen.
Qed.

(** The logout of a logged-in client, answered with a status 500. *)
Lemma failed_logout_keeps_session_witness :
  Evergy.logout (Scenario.logged_in_client, Scenario.online [Scenario.server_error])
  = (Raise ClientResponseError,
     (Scenario.logged_in_client,
      answered (Scenario.online [Scenario.server_error]) logout_request)) /\
  nth 0 (sessions (answered (Scenario.online [Scenario.server_error]) logout_request)) true
  = false.
Proof.
  destruct (failed_logout_keeps_session Scenario.logged_in_client
              (Scenario.online [Scenario.server_error]) 0%nat Scenario.server_error []
              eq_refl eq_refl eq_refl) as (Hstatus & _ & Hopen).
  split; [exact (Hstatus eq_refl) | exact Hopen].
Defined.

(** ** The transcript of a handshake that succeeds *)

Lemma as_str_ok (v : json) (s : string) : as_str v = Ok s -> v = JStr s.
Proof. destruct v; simpl; intros H; try discriminate. congruence. Qed.

Lemma dict_item_ok (d : dict string) (key v : string) :
  dict_item d key = Ok v -> dict_get d key = Some v.
Proof. unfold dict_item. destruct (dict_get d key); intros H; [congruence | discriminate]. Qed.

Lemma getattr_ok {A : Type} (name : string) (field : option A) (v : A) :
  getattr name field = Ok v -> field = Some v.
Proof. destruct field; simpl; intros H; [congruence | discriminate]. Qed.

Lemma bind_ok_inv {S A B : Type} (m : M S A) (k : A -> M S B) (s s' : S) (b : B) :
  bind m k s = (Ok b, s') -> exists a s1, m s = (Ok a, s1) /\ k a s1 = (Ok b, s').
Proof.
  unfold bind. destruct (m s) as [[a | e] s1]; [| discriminate].
  intros H. exists a, s1. auto.
Qed.

Ltac tidy :=
  repeat match goal with
         | H : Ok _ = Ok _ |- _ => injection H as H; subst
         | H : as_str _ = Ok _ |- _ => apply as_str_ok in H; subst
         | H : dict_item _ _ = Ok _ |- _ => apply dict_item_ok in H
         | H : getattr _ _ = Ok _ |- _ => apply getattr_ok in H
         end.

Ltac run_step :=
  unfold EvergyLoginHandler.capability, coroutine, EvergyLoginHandler.auth,
    EvergyLoginHandler.attr, EvergyLoginHandler.send, EvergyLoginHandler.update,
    modify, lift, in_world, bind, ret, raise, assert, session_request;
  crack.

Tactic Notation "finish" integer(n) :=
  do n eexists; unfold answered;
  repeat match goal with Hs : script _ = _ :: _ |- _ => rewrite Hs end; simpl;
  repeat split; try eassumption; try reflexivity.

Section Steps.

Import EvergyLoginHandler.

Variables (h h' : t) (w w' : world).

Lemma get_auth_data_ok :
  get_auth_data (h, w) = (Ok tt, (h', w')) ->
  exists (page : response) (d : dict string),
    script w = page :: script w' /\
    EvergyDavinciWidgetParser.feed (resp_starttags page) [] = (Ok tt, d) /\
    h' = set_auth_data d h /\
    w' = answered w login_page_request.
Proof.
  unfold get_auth_data, coroutine, send, update, modify, lift, in_world, bind, session_request.
  simpl.
  destruct (nth (session h) (sessions w) true); simpl; [discriminate |].
  destruct (script w) as [| page rest] eqn:Hscript; simpl; [discriminate |].
  destruct (resp_ok page); simpl; [| discriminate].
  destruct (EvergyDavinciWidgetParser.feed (resp_starttags page) []) as [[[] | e] d] eqn:Hfeed;
    simpl.
  - destruct d as [| entry d']; simpl; [discriminate |].
    intros H. injection H as <- <-.
    exists page, (entry :: d'). unfold answered. rewrite Hscript. simpl. auto.
  - destruct e; discriminate.
Qed.

Lemma get_sdktoken_ok :
  get_sdktoken (h, w) = (Ok tt, (h', w')) ->
  exists (r : response) (d : dict string) (root company key : string) (j token : json),
    script w = r :: script w' /\
    auth_data h = Some d /\
    dict_get d "api_root" = Some root /\
    dict_get d "company_id" = Some company /\
    dict_get d "sk_api_key" = Some key /\
    resp_json true r = Ok j /\
    getitem j "access_token" = Ok token /\
    h' = set_access_token token h /\
    w' = answered w (sdktoken_request root company key).
Proof.
  unfold get_sdktoken. run_step. intros H. injection H as <- <-. tidy. finish 7.
Qed.

Lemma start_flow_ok :
  start_flow (h, w) = (Ok tt, (h', w')) ->
  exists (r : response) (d : dict string) (root company policy token : string)
         (j step connection interaction flow : json),
    script w = r :: script w' /\
    auth_data h = Some d /\
    dict_get d "api_root" = Some root /\
    dict_get d "company_id" = Some company /\
    dict_get d "policy_id" = Some policy /\
    access_token h = Some (JStr token) /\
    resp_json true r = Ok j /\
    getitem j "id" = Ok step /\
    getitem j "connectionId" = Ok connection /\
    getitem j "interactionId" = Ok interaction /\
    getitem j "flowId" = Ok flow /\
    h' = set_flowId flow (set_interactionId interaction
           (set_connectionId connection (set_id step h))) /\
    w' = answered w (start_request root company policy token).
Proof.
  unfold start_flow. run_step. intros H. injection H as <- <-. tidy. finish 11.
Qed.

Lemma get_login_form_ok :
  get_login_form (h, w) = (Ok tt, (h', w')) ->
  exists (r : response) (d : dict string) (root company connection : string)
         (interaction step j next : json),
    script w = r :: script w' /\
    auth_data h = Some d /\
    dict_get d "api_root" = Some root /\
    dict_get d "company_id" = Some company /\
    connectionId h = Some (JStr connection) /\
    interactionId h = Some interaction /\
    id h = Some step /\
    resp_json true r = Ok j /\
    getitem j "id" = Ok next /\
    h' = set_id next h /\
    w' = answered w (form_request root company connection interaction step).
Proof.
  unfold get_login_form. run_step. intros H. injection H as <- <-. tidy. finish 9.
Qed.

Lemma submit_login_form_ok (username password : string) :
  submit_login_form username password (h, w) = (Ok tt, (h', w')) ->
  exists (r : response) (d : dict string) (root company connection : string)
         (step flow j returned next : json),
    script w = r :: script w' /\
    auth_data h = Some d /\
    dict_get d "api_root" = Some root /\
    dict_get d "company_id" = Some company /\
    connectionId h = Some (JStr connection) /\
    id h = Some step /\
    flowId h = Some flow /\
    resp_json true r = Ok j /\
    getitem j "flowId" = Ok returned /\
    py_ne returned flow = false /\
    getitem j "id" = Ok next /\
    py_eq next step = false /\
    h' = set_id next h /\
    w' = answered w (submit_request root company connection step username password).
Proof.
  unfold submit_login_form. run_step. intros H. injection H as <- <-. tidy. finish 10.
Qed.

Lemma get_new_connection_id_ok :
  get_new_connection_id (h, w) = (Ok tt, (h', w')) ->
  exists (r : response) (d : dict string) (root company connection : string)
         (step j next rotated : json),
    script w = r :: script w' /\
    auth_data h = Some d /\
    dict_get d "api_root" = Some root /\
    dict_get d "company_id" = Some company /\
    connectionId h = Some (JStr connection) /\
    id h = Some step /\
    resp_json true r = Ok j /\
    getitem j "id" = Ok next /\
    getitem j "connectionId" = Ok rotated /\
    h' = set_connectionId rotated (set_id next h) /\
    w' = answered w (continue_request root company connection step).
Proof.
  unfold get_new_connection_id. run_step. intros H. injection H as <- <-. tidy. finish 9.
Qed.

Lemma get_new_connection_cookie_ok :
  get_new_connection_cookie (h, w) = (Ok tt, (h', w')) ->
  exists (r : response) (d : dict string) (root company connection : string)
         (step j next : json),
    script w = r :: script w' /\
    auth_data h = Some d /\
    dict_get d "api_root" = Some root /\
    dict_get d "company_id" = Some company /\
    connectionId h = Some (JStr connection) /\
    id h = Some step /\
    resp_json true r = Ok j /\
    getitem j "id" = Ok next /\
    h' = set_id next h /\
    w' = answered w (complete_request root company connection step).
Proof.
  unfold get_new_connection_cookie. run_step. intros H. injection H as <- <-. tidy. finish 8.
Qed.

Lemma get_new_access_token_ok :
  get_new_access_token (h, w) = (Ok tt, (h', w')) ->
  exists (r : response) (d : dict string) (root company connection : string)
         (step j next token : json),
    script w = r :: script w' /\
    auth_data h = Some d /\
    dict_get d "api_root" = Some root /\
    dict_get d "company_id" = Some company /\
    connectionId h = Some (JStr connection) /\
    id h = Some step /\
    resp_json true r = Ok j /\
    getitem j "id" = Ok next /\
    getitem j "access_token" = Ok token /\
    h' = set_access_token token (set_id next h) /\
    w' = answered w (complete_request root company connection step).
Proof.
  unfold get_new_access_token. run_step. intros H. injection H as <- <-. tidy. finish 9.
Qed.

Lemma postprocessing_api_ok :
  postprocessing_api (h, w) = (Ok tt, (h', w')) ->
  exists (r : response) (d : dict string) (path item : string) (token : json),
    script w = r :: script w' /\
    auth_data h = Some d /\
    dict_get d "post_processing_api" = Some path /\
    dict_get d "datasource_item_id" = Some item /\
    access_token h = Some token /\
    h' = h /\
    w' = answered w (postprocess_request path token item).
Proof.
  unfold postprocessing_api. run_step. intros H. injection H as <- <-. tidy. finish 5.
Qed.

End Steps.

Ltac same_fields :=
  repeat match goal with
         | H : Some _ = Some _ |- _ => injection H as H; subst
         | H : JStr _ = JStr _ |- _ => injection H as H; subst
         end.

(** The nine steps of a handshake that returned. *)
Lemma login_steps (username password : string) (s0 s9 : EvergyLoginHandler.state) :
  EvergyLoginHandler.login username password s0 = (Ok tt, s9) ->
  exists s1 s2 s3 s4 s5 s6 s7 s8 : EvergyLoginHandler.state,
    EvergyLoginHandler.get_auth_data s0 = (Ok tt, s1) /\
    EvergyLoginHandler.get_sdktoken s1 = (Ok tt, s2) /\
    EvergyLoginHandler.start_flow s2 = (Ok tt, s3) /\
    EvergyLoginHandler.get_login_form s3 = (Ok tt, s4) /\
    EvergyLoginHandler.submit_login_form username password s4 = (Ok tt, s5) /\
    EvergyLoginHandler.get_new_connection_id s5 = (Ok tt, s6) /\
    EvergyLoginHandler.get_new_connection_cookie s6 = (Ok tt, s7) /\
    EvergyLoginHandler.get_new_access_token s7 = (Ok tt, s8) /\
    EvergyLoginHandler.postprocessing_api s8 = (Ok tt, s9).
Proof.
  unfold EvergyLoginHandler.login. intros H.
  apply bind_ok_inv in H. destruct H as ([] & s1 & H1 & H).
  apply bind_ok_inv in H. destruct H as ([] & s2 & H2 & H).
  apply bind_ok_inv in H. destruct H as ([] & s3 & H3 & H).
  apply bind_ok_inv in H. destruct H as ([] & s4 & H4 & H).
  apply bind_ok_inv in H. destruct H as ([] & s5 & H5 & H).
  apply bind_ok_inv in H. destruct H as ([] & s6 & H6 & H).
  apply bind_ok_inv in H. destruct H as ([] & s7 & H7 & H).
  apply bind_ok_inv in H. destruct H as ([] & s8 & H8 & H).
  exists s1, s2, s3, s4, s5, s6, s7, s8. auto 10.
Qed.

(** The transcript of a handshake that returned: the responses it read,
    what it took from each, the requests it issued, and the handler it
    leaves. *)
Lemma login_transcript (username password : string)
    (h0 h9 : EvergyLoginHandler.t) (w0 w9 : world) :
  EvergyLoginHandler.login username password (h0, w0) = (Ok tt, (h9, w9)) ->
  exists (r1 r2 r3 r4 r5 r6 r7 r8 r9 : response) (d : dict string)
         (root company key policy path item token0 c1 c2 : string)
         (j2 j3 j4 j5 j6 j7 j8 i3 i4 i5 i6 i7 i8 interaction flow token1 : json),
    script w0 = r1 :: r2 :: r3 :: r4 :: r5 :: r6 :: r7 :: r8 :: r9 :: script w9 /\
    EvergyDavinciWidgetParser.feed (resp_starttags r1) [] = (Ok tt, d) /\
    (dict_get d "api_root" = Some root /\ dict_get d "company_id" = Some company /\
     dict_get d "sk_api_key" = Some key /\ dict_get d "policy_id" = Some policy /\
     dict_get d "post_processing_api" = Some path /\
     dict_get d "datasource_item_id" = Some item) /\
    (resp_json true r2 = Ok j2 /\ getitem j2 "access_token" = Ok (JStr token0)) /\
    (resp_json true r3 = Ok j3 /\ getitem j3 "id" = Ok i3 /\
     getitem j3 "connectionId" = Ok (JStr c1) /\
     getitem j3 "interactionId" = Ok interaction /\ getitem j3 "flowId" = Ok flow) /\
    (resp_json true r4 = Ok j4 /\ getitem j4 "id" = Ok i4) /\
    (resp_json true r5 = Ok j5 /\ getitem j5 "id" = Ok i5) /\
    (resp_json true r6 = Ok j6 /\ getitem j6 "id" = Ok i6 /\
     getitem j6 "connectionId" = Ok (JStr c2)) /\
    (resp_json true r7 = Ok j7 /\ getitem j7 "id" = Ok i7) /\
    (resp_json true r8 = Ok j8 /\ getitem j8 "id" = Ok i8 /\
     getitem j8 "access_token" = Ok token1) /\
    trace w9
    = (trace w0 ++
       [ login_page_request;
         sdktoken_request root company key;
         start_request root company policy token0;
         form_request root company c1 interaction i3;
         submit_request root company c1 i4 username password;
         continue_request root company c1 i5;
         complete_request root company c2 i6;
         complete_request root company c2 i7;
         postprocess_request path token1 item ])%list /\
    h9 = EvergyLoginHandler.mk (EvergyLoginHandler.session h0) (Some d) (Some token1)
           (Some (JStr c2)) (Some interaction) (Some flow) (Some i8).
Proof.
  intros Hlogin.
  destruct (login_steps _ _ _ _ Hlogin)
    as ([h1 w1] & [h2 w2] & [h3 w3] & [h4 w4] & [h5 w5] & [h6 w6] & [h7 w7] & [h8 w8] &
        H1 & H2 & H3 & H4 & H5 & H6 & H7 & H8 & H9).
  apply get_auth_data_ok in H1. destruct H1 as (r1 & d & S1 & Hfeed & -> & W1).
  apply get_sdktoken_ok in H2.
  destruct H2 as (r2 & d2 & root & company & key & j2 & tok & S2 & A2 & Hroot & Hcompany &
                  Hkey & J2 & T2 & -> & W2).
  apply start_flow_ok in H3.
  destruct H3 as (r3 & d3 & root3 & company3 & policy & token0 & j3 & i3 & c1j & interaction &
                  flow & S3 & A3 & Hroot3 & Hcompany3 & Hpolicy & T3 & J3 & I3 & C3 & N3 &
                  F3 & -> & W3).
  apply get_login_form_ok in H4.
  destruct H4 as (r4 & d4 & root4 & company4 & c1 & inter4 & step4 & j4 & i4 & S4 & A4 &
                  Hroot4 & Hcompany4 & C4 & N4 & P4 & J4 & I4 & -> & W4).
  apply submit_login_form_ok in H5.
  destruct H5 as (r5 & d5 & root5 & company5 & c5 & step5 & flow5 & j5 & returned & i5 & S5 &
                  A5 & Hroot5 & Hcompany5 & C5 & P5 & F5 & J5 & R5 & Hne & I5 & Heq & -> & W5).
  apply get_new_connection_id_ok in H6.
  destruct H6 as (r6 & d6 & root6 & company6 & c6 & step6 & j6 & i6 & rotated & S6 & A6 &
                  Hroot6 & Hcompany6 & C6 & P6 & J6 & I6 & R6 & -> & W6).
  apply get_new_connection_cookie_ok in H7.
  destruct H7 as (r7 & d7 & root7 & company7 & c2 & step7 & j7 & i7 & S7 & A7 & Hroot7 &
                  Hcompany7 & C7 & P7 & J7 & I7 & -> & W7).
  apply get_new_access_token_ok in H8.
  destruct H8 as (r8 & d8 & root8 & company8 & c8 & step8 & j8 & i8 & token1 & S8 & A8 &
                  Hroot8 & Hcompany8 & C8 & P8 & J8 & I8 & T8 & -> & W8).
  apply postprocessing_api_ok in H9.
  destruct H9 as (r9 & d9 & path & item & tok9 & S9 & A9 & Hpath & Hitem & T9 & -> & W9).
  assert (Hscript : script w0 = r1 :: r2 :: r3 :: r4 :: r5 :: r6 :: r7 :: r8 :: r9 :: script w9)
    by (rewrite S1, S2, S3, S4, S5, S6, S7, S8, S9; reflexivity).
  clear S1 S2 S3 S4 S5 S6 S7 S8 S9. subst. simpl in *. same_fields.
  repeat match goal with
         | H : dict_get ?d ?k = Some ?a, H' : dict_get ?d ?k = Some ?b |- _ =>
             assert (a = b) by congruence; subst; clear H'
         end.
  do 35 eexists.
  split; [exact Hscript |].
  split; [exact Hfeed |].
  repeat split; try eassumption.
  unfold answered. simpl. repeat rewrite <- app_assoc. reflexivity.
Qed.

(** X14: in a handshake that returned, the flow was started with the
    access token of the second response (the sdktoken exchange) as bearer,
    and the handler ends with the access token of the eighth response
    ([get_new_access_token]); the ninth and last request posts that
    token, with the datasource item id of the descriptor, to the
    post-processing path of the descriptor. *)
Theorem handshake_tokens (username password : string)
    (h0 h9 : EvergyLoginHandler.t) (w0 w9 : world) :
  EvergyLoginHandler.login username password (h0, w0) = (Ok tt, (h9, w9)) ->
  exists (r1 r2 r8 r9 : response) (rs : list response) (rq1 rq2 : request)
         (rqs : list request) (d : dict string) (root company policy path item token0 : string)
         (j2 j8 token1 : json),
    script w0 = (r1 :: r2 :: rs ++ r8 :: r9 :: script w9)%list /\
    List.length rs = 5%nat /\
    resp_json true r2 = Ok j2 /\ getitem j2 "access_token" = Ok (JStr token0) /\
    resp_json true r8 = Ok j8 /\ getitem j8 "access_token" = Ok token1 /\
    trace w9
    = (trace w0 ++ rq1 :: rq2 :: start_request root company policy token0 :: rqs
       ++ [postprocess_request path token1 item])%list /\
    List.length rqs = 5%nat /\
    EvergyLoginHandler.access_token h9 = Some token1 /\
    EvergyLoginHandler.auth_data h9 = Some d /\
    dict_get d "api_root" = Some root /\ dict_get d "company_id" = Some company /\
    dict_get d "policy_id" = Some policy /\
    dict_get d "post_processing_api" = Some path /\
    dict_get d "datasource_item_id" = Some item.
Proof.
  intros Hlogin.
  destruct (login_transcript _ _ _ _ _ _ Hlogin)
    as (r1 & r2 & r3 & r4 & r5 & r6 & r7 & r8 & r9 & d & root & company & key & policy &
        path & item & token0 & c1 & c2 & j2 & j3 & j4 & j5 & j6 & j7 & j8 & i3 & i4 & i5 &
        i6 & i7 & i8 & interaction & flow & token1 & Hscript & Hfeed &
        (Hroot & Hcompany & Hkey & Hpolicy & Hpath & Hitem) & (J2 & T2) & _ & _ & _ & _ & _ &
        (J8 & _ & T8) & Htrace & ->).
  exists r1, r2, r8, r9, [r3; r4; r5; r6; r7], login_page_request,
    (sdktoken_request root company key),
    [ form_request root company c1 interaction i3;
      submit_request root company c1 i4 username password;
      continue_request root company c1 i5;
      complete_request root company c2 i6;
      complete_request root company c2 i7 ],
    d, root, company, policy, path, item, token0, j2, j8, token1.
  simpl. auto 20.
Qed.

(** The scripted handshake: bearer T0, final token T1. *)
Lemma handshake_tokens_witness :
  exists (r1 r2 r8 r9 : response) (rs : list response) (rq1 rq2 : request)
         (rqs : list request) (d : dict string) (root company policy path item token0 : string)
         (j2 j8 token1 : json),
    script (Scenario.online Scenario.handshake) = (r1 :: r2 :: rs ++ r8 :: r9 :: script (snd (snd (EvergyLoginHandler.login "user" "secret" (Scenario.fresh_handler Scenario.handshake)))))%list /\
    List.length rs = 5%nat /\
    resp_json true r2 = Ok j2 /\ getitem j2 "access_token" = Ok (JStr token0) /\
    resp_json true r8 = Ok j8 /\ getitem j8 "access_token" = Ok token1 /\
    trace (snd (snd (EvergyLoginHandler.login "user" "secret" (Scenario.fresh_handler Scenario.handshake))))
    = (trace (Scenario.online Scenario.handshake) ++ rq1 :: rq2 :: start_request root company policy token0 :: rqs
       ++ [postprocess_request path token1 item])%list /\
    List.length rqs = 5%nat /\
    EvergyLoginHandler.access_token (fst (snd (EvergyLoginHandler.login "user" "secret" (Scenario.fresh_handler Scenario.handshake)))) = Some token1 /\
    EvergyLoginHandler.auth_data (fst (snd (EvergyLoginHandler.login "user" "secret" (Scenario.fresh_handler Scenario.handshake)))) = Some d /\
    dict_get d "api_root" = Some root /\ dict_get d "company_id" = Some company /\
    dict_get d "policy_id" = Some policy /\
    dict_get d "post_processing_api" = Some path /\
    dict_get d "datasource_item_id" = Some item.
Proof.
  apply (handshake_tokens "user" "secret" (EvergyLoginHandler.init 0%nat)
           (fst (snd (EvergyLoginHandler.login "user" "secret"
                        (Scenario.fresh_handler Scenario.handshake))))
           (Scenario.online Scenario.handshake)
           (snd (snd (EvergyLoginHandler.login "user" "secret"
                        (Scenario.fresh_handler Scenario.handshake))))).
  vm_compute. reflexivity.
Defined.


(** X15: in a handshake that returned, the nine requests go, in this
    order, to the login page, the sdktoken URL, the flow start URL, three
    times the customHTMLTemplate capability of the connection id that the
    flow start returned, twice the setCookieWithoutUser capability of the
    connection id that the sixth response ([get_new_connection_id])
    returned, and the post-processing path; the API root, the company id
    and the policy id are those of the descriptor on the login page. *)
Theorem handshake_urls (username password : string)
    (h0 h9 : EvergyLoginHandler.t) (w0 w9 : world) :
  EvergyLoginHandler.login username password (h0, w0) = (Ok tt, (h9, w9)) ->
  exists (rqs : list request) (r1 r2 r3 r4 r5 r6 : response) (rest : list response)
         (d : dict string) (root company policy path c1 c2 : string) (j3 j6 : json),
    trace w9 = (trace w0 ++ rqs)%list /\
    map req_url rqs
    = [ LoginPageUrl;
        SdkTokenUrl root company;
        FlowStartUrl root company policy;
        CustomHTMLTemplateUrl root company c1;
        CustomHTMLTemplateUrl root company c1;
        CustomHTMLTemplateUrl root company c1;
        SetCookieWithoutUserUrl root company c2;
        SetCookieWithoutUserUrl root company c2;
        PostProcessingUrl path ] /\
    script w0 = r1 :: r2 :: r3 :: r4 :: r5 :: r6 :: rest /\
    EvergyDavinciWidgetParser.feed (resp_starttags r1) [] = (Ok tt, d) /\
    dict_get d "api_root" = Some root /\ dict_get d "company_id" = Some company /\
    dict_get d "policy_id" = Some policy /\
    dict_get d "post_processing_api" = Some path /\
    resp_json true r3 = Ok j3 /\ getitem j3 "connectionId" = Ok (JStr c1) /\
    resp_json true r6 = Ok j6 /\ getitem j6 "connectionId" = Ok (JStr c2) /\
    EvergyLoginHandler.connectionId h9 = Some (JStr c2).
Proof.
  intros Hlogin.
  destruct (login_transcript _ _ _ _ _ _ Hlogin)
    as (r1 & r2 & r3 & r4 & r5 & r6 & r7 & r8 & r9 & d & root & company & key & policy &
        path & item & token0 & c1 & c2 & j2 & j3 & j4 & j5 & j6 & j7 & j8 & i3 & i4 & i5 &
        i6 & i7 & i8 & interaction & flow & token1 & Hscript & Hfeed &
        (Hroot & Hcompany & Hkey & Hpolicy & Hpath & Hitem) & _ & (J3 & _ & C3 & _ & _) &
        _ & _ & (J6 & _ & C6) & _ & _ & Htrace & ->).
  eexists. exists r1, r2, r3, r4, r5, r6, (r7 :: r8 :: r9 :: script w9), d, root, company,
    policy, path, c1, c2, j3, j6.
  split; [exact Htrace |]. simpl. auto 20.
Qed.

(** The scripted handshake: connection K1, then K2. *)
Lemma handshake_urls_witness :
  exists (rqs : list request) (r1 r2 r3 r4 r5 r6 : response) (rest : list response)
         (d : dict string) (root company policy path c1 c2 : string) (j3 j6 : json),
    trace (snd (snd (EvergyLoginHandler.login "user" "secret" (Scenario.fresh_handler Scenario.handshake)))) = (trace (Scenario.online Scenario.handshake) ++ rqs)%list /\
    map req_url rqs
    = [ LoginPageUrl;
        SdkTokenUrl root company;
        FlowStartUrl root company policy;
        CustomHTMLTemplateUrl root company c1;
        CustomHTMLTemplateUrl root company c1;
        CustomHTMLTemplateUrl root company c1;
        SetCookieWithoutUserUrl root company c2;
        SetCookieWithoutUserUrl root company c2;
        PostProcessingUrl path ] /\
    script (Scenario.online Scenario.handshake) = r1 :: r2 :: r3 :: r4 :: r5 :: r6 :: rest /\
    EvergyDavinciWidgetParser.feed (resp_starttags r1) [] = (Ok tt, d) /\
    dict_get d "api_root" = Some root /\ dict_get d "company_id" = Some company /\
    dict_get d "policy_id" = Some policy /\
    dict_get d "post_processing_api" = Some path /\
    resp_json true r3 = Ok j3 /\ getitem j3 "connectionId" = Ok (JStr c1) /\
    resp_json true r6 = Ok j6 /\ getitem j6 "connectionId" = Ok (JStr c2) /\
    EvergyLoginHandler.connectionId (fst (snd (EvergyLoginHandler.login "user" "secret" (Scenario.fresh_handler Scenario.handshake)))) = Some (JStr c2).
Proof.
  apply (handshake_urls "user" "secret" (EvergyLoginHandler.init 0%nat)
           (fst (snd (EvergyLoginHandler.login "user" "secret"
                        (Scenario.fresh_handler Scenario.handshake))))
           (Scenario.online Scenario.handshake)
           (snd (snd (EvergyLoginHandler.login "user" "secret"
                        (Scenario.fresh_handler Scenario.handshake))))).
  vm_compute. reflexivity.
Defined.


(** X16: in a handshake that returned, each of the five POSTs to a
    capability (steps four to eight) carries as "id" the step id that the
    response before it returned, from the flow start on; and the handler
    ends with the step id of the eighth response. *)
Theorem handshake_step_ids (username password : string)
    (h0 h9 : EvergyLoginHandler.t) (w0 w9 : world) :
  EvergyLoginHandler.login username password (h0, w0) = (Ok tt, (h9, w9)) ->
  exists (before : list response) (answers : list response) (r8 r9 : response)
         (first : list request) (posts : list request) (last : request)
         (ids : list json) (final : json),
    script w0 = (before ++ answers ++ r8 :: r9 :: script w9)%list /\
    List.length before = 2%nat /\
    trace w9 = (trace w0 ++ first ++ posts ++ [last])%list /\
    List.length first = 3%nat /\
    List.length ids = 5%nat /\
    map returned_id answers = map Ok ids /\
    map posted_id posts = map Ok ids /\
    returned_id r8 = Ok final /\
    EvergyLoginHandler.id h9 = Some final.
Proof.
  intros Hlogin.
  destruct (login_transcript _ _ _ _ _ _ Hlogin)
    as (r1 & r2 & r3 & r4 & r5 & r6 & r7 & r8 & r9 & d & root & company & key & policy &
        path & item & token0 & c1 & c2 & j2 & j3 & j4 & j5 & j6 & j7 & j8 & i3 & i4 & i5 &
        i6 & i7 & i8 & interaction & flow & token1 & Hscript & Hfeed & _ & _ &
        (J3 & I3 & _) & (J4 & I4) & (J5 & I5) & (J6 & I6 & _) & (J7 & I7) & (J8 & I8 & _) &
        Htrace & ->).
  exists [r1; r2], [r3; r4; r5; r6; r7], r8, r9,
    [ login_page_request; sdktoken_request root company key;
      start_request root company policy token0 ],
    [ form_request root company c1 interaction i3;
      submit_request root company c1 i4 username password;
      continue_request root company c1 i5;
      complete_request root company c2 i6;
      complete_request root company c2 i7 ],
    (postprocess_request path token1 item), [i3; i4; i5; i6; i7], i8.
  unfold returned_id. simpl. rewrite J3, J4, J5, J6, J7, J8. simpl.
  rewrite I3, I4, I5, I6, I7, I8.
  repeat split; try assumption; reflexivity.
Qed.

(** The scripted handshake: the step ids S0 to S4 are posted, S5 is kept. *)
Lemma handshake_step_ids_witness :
  exists (before : list response) (answers : list response) (r8 r9 : response)
         (first : list request) (posts : list request) (last : request)
         (ids : list json) (final : json),
    script (Scenario.online Scenario.handshake) = (before ++ answers ++ r8 :: r9 :: script (snd (snd (EvergyLoginHandler.login "user" "secret" (Scenario.fresh_handler Scenario.handshake)))))%list /\
    List.length before = 2%nat /\
    trace (snd (snd (EvergyLoginHandler.login "user" "secret" (Scenario.fresh_handler Scenario.handshake)))) = (trace (Scenario.online Scenario.handshake) ++ first ++ posts ++ [last])%list /\
    List.length first = 3%nat /\
    List.length ids = 5%nat /\
    map returned_id answers = map Ok ids /\
    map posted_id posts = map Ok ids /\
    returned_id r8 = Ok final /\
    EvergyLoginHandler.id (fst (snd (EvergyLoginHandler.login "user" "secret" (Scenario.fresh_handler Scenario.handshake)))) = Some final.
Proof.
  apply (handshake_step_ids "user" "secret" (EvergyLoginHandler.init 0%nat)
           (fst (snd (EvergyLoginHandler.login "user" "secret"
                        (Scenario.fresh_handler Scenario.handshake))))
           (Scenario.online Scenario.handshake)
           (snd (snd (EvergyLoginHandler.login "user" "secret"
                        (Scenario.fresh_handler Scenario.handshake))))).
  vm_compute. reflexivity.
Defined.


(** ** Malformed answers *)

Section UsageReportEdges.

Import Evergy.

Variables (c : t) (w : world) (start_ end_ : option datetime) (interval : string).
Variables (from_date to_date : datetime) (c1 : t) (w1 : world).
Variables (sid : session_ref) (r : response) (rest : list response).

Hypothesis Hstart : fst (default_date start_ (c, w)) = Ok from_date.
Hypothesis Hend : fst (default_date end_ (c, w)) = Ok to_date.
Hypothesis Hlogin : ensure_logged_in (c, w) = (Ok tt, (c1, w1)).
Hypothesis Horder : Datetime.gt from_date to_date = Ok false.
Hypothesis Hsession : session c1 = Some sid.
Hypothesis Hopen : nth sid (sessions w1) true = false.
Hypothesis Hscript : script w1 = r :: rest.
Hypothesis Hok : resp_ok r = true.

(** X17: a usage report that is JSON other than [null] but has no entry
    "data" makes [get_usage_range] raise KeyError (an object without the
    key) or TypeError (a list, a string, a number), and a body that is no
    JSON makes it raise ContentTypeError or JSONDecodeError; in each case
    the request was issued and [usage_data] keeps its previous value. *)
Theorem usage_report_without_data :
  (forall (usage_response : json) (e : exn),
     resp_json true r = Ok usage_response -> is_none usage_response = false ->
     getitem usage_response "data" = Raise e ->
     get_usage_range start_ end_ interval (c, w)
     = (Raise e, (c1, answered w1 (usage_request (premise_id c1) interval from_date to_date)))
     /\ (e = KeyError \/ e = TypeError)) /\
  (forall e : exn,
     resp_json true r = Raise e ->
     get_usage_range start_ end_ interval (c, w)
     = (Raise e, (c1, answered w1 (usage_request (premise_id c1) interval from_date to_date)))
     /\ (e = ContentTypeError \/ e = JSONDecodeError)).
Proof.
  split.
  - intros usage_response e Hjson Hsome Hdata. split.
    + unfold get_usage_range.
      rewrite (usage_report_received c w start_ end_ interval from_date to_date c1 w1 sid r
                 rest Hstart Hend Hlogin Horder Hsession Hopen Hscript Hok).
      rewrite Hjson, Hsome. unfold bind at 1. unfold lift at 1. rewrite Hdata. reflexivity.
    + exact (getitem_raises _ _ _ Hdata).
  - intros e Hjson. split.
    + unfold get_usage_range.
      rewrite (usage_report_received c w start_ end_ interval from_date to_date c1 w1 sid r
                 rest Hstart Hend Hlogin Horder Hsession Hopen Hscript Hok).
      rewrite Hjson. reflexivity.
    + exact (resp_json_raises _ _ _ Hjson).
Qed.

End UsageReportEdges.

(** A logged-in client that gets the dashboard where the report should be. *)
Lemma usage_report_without_data_witness :
  Evergy.get_usage_range (Some Scenario.may_1) (Some Scenario.may_2) DAY_INTERVAL
    (Scenario.logged_in_client, Scenario.online [Scenario.json_response Scenario.dashboard])
  = (Raise KeyError,
     (Scenario.logged_in_client,
      answered (Scenario.online [Scenario.json_response Scenario.dashboard])
        (usage_request (JInt 42) DAY_INTERVAL Scenario.may_1 Scenario.may_2))).
Proof.
  refine (proj1 (proj1 (usage_report_without_data
                          Scenario.logged_in_client
                          (Scenario.online [Scenario.json_response Scenario.dashboard])
                          (Some Scenario.may_1) (Some Scenario.may_2) DAY_INTERVAL
                          Scenario.may_1 Scenario.may_2
                          Scenario.logged_in_client
                          (Scenario.online [Scenario.json_response Scenario.dashboard])
                          0%nat (Scenario.json_response Scenario.dashboard) []
                          eq_refl eq_refl eq_refl eq_refl eq_refl eq_refl eq_refl eq_refl)
                   Scenario.dashboard KeyError eq_refl eq_refl eq_refl)).
Defined.

Section SubmissionEdges.

Import EvergyLoginHandler.

Variables (h : t) (w : world) (username password : string).
Variables (d : dict string) (api_root company_id connection : string).
Variables (step flow : json).
Variables (r : response) (rest : list response) (data : json).

Hypothesis Hauth : auth_data h = Some d.
Hypothesis Hroot : dict_get d "api_root" = Some api_root.
Hypothesis Hcompany : dict_get d "company_id" = Some company_id.
Hypothesis Hconnection : connectionId h = Some (JStr connection).
Hypothesis Hstep : id h = Some step.
Hypothesis Hflow : flowId h = Some flow.
Hypothesis Hopen : nth (session h) (sessions w) true = false.
Hypothesis Hscript : script w = r :: rest.
Hypothesis Hok : resp_ok r = true.
Hypothesis Hjson : resp_json true r = Ok data.

Ltac submit_run :=
  unfold submit_login_form, capability, auth, attr, send, update, modify, lift,
    in_world, bind, dict_item, ret, raise;
  simpl;
  repeat (progress (rewrite ?Hauth, ?Hroot, ?Hcompany, ?Hconnection, ?Hstep, ?Hflow;
                    simpl));
  rewrite (session_request_answered _ _ _ _ _ Hopen Hscript Hok);
  simpl; rewrite ?Hjson; simpl.

(** X18: a response to the credential submission that has no "flowId",
    or that is in the flow but has no "id", is no authentication
    failure: [submit_login_form] raises KeyError (TypeError when the body
    is no JSON object), not InvalidAuth, and leaves the handler as it
    was. *)
Theorem submission_without_keys :
  (forall e : exn,
     getitem data "flowId" = Raise e ->
     submit_login_form username password (h, w)
     = (Raise e,
        (h, answered w (submit_request api_root company_id connection step username password)))
     /\ (e = KeyError \/ e = TypeError)) /\
  (forall (returned : json) (e : exn),
     getitem data "flowId" = Ok returned -> py_ne returned flow = false ->
     getitem data "id" = Raise e ->
     submit_login_form username password (h, w)
     = (Raise e,
        (h, answered w (submit_request api_root company_id connection step username password)))
     /\ e = KeyError).
Proof.
  split.
  - intros e Hmissing. split; [| exact (getitem_raises _ _ _ Hmissing)].
    submit_run. rewrite Hmissing. reflexivity.
  - intros returned e Hreturned Hsame Hmissing. split.
    + submit_run. rewrite Hreturned. simpl. rewrite Hflow. simpl. rewrite Hsame.
      rewrite Hmissing. reflexivity.
    + destruct data; simpl in *; try discriminate.
      destruct (dict_get fields "id"); [discriminate | congruence].
Qed.

End SubmissionEdges.

(** The submission of step S1, answered with the token response. *)
Lemma submission_without_keys_witness :
  getitem (JObj [("id", JStr "S5"); ("access_token", JStr "T1")]) "flowId" = Raise KeyError /\
  EvergyLoginHandler.submit_login_form "user" "secret"
    (Scenario.at_form [Scenario.token_refreshed])
  = (Raise KeyError,
     (Scenario.handler_at_form,
      answered (Scenario.online [Scenario.token_refreshed])
        (submit_request "https://auth.x/a" "C1" "K1" (JStr "S1") "user" "secret"))).
Proof.
  split; [reflexivity |].
  refine (proj1 (proj1 (submission_without_keys
                          Scenario.handler_at_form (Scenario.online [Scenario.token_refreshed])
                          "user" "secret"
                          [ ("company_id", "C1"); ("sk_api_key", "KEY");
                            ("api_root", "https://auth.x/a"); ("policy_id", "P1");
                            ("post_processing_api", "/post"); ("datasource_item_id", "D1") ]
                          "https://auth.x/a" "C1" "K1" (JStr "S1") (JStr "F1")
                          Scenario.token_refreshed []
                          (JObj [("id", JStr "S5"); ("access_token", JStr "T1")])
                          eq_refl eq_refl eq_refl eq_refl eq_refl eq_refl eq_refl eq_refl
                          eq_refl eq_refl) KeyError eq_refl)).
Defined.

(** ** Where InvalidAuth comes from *)

Section BenignSteps.

Import EvergyLoginHandler.

Lemma benign_attr {A : Type} (name : string) (field : t -> option A) :
  raises_only benign (attr name field).
Proof.
  intros s e H. unfold attr in H. simpl in H. apply getattr_raises in H. subst. exact I.
Qed.

Lemma benign_auth (key : string) : raises_only benign (auth key).
Proof.
  unfold auth. apply raises_bind; [apply benign_attr | intros d].
  apply raises_lift. known_exception.
Qed.

Lemma benign_send (rq : request) : raises_only benign (send rq).
Proof.
  intros s e H. unfold send, in_world in H.
  pose proof (session_request_raises (session (fst s)) rq (snd s) e) as Hr.
  destruct (session_request (session (fst s)) rq (snd s)) as [r w']. simpl in *.
  destruct (Hr H) as [-> | [-> | ->]]; exact I.
Qed.

Ltac audit :=
  repeat first
    [ apply raises_bind; [| intros ?]
    | apply raises_if
    | apply benign_attr
    | apply benign_auth
    | apply benign_send
    | apply raises_modify
    | apply raises_ret
    | apply raises_lift; known_exception ].

Lemma benign_capability (mk_url : string -> string -> string -> url) :
  raises_only benign (capability mk_url).
Proof. unfold capability. audit. Qed.

Lemma get_auth_data_benign : raises_only benign get_auth_data.
Proof.
  unfold get_auth_data.
  apply (raises_coroutine benign (fun e => e = StopIteration \/ benign e)).
  - apply raises_bind; [| intros resp; cbv zeta].
    { apply (raises_weaken _ benign); [apply benign_send | auto]. }
    apply raises_bind; [| intros _].
    { apply raises_lift. intros e He. left. exact (feed_raises _ _ _ He). }
    apply raises_bind; [| intros _].
    { apply raises_modify. }
    apply raises_assert. right. exact I.
  - intros e [-> | He] Hne; [contradiction | exact He].
  - exact I.
Qed.

Lemma get_sdktoken_benign : raises_only benign get_sdktoken.
Proof. unfold get_sdktoken, update. audit. Qed.

Lemma start_flow_benign : raises_only benign start_flow.
Proof. unfold start_flow, update. audit. Qed.

Lemma get_login_form_benign : raises_only benign get_login_form.
Proof. unfold get_login_form, update. audit; apply benign_capability. Qed.

Lemma get_new_connection_id_benign : raises_only benign get_new_connection_id.
Proof. unfold get_new_connection_id, update. audit; apply benign_capability. Qed.

Lemma get_new_connection_cookie_benign : raises_only benign get_new_connection_cookie.
Proof. unfold get_new_connection_cookie, update. audit; apply benign_capability. Qed.

Lemma get_new_access_token_benign : raises_only benign get_new_access_token.
Proof. unfold get_new_access_token, update. audit; apply benign_capability. Qed.

Lemma postprocessing_api_benign : raises_only benign postprocessing_api.
Proof. unfold postprocessing_api. audit. Qed.

(** An exception that is not benign passes through a benign step. *)
Lemma through_benign {A B : Type} (m : M state A) (k : A -> M state B) (s : state) (e : exn) :
  raises_only benign m -> ~ benign e -> fst (bind m k s) = Raise e ->
  exists a s1, m s = (Ok a, s1) /\ bind m k s = k a s1.
Proof.
  intros Hm He H. unfold bind in *. specialize (Hm s).
  destruct (m s) as [[a | e'] s1]; simpl in *.
  - exists a, s1. auto.
  - injection H as ->. exfalso. apply He, Hm. reflexivity.
Qed.

(** An InvalidAuth of the submission comes after its request was answered. *)
Lemma submit_invalid_auth (username password message : string) (h : t) (w : world) :
  fst (submit_login_form username password (h, w)) = Raise (InvalidAuth message) ->
  exists (rq : request) (r : response) (rest : list response),
    script w = r :: rest /\ resp_ok r = true /\
    snd (submit_login_form username password (h, w)) = (h, answered w rq).
Proof.
  unfold submit_login_form, capability, auth, attr, send, update, modify, lift, in_world,
    bind, ret, raise, session_request.
  simpl.
  repeat match goal with
         | |- context [match ?x with _ => _ end] =>
             atomic_scrutinee x; destruct x eqn:?; simpl
         end;
    intros H; try discriminate H;
    try (injection H as H; subst;
         repeat match goal with
                | Hr : getattr _ _ = Raise _ |- _ => apply getattr_raises in Hr
                | Hr : dict_item _ _ = Raise _ |- _ => apply dict_item_raises in Hr
                | Hr : as_str _ = Raise _ |- _ => apply as_str_raises in Hr
                | Hr : resp_json _ _ = Raise _ |- _ => apply resp_json_raises in Hr
                | Hr : getitem _ _ = Raise _ |- _ => apply getitem_raises in Hr
                | Hr : _ \/ _ |- _ => destruct Hr
                end;
         try discriminate);
    eexists; eexists; eexists; unfold answered;
    repeat match goal with Hs : script _ = _ :: _ |- _ => rewrite Hs end; simpl;
    repeat split; try eassumption; reflexivity.
Qed.

End BenignSteps.

Lemma before_submit_exchange : exchanges 4 EvergyLoginHandler.before_submit.
Proof.
  unfold EvergyLoginHandler.before_submit.
  apply (exchanges_bind 1 3); [apply get_auth_data_exchange | intros _].
  apply (exchanges_bind 1 2); [apply get_sdktoken_exchange | intros _].
  apply (exchanges_bind 1 1); [apply start_flow_exchange | intros _].
  apply get_login_form_exchange.
Qed.

(** X19: an InvalidAuth of [EvergyLoginHandler.login] comes from the
    credential submission and from no other step: the four steps before it
    returned, the submission was issued and answered, the handler is as
    the fourth step left it, no later step ran, and exactly five requests
    were issued. *)
Theorem invalid_auth_comes_from_submission
    (username password message : string) (s : EvergyLoginHandler.state) :
  fst (EvergyLoginHandler.login username password s) = Raise (InvalidAuth message) ->
  exists (h4 : EvergyLoginHandler.t) (w4 : world) (rq : request),
    EvergyLoginHandler.before_submit s = (Ok tt, (h4, w4)) /\
    EvergyLoginHandler.submit_login_form username password (h4, w4)
    = (Raise (InvalidAuth message), (h4, answered w4 rq)) /\
    EvergyLoginHandler.login username password s
    = (Raise (InvalidAuth message), (h4, answered w4 rq)) /\
    List.length (trace (answered w4 rq)) = (List.length (trace (snd s)) + 5)%nat.
Proof.
  intros Hraise.
  assert (Hnot : ~ benign (InvalidAuth message)) by (intros H; exact H).
  unfold EvergyLoginHandler.login in *.
  destruct (through_benign _ _ s _ get_auth_data_benign Hnot Hraise) as ([] & s1 & H1 & E1).
  rewrite E1 in Hraise.
  destruct (through_benign _ _ s1 _ get_sdktoken_benign Hnot Hraise) as ([] & s2 & H2 & E2).
  rewrite E2 in Hraise.
  destruct (through_benign _ _ s2 _ start_flow_benign Hnot Hraise) as ([] & s3 & H3 & E3).
  rewrite E3 in Hraise.
  destruct (through_benign _ _ s3 _ get_login_form_benign Hnot Hraise)
    as ([] & [h4 w4] & H4 & E4).
  rewrite E4 in Hraise.
  assert (Hbefore : EvergyLoginHandler.before_submit s = (Ok tt, (h4, w4))).
  { unfold EvergyLoginHandler.before_submit, bind. rewrite H1, H2, H3. exact H4. }
  assert (Hsubmit : fst (EvergyLoginHandler.submit_login_form username password (h4, w4))
                    = Raise (InvalidAuth message)).
  { unfold bind at 1 in Hraise.
    destruct (EvergyLoginHandler.submit_login_form username password (h4, w4))
      as [[[] | e] s5]; simpl in *; [| exact Hraise].
    exfalso.
    assert (Hrest : raises_only benign
                      (EvergyLoginHandler.get_new_connection_id ;;
                       EvergyLoginHandler.get_new_connection_cookie ;;
                       EvergyLoginHandler.get_new_access_token ;;
                       EvergyLoginHandler.postprocessing_api)).
    { repeat (apply raises_bind; [| intros _]);
        auto using get_new_connection_id_benign, get_new_connection_cookie_benign,
          get_new_access_token_benign, postprocessing_api_benign. }
    exact (Hrest s5 (InvalidAuth message) Hraise). }
  destruct (submit_invalid_auth _ _ _ _ _ Hsubmit) as (rq & r & rest & Hscript & Hok & Hstate).
  assert (Hfull : EvergyLoginHandler.submit_login_form username password (h4, w4)
                  = (Raise (InvalidAuth message), (h4, answered w4 rq))).
  { destruct (EvergyLoginHandler.submit_login_form username password (h4, w4)) as [o s5].
    simpl in *. subst. reflexivity. }
  exists h4, w4, rq.
  split; [exact Hbefore | split; [exact Hfull | split]].
  - rewrite E1, E2, E3, E4. apply bind_raise. exact Hfull.
  - destruct (before_submit_exchange s) as (rqs & rs & Ht & _ & _ & _ & Hok4).
    rewrite Hbefore in Ht, Hok4. simpl in Ht, Hok4.
    destruct (Hok4 tt eq_refl) as (Hn & _).
    unfold answered. simpl. rewrite Ht, !length_app, Hn. simpl. lia.
Qed.

(** The scripted handshake with a submission answered from another flow. *)
Lemma invalid_auth_comes_from_submission_witness :
  exists (h4 : EvergyLoginHandler.t) (w4 : world) (rq : request),
    EvergyLoginHandler.before_submit (Scenario.fresh_handler (Scenario.handshake_with Scenario.unknown_user)) = (Ok tt, (h4, w4)) /\
    EvergyLoginHandler.submit_login_form "user" "secret" (h4, w4)
    = (Raise (InvalidAuth "No such username. Login failed."), (h4, answered w4 rq)) /\
    EvergyLoginHandler.login "user" "secret" (Scenario.fresh_handler (Scenario.handshake_with Scenario.unknown_user))
    = (Raise (InvalidAuth "No such username. Login failed."), (h4, answered w4 rq)) /\
    List.length (trace (answered w4 rq)) = (List.length (trace (snd (Scenario.fresh_handler (Scenario.handshake_with Scenario.unknown_user)))) + 5)%nat.
Proof.
  apply (invalid_auth_comes_from_submission "user" "secret" "No such username. Login failed."
           (Scenario.fresh_handler (Scenario.handshake_with Scenario.unknown_user))).
  vm_compute. reflexivity.
Defined.



Section Refused.

Import EvergyLoginHandler.










End Refused.


